(** * OpenGL renderer: differential pipeline-state application and device probing

    A shallow embedding of [video_core/renderer_opengl/gl_state.cpp] and of the
    binding-base and component-indexing parts of
    [video_core/renderer_opengl/gl_device.cpp], with the extension list and
    the flags its constructor derives.

    The driver is not executed: every [gl*] entry point the code calls is
    recorded as a value of [GLCall], and a context carries the process-wide
    [cur_state] together with the calls issued so far.  Device queries are
    answered by an explicit [Driver] record. *)

From Stdlib Require Import ZArith Lia Floats.PrimFloat Floats.SpecFloat Sorted.
From stdpp Require Import base tactics option list gmap strings.

Set Default Proof Using "Type".

(** ** GL scalar types

    [GLuint], [GLint], [GLsizei] and the [GLenum] values stored in the state
    are integers; the state code only copies and compares them.  [GLfloat] is
    an IEEE value: only [!=] is used on it, which the primitive float
    comparison gives (NaN differs from itself, the two zeros compare equal).

    The one place where the code computes a [GLfloat] is the
    [static_cast<GLfloat>] of the four [GLint] members of a viewport rectangle
    on their way to [glViewportIndexedf]: the nearest single-precision value,
    ties to even, so that an integer of more than 24 significant bits arrives
    rounded. [static_cast_GLfloat] gives that value as a [spec_float] at
    precision 24. *)

Abbreviation GLuint := Z (only parsing).
Abbreviation GLint := Z (only parsing).
Abbreviation GLsizei := Z (only parsing).
Abbreviation GLenum := Z (only parsing).
Abbreviation GLfloat := float (only parsing).
Abbreviation u32 := Z (only parsing).
Abbreviation binary32 := spec_float (only parsing).

Definition static_cast_GLfloat (z : GLint) : binary32 := binary_normalize 24 128 z 0 false.

(** The [!=] of C++ on floating-point operands. *)
Definition float_ne (a b : GLfloat) : bool := negb (PrimFloat.eqb a b).

(** The enumerants the code passes by name (their numeric values come from the
    GL headers and play no role). [GL_CLIP_DISTANCE0_plus i] stands for
    [GL_CLIP_DISTANCE0 + i]. *)
Inductive GLcap :=
| GL_CLIP_DISTANCE0_plus (i : nat)
| GL_SAMPLE_ALPHA_TO_COVERAGE
| GL_SAMPLE_ALPHA_TO_ONE
| GL_RASTERIZER_DISCARD
| GL_STENCIL_TEST
| GL_SCISSOR_TEST
| GL_BLEND.

Inductive GLtarget :=
| GL_READ_FRAMEBUFFER
| GL_DRAW_FRAMEBUFFER
| GL_RENDERBUFFER
| GL_CLAMP_FRAGMENT_COLOR_ARB.

Inductive GLface := GL_FRONT | GL_BACK.

(** ** The pipeline state value (the members [gl_state.cpp] reads and writes) *)

Record Draw := mkDraw {
  read_framebuffer : GLuint;
  draw_framebuffer : GLuint;
  shader_program : GLuint;
  program_pipeline : GLuint }.

Record MultisampleControl := mkMultisampleControl {
  alpha_to_coverage : bool;
  alpha_to_one : bool }.

Record ColorMask := mkColorMask {
  red_enabled : bool;
  green_enabled : bool;
  blue_enabled : bool;
  alpha_enabled : bool }.

Record StencilFace := mkStencilFace {
  test_func : GLenum;
  test_ref : GLint;
  test_mask : GLuint;
  action_stencil_fail : GLenum;
  action_depth_fail : GLenum;
  action_depth_pass : GLenum;
  write_mask : GLuint }.

Record Stencil := mkStencil {
  test_enabled : bool;
  front : StencilFace;
  back : StencilFace }.

(** [Viewport::scissor]; its members are prefixed with [scissor_]. *)
Record Scissor := mkScissor {
  scissor_enabled : bool;
  scissor_x : GLint;
  scissor_y : GLint;
  scissor_width : GLsizei;
  scissor_height : GLsizei }.

Record Viewport := mkViewport {
  x : GLint;
  y : GLint;
  width : GLint;
  height : GLint;
  depth_range_near : GLfloat;
  depth_range_far : GLfloat;
  scissor : Scissor }.

Record Blend := mkBlend {
  enabled : bool;
  rgb_equation : GLenum;
  a_equation : GLenum;
  src_rgb_func : GLenum;
  dst_rgb_func : GLenum;
  src_a_func : GLenum;
  dst_a_func : GLenum }.

Record ClipControl := mkClipControl {
  origin : GLenum;
  depth_mode : GLenum }.

(** [fragment_color_clamp.enabled] and [independant_blend.enabled] are structs
    of one member; they are kept as one boolean each. The [std::array] members
    are lists whose lengths are constrained by [well_formed] and [same_shape]
    below. *)
Record OpenGLState := mkOpenGLState {
  draw : Draw;
  clip_distance : list bool;
  fragment_color_clamp_enabled : bool;
  multisample_control : MultisampleControl;
  rasterizer_discard : bool;
  color_mask : list ColorMask;
  viewports : list Viewport;
  stencil : Stencil;
  independant_blend_enabled : bool;
  blend : list Blend;
  textures : list GLuint;
  samplers : list GLuint;
  images : list GLuint;
  clip_control : ClipControl;
  renderbuffer : GLuint }.

#[global] Instance ColorMask_inhabited : Inhabited ColorMask :=
  populate (mkColorMask true true true true).
#[global] Instance Scissor_inhabited : Inhabited Scissor :=
  populate (mkScissor false 0 0 0 0).
#[global] Instance Viewport_inhabited : Inhabited Viewport :=
  populate (mkViewport 0 0 0 0 PrimFloat.zero PrimFloat.one inhabitant).
#[global] Instance Blend_inhabited : Inhabited Blend :=
  populate (mkBlend false 0 0 0 0 0 0).

(** ** Driver calls *)

Inductive GLCall :=
| glBindFramebuffer (target : GLtarget) (framebuffer : GLuint)
| glUseProgram (program : GLuint)
| glBindProgramPipeline (pipeline : GLuint)
| glEnable (cap : GLcap)
| glDisable (cap : GLcap)
| glEnablei (cap : GLcap) (index : GLuint)
| glDisablei (cap : GLcap) (index : GLuint)
| glClampColor (target : GLtarget) (clamp : bool)
| glColorMaski (index : GLuint) (r g b a : bool)
| glStencilFuncSeparate (face : GLface) (func : GLenum) (ref : GLint) (mask : GLuint)
| glStencilOpSeparate (face : GLface) (sfail dpfail dppass : GLenum)
| glStencilMaskSeparate (face : GLface) (mask : GLuint)
| glViewportIndexedf (index : GLuint) (vx vy vw vh : binary32)
| glDepthRangeIndexed (index : GLuint) (n f : GLfloat)
| glScissorIndexed (index : GLuint) (left bottom : GLint) (w h : GLsizei)
| glBlendFuncSeparate (srcRGB dstRGB srcAlpha dstAlpha : GLenum)
| glBlendEquationSeparate (modeRGB modeAlpha : GLenum)
| glBlendFuncSeparatei (buf : GLuint) (srcRGB dstRGB srcAlpha dstAlpha : GLenum)
| glBlendEquationSeparatei (buf : GLuint) (modeRGB modeAlpha : GLenum)
| glClipControl (clip_origin clip_depth : GLenum)
| glBindRenderbuffer (target : GLtarget) (rb : GLuint)
| glBindTextureUnit (unit : GLuint) (texture : GLuint)
| glBindSampler (unit : GLuint) (sampler : GLuint)
| glBindImageTextures (first : GLuint) (count : GLsizei) (handles : list GLuint).

(** The GL context as the state code sees it: the static member
    [OpenGLState::cur_state] and the calls issued, oldest first. *)
Record GLContext := mkGLContext {
  cur_state : OpenGLState;
  gl_calls : list GLCall }.

Definition with_cur (s : OpenGLState) (gl : GLContext) : GLContext :=
  mkGLContext s (gl_calls gl).

Definition issue (c : GLCall) (gl : GLContext) : GLContext :=
  mkGLContext (cur_state gl) (gl_calls gl ++ [c]).

(** ** Member assignment *)

Definition set_draw v s :=
  mkOpenGLState v (clip_distance s) (fragment_color_clamp_enabled s)
    (multisample_control s) (rasterizer_discard s) (color_mask s) (viewports s)
    (stencil s) (independant_blend_enabled s) (blend s) (textures s)
    (samplers s) (images s) (clip_control s) (renderbuffer s).
Definition set_clip_distance v s :=
  mkOpenGLState (draw s) v (fragment_color_clamp_enabled s)
    (multisample_control s) (rasterizer_discard s) (color_mask s) (viewports s)
    (stencil s) (independant_blend_enabled s) (blend s) (textures s)
    (samplers s) (images s) (clip_control s) (renderbuffer s).
Definition set_fragment_color_clamp_enabled v s :=
  mkOpenGLState (draw s) (clip_distance s) v
    (multisample_control s) (rasterizer_discard s) (color_mask s) (viewports s)
    (stencil s) (independant_blend_enabled s) (blend s) (textures s)
    (samplers s) (images s) (clip_control s) (renderbuffer s).
Definition set_multisample_control v s :=
  mkOpenGLState (draw s) (clip_distance s) (fragment_color_clamp_enabled s)
    v (rasterizer_discard s) (color_mask s) (viewports s)
    (stencil s) (independant_blend_enabled s) (blend s) (textures s)
    (samplers s) (images s) (clip_control s) (renderbuffer s).
Definition set_rasterizer_discard v s :=
  mkOpenGLState (draw s) (clip_distance s) (fragment_color_clamp_enabled s)
    (multisample_control s) v (color_mask s) (viewports s)
    (stencil s) (independant_blend_enabled s) (blend s) (textures s)
    (samplers s) (images s) (clip_control s) (renderbuffer s).
Definition set_color_mask v s :=
  mkOpenGLState (draw s) (clip_distance s) (fragment_color_clamp_enabled s)
    (multisample_control s) (rasterizer_discard s) v (viewports s)
    (stencil s) (independant_blend_enabled s) (blend s) (textures s)
    (samplers s) (images s) (clip_control s) (renderbuffer s).
Definition set_viewports v s :=
  mkOpenGLState (draw s) (clip_distance s) (fragment_color_clamp_enabled s)
    (multisample_control s) (rasterizer_discard s) (color_mask s) v
    (stencil s) (independant_blend_enabled s) (blend s) (textures s)
    (samplers s) (images s) (clip_control s) (renderbuffer s).
Definition set_stencil v s :=
  mkOpenGLState (draw s) (clip_distance s) (fragment_color_clamp_enabled s)
    (multisample_control s) (rasterizer_discard s) (color_mask s) (viewports s)
    v (independant_blend_enabled s) (blend s) (textures s)
    (samplers s) (images s) (clip_control s) (renderbuffer s).
Definition set_independant_blend_enabled v s :=
  mkOpenGLState (draw s) (clip_distance s) (fragment_color_clamp_enabled s)
    (multisample_control s) (rasterizer_discard s) (color_mask s) (viewports s)
    (stencil s) v (blend s) (textures s)
    (samplers s) (images s) (clip_control s) (renderbuffer s).
Definition set_blend v s :=
  mkOpenGLState (draw s) (clip_distance s) (fragment_color_clamp_enabled s)
    (multisample_control s) (rasterizer_discard s) (color_mask s) (viewports s)
    (stencil s) (independant_blend_enabled s) v (textures s)
    (samplers s) (images s) (clip_control s) (renderbuffer s).
Definition set_textures v s :=
  mkOpenGLState (draw s) (clip_distance s) (fragment_color_clamp_enabled s)
    (multisample_control s) (rasterizer_discard s) (color_mask s) (viewports s)
    (stencil s) (independant_blend_enabled s) (blend s) v
    (samplers s) (images s) (clip_control s) (renderbuffer s).
Definition set_samplers v s :=
  mkOpenGLState (draw s) (clip_distance s) (fragment_color_clamp_enabled s)
    (multisample_control s) (rasterizer_discard s) (color_mask s) (viewports s)
    (stencil s) (independant_blend_enabled s) (blend s) (textures s)
    v (images s) (clip_control s) (renderbuffer s).
Definition set_images v s :=
  mkOpenGLState (draw s) (clip_distance s) (fragment_color_clamp_enabled s)
    (multisample_control s) (rasterizer_discard s) (color_mask s) (viewports s)
    (stencil s) (independant_blend_enabled s) (blend s) (textures s)
    (samplers s) v (clip_control s) (renderbuffer s).
Definition set_clip_control v s :=
  mkOpenGLState (draw s) (clip_distance s) (fragment_color_clamp_enabled s)
    (multisample_control s) (rasterizer_discard s) (color_mask s) (viewports s)
    (stencil s) (independant_blend_enabled s) (blend s) (textures s)
    (samplers s) (images s) v (renderbuffer s).
Definition set_renderbuffer v s :=
  mkOpenGLState (draw s) (clip_distance s) (fragment_color_clamp_enabled s)
    (multisample_control s) (rasterizer_discard s) (color_mask s) (viewports s)
    (stencil s) (independant_blend_enabled s) (blend s) (textures s)
    (samplers s) (images s) (clip_control s) v.

Definition set_read_framebuffer v d :=
  mkDraw v (draw_framebuffer d) (shader_program d) (program_pipeline d).
Definition set_draw_framebuffer v d :=
  mkDraw (read_framebuffer d) v (shader_program d) (program_pipeline d).
Definition set_shader_program v d :=
  mkDraw (read_framebuffer d) (draw_framebuffer d) v (program_pipeline d).
Definition set_program_pipeline v d :=
  mkDraw (read_framebuffer d) (draw_framebuffer d) (shader_program d) v.

(** ** Loops

    [for_loop n body] runs [body 0], [body 1], ..., [body (n - 1)] in that
    order on a threaded state: the shape of every [for] of the two files. *)
Fixpoint for_loop {S : Type} (n : nat) (body : nat → S → S) (s : S) : S :=
  match n with
  | O => s
  | Datatypes.S k => body k (for_loop k body s)
  end.

(** ** Anonymous-namespace helpers of [gl_state.cpp] *)

(** [UpdateValue(T& current_value, const T new_value)]: the result is the
    returned [changed] paired with the value left in [current_value]. *)
Definition UpdateValue {T} `{EqDecision T} (current_value new_value : T) : bool * T :=
  let changed := bool_decide (current_value ≠ new_value) in
  (changed, new_value).

(** [UpdateTie]: [current_value] is a tuple of references made by [std::tie],
    so the assignment writes through to the tied members; the caller stores
    the second component back into them. *)
Definition UpdateTie {T} `{EqDecision T} (current_value new_value : T) : bool * T :=
  let changed := bool_decide (current_value ≠ new_value) in
  (changed, new_value).

(** [UpdateArray]: one scan, tracking the first and the last differing index.
    The result pairs the array left in [current_values] with the returned
    optional [(first, count)]. The local [last] is uninitialised until the
    first difference; it is read only when [first] holds a value. *)
Definition UpdateArray (current_values new_values : list GLuint)
  : list GLuint * option (GLuint * GLsizei) :=
  let '(current_values, first, last) :=
    for_loop (length current_values)
      (fun i '(current_values, first, last) =>
         let '(changed, v) := UpdateValue (current_values !!! i) (new_values !!! i) in
         let current_values := <[i := v]> current_values in
         if negb changed then (current_values, first, last)
         else
           let first := match first with None => Some i | Some _ => first end in
           (current_values, first, i))
      (current_values, None, 0) in
  match first with
  | None => (current_values, None)
  | Some first => (current_values, Some (Z.of_nat first, Z.of_nat (last - first + 1)))
  end.

(** The four overloads of [Enable]. *)
Definition Enable (cap : GLcap) (enable : bool) (gl : GLContext) : GLContext :=
  if enable then issue (glEnable cap) gl else issue (glDisable cap) gl.

Definition Enablei (cap : GLcap) (index : GLuint) (enable : bool) (gl : GLContext)
  : GLContext :=
  if enable then issue (glEnablei cap index) gl else issue (glDisablei cap index) gl.

(** [Enable(cap, bool& current_value, bool new_value)]: returns the value left
    in [current_value] with the context. *)
Definition EnableCached (cap : GLcap) (current_value new_value : bool) (gl : GLContext)
  : bool * GLContext :=
  let '(changed, v) := UpdateValue current_value new_value in
  (v, if changed then Enable cap new_value gl else gl).

Definition EnableCachedi (cap : GLcap) (index : GLuint) (current_value new_value : bool)
  (gl : GLContext) : bool * GLContext :=
  let '(changed, v) := UpdateValue current_value new_value in
  (v, if changed then Enablei cap index new_value gl else gl).

(** ** The per-category apply routines

    Each takes the desired state [self] (the object [Apply] is called on) and
    threads the context holding [cur_state]. *)

Section Apply.

(** [Maxwell::NumRenderTargets] and [Maxwell::NumViewports] are declared in the
    register header, outside these two files; they are taken as parameters. *)
Variable NumRenderTargets : nat.
Variable NumViewports : nat.

Definition ApplyFramebufferState (self : OpenGLState) (gl : GLContext) : GLContext :=
  let cur := cur_state gl in
  let '(changed, v) :=
    UpdateValue (read_framebuffer (draw cur)) (read_framebuffer (draw self)) in
  let gl := with_cur (set_draw (set_read_framebuffer v (draw cur)) cur) gl in
  let gl := if changed
            then issue (glBindFramebuffer GL_READ_FRAMEBUFFER (read_framebuffer (draw self))) gl
            else gl in
  let cur := cur_state gl in
  let '(changed, v) :=
    UpdateValue (draw_framebuffer (draw cur)) (draw_framebuffer (draw self)) in
  let gl := with_cur (set_draw (set_draw_framebuffer v (draw cur)) cur) gl in
  if changed
  then issue (glBindFramebuffer GL_DRAW_FRAMEBUFFER (draw_framebuffer (draw self))) gl
  else gl.

Definition ApplyShaderProgram (self : OpenGLState) (gl : GLContext) : GLContext :=
  let cur := cur_state gl in
  let '(changed, v) := UpdateValue (shader_program (draw cur)) (shader_program (draw self)) in
  let gl := with_cur (set_draw (set_shader_program v (draw cur)) cur) gl in
  if changed then issue (glUseProgram (shader_program (draw self))) gl else gl.

Definition ApplyProgramPipeline (self : OpenGLState) (gl : GLContext) : GLContext :=
  let cur := cur_state gl in
  let '(changed, v) :=
    UpdateValue (program_pipeline (draw cur)) (program_pipeline (draw self)) in
  let gl := with_cur (set_draw (set_program_pipeline v (draw cur)) cur) gl in
  if changed then issue (glBindProgramPipeline (program_pipeline (draw self))) gl else gl.

Definition ApplyClipDistances (self : OpenGLState) (gl : GLContext) : GLContext :=
  for_loop (length (clip_distance self))
    (fun i gl =>
       let cur := cur_state gl in
       let '(v, gl) := EnableCached (GL_CLIP_DISTANCE0_plus i) (clip_distance cur !!! i)
                         (clip_distance self !!! i) gl in
       with_cur (set_clip_distance (<[i := v]> (clip_distance cur)) cur) gl)
    gl.

Definition ApplyFragmentColorClamp (self : OpenGLState) (gl : GLContext) : GLContext :=
  let cur := cur_state gl in
  let '(changed, v) :=
    UpdateValue (fragment_color_clamp_enabled cur) (fragment_color_clamp_enabled self) in
  let gl := with_cur (set_fragment_color_clamp_enabled v cur) gl in
  if changed
  then issue (glClampColor GL_CLAMP_FRAGMENT_COLOR_ARB
                (if fragment_color_clamp_enabled self then true else false)) gl
  else gl.

Definition ApplyMultisample (self : OpenGLState) (gl : GLContext) : GLContext :=
  let cur := cur_state gl in
  let '(v, gl) := EnableCached GL_SAMPLE_ALPHA_TO_COVERAGE
                    (alpha_to_coverage (multisample_control cur))
                    (alpha_to_coverage (multisample_control self)) gl in
  let gl := with_cur (set_multisample_control
                        (mkMultisampleControl v (alpha_to_one (multisample_control cur)))
                        cur) gl in
  let cur := cur_state gl in
  let '(v, gl) := EnableCached GL_SAMPLE_ALPHA_TO_ONE
                    (alpha_to_one (multisample_control cur))
                    (alpha_to_one (multisample_control self)) gl in
  with_cur (set_multisample_control
              (mkMultisampleControl (alpha_to_coverage (multisample_control cur)) v)
              cur) gl.

Definition ApplyRasterizerDiscard (self : OpenGLState) (gl : GLContext) : GLContext :=
  let cur := cur_state gl in
  let '(v, gl) := EnableCached GL_RASTERIZER_DISCARD (rasterizer_discard cur)
                    (rasterizer_discard self) gl in
  with_cur (set_rasterizer_discard v cur) gl.

Definition ApplyColorMask (self : OpenGLState) (gl : GLContext) : GLContext :=
  for_loop NumRenderTargets
    (fun i gl =>
       let updated := color_mask self !!! i in
       let cur := cur_state gl in
       let current := color_mask cur !!! i in
       if bool_decide (red_enabled updated ≠ red_enabled current)
          || bool_decide (green_enabled updated ≠ green_enabled current)
          || bool_decide (blue_enabled updated ≠ blue_enabled current)
          || bool_decide (alpha_enabled updated ≠ alpha_enabled current)
       then
         let gl := with_cur (set_color_mask (<[i := updated]> (color_mask cur)) cur) gl in
         issue (glColorMaski (Z.of_nat i) (red_enabled updated) (green_enabled updated)
                  (blue_enabled updated) (alpha_enabled updated)) gl
       else gl)
    gl.

(** The lambda [ConfigStencil] of [ApplyStencilTest]; [current] is a reference
    into [cur_state], returned here and stored back by the caller. *)
Definition ConfigStencil (face : GLface) (config current : StencilFace) (gl : GLContext)
  : StencilFace * GLContext :=
  let '(current, gl) :=
    if bool_decide (test_func current ≠ test_func config)
       || bool_decide (test_ref current ≠ test_ref config)
       || bool_decide (test_mask current ≠ test_mask config)
    then (mkStencilFace (test_func config) (test_ref config) (test_mask config)
            (action_stencil_fail current) (action_depth_fail current)
            (action_depth_pass current) (write_mask current),
          issue (glStencilFuncSeparate face (test_func config) (test_ref config)
                   (test_mask config)) gl)
    else (current, gl) in
  let '(current, gl) :=
    if bool_decide (action_depth_fail current ≠ action_depth_fail config)
       || bool_decide (action_depth_pass current ≠ action_depth_pass config)
       || bool_decide (action_stencil_fail current ≠ action_stencil_fail config)
    then (mkStencilFace (test_func current) (test_ref current) (test_mask current)
            (action_stencil_fail config) (action_depth_fail config)
            (action_depth_pass config) (write_mask current),
          issue (glStencilOpSeparate face (action_stencil_fail config)
                   (action_depth_fail config) (action_depth_pass config)) gl)
    else (current, gl) in
  if bool_decide (write_mask current ≠ write_mask config)
  then (mkStencilFace (test_func current) (test_ref current) (test_mask current)
          (action_stencil_fail current) (action_depth_fail current)
          (action_depth_pass current) (write_mask config),
        issue (glStencilMaskSeparate face (write_mask config)) gl)
  else (current, gl).

Definition ApplyStencilTest (self : OpenGLState) (gl : GLContext) : GLContext :=
  let cur := cur_state gl in
  let '(v, gl) := EnableCached GL_STENCIL_TEST (test_enabled (stencil cur))
                    (test_enabled (stencil self)) gl in
  let gl := with_cur (set_stencil (mkStencil v (front (stencil cur)) (back (stencil cur)))
                        cur) gl in
  let cur := cur_state gl in
  let '(f, gl) := ConfigStencil GL_FRONT (front (stencil self)) (front (stencil cur)) gl in
  let gl := with_cur (set_stencil (mkStencil (test_enabled (stencil cur)) f
                                     (back (stencil cur))) cur) gl in
  let cur := cur_state gl in
  let '(b, gl) := ConfigStencil GL_BACK (back (stencil self)) (back (stencil cur)) gl in
  with_cur (set_stencil (mkStencil (test_enabled (stencil cur)) (front (stencil cur)) b)
              cur) gl.

Definition ApplyViewport (self : OpenGLState) (gl : GLContext) : GLContext :=
  for_loop NumViewports
    (fun i gl =>
       let updated := viewports self !!! i in
       let cur := cur_state gl in
       let current := viewports cur !!! i in
       let '(current, gl) :=
         if bool_decide (x current ≠ x updated) || bool_decide (y current ≠ y updated)
            || bool_decide (width current ≠ width updated)
            || bool_decide (height current ≠ height updated)
         then (mkViewport (x updated) (y updated) (width updated) (height updated)
                 (depth_range_near current) (depth_range_far current) (scissor current),
               issue (glViewportIndexedf (Z.of_nat i)
                        (static_cast_GLfloat (x updated))
                        (static_cast_GLfloat (y updated))
                        (static_cast_GLfloat (width updated))
                        (static_cast_GLfloat (height updated))) gl)
         else (current, gl) in
       let '(current, gl) :=
         if float_ne (depth_range_near current) (depth_range_near updated)
            || float_ne (depth_range_far current) (depth_range_far updated)
         then (mkViewport (x current) (y current) (width current) (height current)
                 (depth_range_near updated) (depth_range_far updated) (scissor current),
               issue (glDepthRangeIndexed (Z.of_nat i) (depth_range_near updated)
                        (depth_range_far updated)) gl)
         else (current, gl) in
       let '(v, gl) := EnableCachedi GL_SCISSOR_TEST (Z.of_nat i)
                         (scissor_enabled (scissor current))
                         (scissor_enabled (scissor updated)) gl in
       let current :=
         mkViewport (x current) (y current) (width current) (height current)
           (depth_range_near current) (depth_range_far current)
           (mkScissor v (scissor_x (scissor current)) (scissor_y (scissor current))
              (scissor_width (scissor current)) (scissor_height (scissor current))) in
       let '(current, gl) :=
         if bool_decide (scissor_x (scissor current) ≠ scissor_x (scissor updated))
            || bool_decide (scissor_y (scissor current) ≠ scissor_y (scissor updated))
            || bool_decide (scissor_width (scissor current) ≠ scissor_width (scissor updated))
            || bool_decide (scissor_height (scissor current) ≠ scissor_height (scissor updated))
         then (mkViewport (x current) (y current) (width current) (height current)
                 (depth_range_near current) (depth_range_far current)
                 (mkScissor (scissor_enabled (scissor current))
                    (scissor_x (scissor updated)) (scissor_y (scissor updated))
                    (scissor_width (scissor updated)) (scissor_height (scissor updated))),
               issue (glScissorIndexed (Z.of_nat i) (scissor_x (scissor updated))
                        (scissor_y (scissor updated)) (scissor_width (scissor updated))
                        (scissor_height (scissor updated))) gl)
         else (current, gl) in
       with_cur (set_viewports (<[i := current]> (viewports cur)) cur) gl)
    gl.

Definition ApplyGlobalBlending (self : OpenGLState) (gl : GLContext) : GLContext :=
  let updated := blend self !!! 0 in
  let cur := cur_state gl in
  let current := blend cur !!! 0 in
  let '(v, gl) := EnableCached GL_BLEND (enabled current) (enabled updated) gl in
  let current := mkBlend v (rgb_equation current) (a_equation current)
                   (src_rgb_func current) (dst_rgb_func current)
                   (src_a_func current) (dst_a_func current) in
  let '(current, gl) :=
    if bool_decide (src_rgb_func current ≠ src_rgb_func updated)
       || bool_decide (dst_rgb_func current ≠ dst_rgb_func updated)
       || bool_decide (src_a_func current ≠ src_a_func updated)
       || bool_decide (dst_a_func current ≠ dst_a_func updated)
    then (mkBlend (enabled current) (rgb_equation current) (a_equation current)
            (src_rgb_func updated) (dst_rgb_func updated)
            (src_a_func updated) (dst_a_func updated),
          issue (glBlendFuncSeparate (src_rgb_func updated) (dst_rgb_func updated)
                   (src_a_func updated) (dst_a_func updated)) gl)
    else (current, gl) in
  let '(current, gl) :=
    if bool_decide (rgb_equation current ≠ rgb_equation updated)
       || bool_decide (a_equation current ≠ a_equation updated)
    then (mkBlend (enabled current) (rgb_equation updated) (a_equation updated)
            (src_rgb_func current) (dst_rgb_func current)
            (src_a_func current) (dst_a_func current),
          issue (glBlendEquationSeparate (rgb_equation updated) (a_equation updated)) gl)
    else (current, gl) in
  with_cur (set_blend (<[0%nat := current]> (blend cur)) cur) gl.

Definition ApplyTargetBlending (self : OpenGLState) (target : nat) (force : bool)
  (gl : GLContext) : GLContext :=
  let updated := blend self !!! target in
  let cur := cur_state gl in
  let current := blend cur !!! target in
  let '(current, gl) :=
    if bool_decide (enabled current ≠ enabled updated) || force
    then (mkBlend (enabled updated) (rgb_equation current) (a_equation current)
            (src_rgb_func current) (dst_rgb_func current)
            (src_a_func current) (dst_a_func current),
          Enablei GL_BLEND (Z.of_nat target) (enabled updated) gl)
    else (current, gl) in
  let '(changed, (sr, dr, sa, da)) :=
    UpdateTie (src_rgb_func current, dst_rgb_func current,
               src_a_func current, dst_a_func current)
              (src_rgb_func updated, dst_rgb_func updated,
               src_a_func updated, dst_a_func updated) in
  let current := mkBlend (enabled current) (rgb_equation current) (a_equation current)
                   sr dr sa da in
  let gl := if changed
            then issue (glBlendFuncSeparatei (Z.of_nat target) (src_rgb_func updated)
                          (dst_rgb_func updated) (src_a_func updated)
                          (dst_a_func updated)) gl
            else gl in
  let '(changed, (re, ae)) :=
    UpdateTie (rgb_equation current, a_equation current)
              (rgb_equation updated, a_equation updated) in
  let current := mkBlend (enabled current) re ae
                   (src_rgb_func current) (dst_rgb_func current)
                   (src_a_func current) (dst_a_func current) in
  let gl := if changed
            then issue (glBlendEquationSeparatei (Z.of_nat target) (rgb_equation updated)
                          (a_equation updated)) gl
            else gl in
  with_cur (set_blend (<[target := current]> (blend cur)) cur) gl.

Definition ApplyBlending (self : OpenGLState) (gl : GLContext) : GLContext :=
  let gl :=
    if independant_blend_enabled self then
      let force := bool_decide (independant_blend_enabled self
                                ≠ independant_blend_enabled (cur_state gl)) in
      for_loop NumRenderTargets (fun target gl => ApplyTargetBlending self target force gl) gl
    else ApplyGlobalBlending self gl in
  with_cur (set_independant_blend_enabled (independant_blend_enabled self) (cur_state gl)) gl.

Definition ApplyClipControl (self : OpenGLState) (gl : GLContext) : GLContext :=
  let cur := cur_state gl in
  let '(changed, (o, d)) :=
    UpdateTie (origin (clip_control cur), depth_mode (clip_control cur))
              (origin (clip_control self), depth_mode (clip_control self)) in
  let gl := with_cur (set_clip_control (mkClipControl o d) cur) gl in
  if changed
  then issue (glClipControl (origin (clip_control self)) (depth_mode (clip_control self))) gl
  else gl.

Definition ApplyRenderBuffer (self : OpenGLState) (gl : GLContext) : GLContext :=
  let cur := cur_state gl in
  if bool_decide (renderbuffer cur ≠ renderbuffer self)
  then issue (glBindRenderbuffer GL_RENDERBUFFER (renderbuffer self))
         (with_cur (set_renderbuffer (renderbuffer self) cur) gl)
  else gl.

Definition ApplyTextures (self : OpenGLState) (gl : GLContext) : GLContext :=
  let size := length (textures self) in
  for_loop size
    (fun i gl =>
       let cur := cur_state gl in
       let '(changed, v) := UpdateValue (textures cur !!! i) (textures self !!! i) in
       let gl := with_cur (set_textures (<[i := v]> (textures cur)) cur) gl in
       if changed
       then if bool_decide (textures self !!! i ≠ 0%Z)
            then issue (glBindTextureUnit (Z.of_nat i) (textures self !!! i)) gl
            else gl
       else gl)
    gl.

Definition ApplySamplers (self : OpenGLState) (gl : GLContext) : GLContext :=
  let size := length (samplers self) in
  for_loop size
    (fun i gl =>
       let cur := cur_state gl in
       let '(changed, v) := UpdateValue (samplers cur !!! i) (samplers self !!! i) in
       let gl := with_cur (set_samplers (<[i := v]> (samplers cur)) cur) gl in
       if changed then issue (glBindSampler (Z.of_nat i) (samplers self !!! i)) gl else gl)
    gl.

(** [images.data() + update->first] with the count [update->second]: the driver
    reads that many handles of the desired array from that position on. *)
Definition ApplyImages (self : OpenGLState) (gl : GLContext) : GLContext :=
  let cur := cur_state gl in
  let '(current_values, update) := UpdateArray (images cur) (images self) in
  let gl := with_cur (set_images current_values cur) gl in
  match update with
  | Some (first, count) =>
      issue (glBindImageTextures first count
               (take (Z.to_nat count) (drop (Z.to_nat first) (images self)))) gl
  | None => gl
  end.

Definition Apply (self : OpenGLState) (gl : GLContext) : GLContext :=
  let gl := ApplyFramebufferState self gl in
  let gl := ApplyShaderProgram self gl in
  let gl := ApplyProgramPipeline self gl in
  let gl := ApplyClipDistances self gl in
  let gl := ApplyFragmentColorClamp self gl in
  let gl := ApplyMultisample self gl in
  let gl := ApplyRasterizerDiscard self gl in
  let gl := ApplyColorMask self gl in
  let gl := ApplyViewport self gl in
  let gl := ApplyStencilTest self gl in
  let gl := ApplyBlending self gl in
  let gl := ApplyTextures self gl in
  let gl := ApplySamplers self gl in
  let gl := ApplyImages self gl in
  let gl := ApplyClipControl self gl in
  ApplyRenderBuffer self gl.

End Apply.

(** ** Viewport emulation and invalidation (members acting on [*this]) *)

(** [GLint] arithmetic: the sums and differences of [EmulateViewportWithScissor]
    are taken in 32-bit two's complement. *)
Definition wrap_GLint (z : Z) : GLint := ((z + 2 ^ 31) mod 2 ^ 32 - 2 ^ 31)%Z.

Definition EmulateViewportWithScissor (self : OpenGLState) : OpenGLState :=
  let current := viewports self !!! 0 in
  let sc := scissor current in
  let sc :=
    if scissor_enabled sc then
      let left := Z.max (x current) (scissor_x sc) in
      let right := Z.max (wrap_GLint (x current + width current))
                         (wrap_GLint (scissor_x sc + scissor_width sc)) in
      let bottom := Z.max (y current) (scissor_y sc) in
      let top := Z.max (wrap_GLint (y current + height current))
                       (wrap_GLint (scissor_y sc + scissor_height sc)) in
      mkScissor (scissor_enabled sc)
        (Z.max left 0) (Z.max bottom 0)
        (Z.max (wrap_GLint (right - left)) 0) (Z.max (wrap_GLint (top - bottom)) 0)
    else
      mkScissor true (x current) (y current) (width current) (height current) in
  let current := mkViewport (x current) (y current) (width current) (height current)
                   (depth_range_near current) (depth_range_far current) sc in
  set_viewports (<[0%nat := current]> (viewports self)) self.

Definition UnbindTexture (handle : GLuint) (self : OpenGLState) : OpenGLState :=
  set_textures
    (map (fun texture => if bool_decide (texture = handle) then 0%Z else texture)
       (textures self)) self.

Definition ResetSampler (handle : GLuint) (self : OpenGLState) : OpenGLState :=
  set_samplers
    (map (fun sampler => if bool_decide (sampler = handle) then 0%Z else sampler)
       (samplers self)) self.

Definition ResetProgram (handle : GLuint) (self : OpenGLState) : OpenGLState :=
  if bool_decide (shader_program (draw self) = handle)
  then set_draw (set_shader_program 0%Z (draw self)) self
  else self.

Definition ResetPipeline (handle : GLuint) (self : OpenGLState) : OpenGLState :=
  if bool_decide (program_pipeline (draw self) = handle)
  then set_draw (set_program_pipeline 0%Z (draw self)) self
  else self.

Definition ResetFramebuffer (handle : GLuint) (self : OpenGLState) : OpenGLState :=
  let self :=
    if bool_decide (read_framebuffer (draw self) = handle)
    then set_draw (set_read_framebuffer 0%Z (draw self)) self
    else self in
  if bool_decide (draw_framebuffer (draw self) = handle)
  then set_draw (set_draw_framebuffer 0%Z (draw self)) self
  else self.

Definition ResetRenderbuffer (handle : GLuint) (self : OpenGLState) : OpenGLState :=
  if bool_decide (renderbuffer self = handle)
  then set_renderbuffer 0%Z self
  else self.

(** The six members above return [OpenGLState&] by [return *this]. Objects live
    in a store addressed by [ObjRef]; calling a member through a reference
    mutates the object in place and hands the same reference back. Calling it
    through a dangling reference has no defined behaviour ([None]). *)
Definition ObjRef := positive.
Definition ObjStore := gmap ObjRef OpenGLState.

Definition call_member (member : OpenGLState → OpenGLState) (this : ObjRef)
  (store : ObjStore) : option (ObjRef * ObjStore) :=
  match store !! this with
  | Some self => Some (this, <[this := member self]> store)
  | None => None
  end.

(** ** Device: binding bases and the component-indexing probe *)

(** The limits [BuildBaseBindings] is asked for. *)
Inductive GLlimit :=
| GL_MAX_VERTEX_UNIFORM_BLOCKS
| GL_MAX_VERTEX_SHADER_STORAGE_BLOCKS
| GL_MAX_VERTEX_TEXTURE_IMAGE_UNITS
| GL_MAX_VERTEX_IMAGE_UNIFORMS
| GL_MAX_TESS_CONTROL_UNIFORM_BLOCKS
| GL_MAX_TESS_CONTROL_SHADER_STORAGE_BLOCKS
| GL_MAX_TESS_CONTROL_TEXTURE_IMAGE_UNITS
| GL_MAX_TESS_CONTROL_IMAGE_UNIFORMS
| GL_MAX_TESS_EVALUATION_UNIFORM_BLOCKS
| GL_MAX_TESS_EVALUATION_SHADER_STORAGE_BLOCKS
| GL_MAX_TESS_EVALUATION_TEXTURE_IMAGE_UNITS
| GL_MAX_TESS_EVALUATION_IMAGE_UNIFORMS
| GL_MAX_GEOMETRY_UNIFORM_BLOCKS
| GL_MAX_GEOMETRY_SHADER_STORAGE_BLOCKS
| GL_MAX_GEOMETRY_TEXTURE_IMAGE_UNITS
| GL_MAX_GEOMETRY_IMAGE_UNIFORMS.

(** What the host driver answers: [glGetIntegerv] for a limit, and the word the
    component-indexing test program leaves in the storage buffer when it is run
    with the uniform [idx] set to a given index. *)
Record Driver := mkDriver {
  glGetIntegerv : GLlimit → GLint;
  component_test_output : GLuint → GLuint }.

Definition to_u32 (z : Z) : u32 := (z mod 2 ^ 32)%Z.

(** [GetInteger<u32>]: the [GLint] answer converted by [static_cast]. *)
Definition GetInteger_u32 (drv : Driver) (pname : GLlimit) : u32 :=
  to_u32 (glGetIntegerv drv pname).

Record BaseBindings := mkBaseBindings {
  uniform_buffer : u32;
  shader_storage_buffer : u32;
  sampler : u32;
  image : u32 }.

#[global] Instance BaseBindings_inhabited : Inhabited BaseBindings :=
  populate (mkBaseBindings 0 0 0 0).

Definition ReservedUniformBlocks : u32 := 1%Z.

(** [operator+] on [BaseBindings], in [u32] arithmetic. *)
Definition BaseBindings_add (lhs rhs : BaseBindings) : BaseBindings :=
  mkBaseBindings
    (to_u32 (uniform_buffer lhs + uniform_buffer rhs))
    (to_u32 (shader_storage_buffer lhs + shader_storage_buffer rhs))
    (to_u32 (sampler lhs + sampler rhs))
    (to_u32 (image lhs + image rhs)).

Definition BuildBaseBindings (drv : Driver)
  (uniform_blocks shader_storage_blocks texture_image_units image_uniforms : GLlimit)
  : BaseBindings :=
  mkBaseBindings
    (to_u32 (GetInteger_u32 drv uniform_blocks - ReservedUniformBlocks))
    (GetInteger_u32 drv shader_storage_blocks)
    (GetInteger_u32 drv texture_image_units)
    (GetInteger_u32 drv image_uniforms).

(** The [base_bindings] member as [Device::Device()] leaves it: six entries,
    assigned in index order. *)
Definition Device_base_bindings (drv : Driver) : list BaseBindings :=
  let base_bindings := replicate 6 inhabitant in
  let base_bindings :=
    <[0%nat := mkBaseBindings ReservedUniformBlocks 0 0 0]> base_bindings in
  let base_bindings :=
    <[1%nat := BaseBindings_add (base_bindings !!! 0%nat)
                 (BuildBaseBindings drv GL_MAX_VERTEX_UNIFORM_BLOCKS
                    GL_MAX_VERTEX_SHADER_STORAGE_BLOCKS
                    GL_MAX_VERTEX_TEXTURE_IMAGE_UNITS
                    GL_MAX_VERTEX_IMAGE_UNIFORMS)]> base_bindings in
  let base_bindings :=
    <[2%nat := BaseBindings_add (base_bindings !!! 1%nat)
                 (BuildBaseBindings drv GL_MAX_TESS_CONTROL_UNIFORM_BLOCKS
                    GL_MAX_TESS_CONTROL_SHADER_STORAGE_BLOCKS
                    GL_MAX_TESS_CONTROL_TEXTURE_IMAGE_UNITS
                    GL_MAX_TESS_CONTROL_IMAGE_UNIFORMS)]> base_bindings in
  let base_bindings :=
    <[3%nat := BaseBindings_add (base_bindings !!! 2%nat)
                 (BuildBaseBindings drv GL_MAX_TESS_EVALUATION_UNIFORM_BLOCKS
                    GL_MAX_TESS_EVALUATION_SHADER_STORAGE_BLOCKS
                    GL_MAX_TESS_EVALUATION_TEXTURE_IMAGE_UNITS
                    GL_MAX_TESS_EVALUATION_IMAGE_UNIFORMS)]> base_bindings in
  let base_bindings :=
    <[4%nat := BaseBindings_add (base_bindings !!! 3%nat)
                 (BuildBaseBindings drv GL_MAX_GEOMETRY_UNIFORM_BLOCKS
                    GL_MAX_GEOMETRY_SHADER_STORAGE_BLOCKS
                    GL_MAX_GEOMETRY_TEXTURE_IMAGE_UNITS
                    GL_MAX_GEOMETRY_IMAGE_UNIFORMS)]> base_bindings in
  <[5%nat := mkBaseBindings 0 0 0 0]> base_bindings.

(** [TestComponentIndexingBug]: the array uploaded to the uniform buffer. *)
Definition values : list GLuint :=
  [0; 0; 0; 0; 0x1236327; 0x985482; 0x872753; 0x2378432]%Z.

(** [values.at(index)]: the checked access; [None] is [std::out_of_range]. *)
Definition at_ (a : list GLuint) (index : nat) : option GLuint := a !! index.

(** The comparison loop from [index] on, with [remaining] iterations left
    before [index < 8] fails. [None] is an exception leaving the function. *)
Fixpoint component_indexing_loop (drv : Driver) (index remaining : nat) : option bool :=
  match remaining with
  | O => Some false
  | S k =>
      let result := component_test_output drv (Z.of_nat index) in
      match at_ values index with
      | None => None
      | Some expected =>
          if bool_decide (result ≠ expected) then Some true
          else component_indexing_loop drv (S index) k
      end
  end.

Definition TestComponentIndexingBug (drv : Driver) : option bool :=
  component_indexing_loop drv 4 (8 - 4).

(** The indices the loop of [TestComponentIndexingBug] passes to [at]. *)
Definition probed_indices : list nat := seq 4 (8 - 4).

(** ** Vocabulary of the statements *)

(** A routine is observed in isolation by running it on a context that has
    issued nothing yet: [emitted f cur] are the calls it issues when the
    applied state is [cur], [after f cur] the applied state it leaves. *)
Definition emitted (f : GLContext → GLContext) (cur : OpenGLState) : list GLCall :=
  gl_calls (f (mkGLContext cur [])).
Definition after (f : GLContext → GLContext) (cur : OpenGLState) : OpenGLState :=
  cur_state (f (mkGLContext cur [])).

(** Access to the members a routine owns, where that is not a single member of
    [OpenGLState]. *)
Definition get_framebuffers (s : OpenGLState) : GLuint * GLuint :=
  (read_framebuffer (draw s), draw_framebuffer (draw s)).
Definition set_framebuffers (v : GLuint * GLuint) (s : OpenGLState) : OpenGLState :=
  set_draw (mkDraw v.1 v.2 (shader_program (draw s)) (program_pipeline (draw s))) s.
Definition get_program (s : OpenGLState) : GLuint := shader_program (draw s).
Definition set_program (v : GLuint) (s : OpenGLState) : OpenGLState :=
  set_draw (set_shader_program v (draw s)) s.
Definition get_pipeline (s : OpenGLState) : GLuint := program_pipeline (draw s).
Definition set_pipeline (v : GLuint) (s : OpenGLState) : OpenGLState :=
  set_draw (set_program_pipeline v (draw s)) s.
Definition get_blending (s : OpenGLState) : bool * list Blend :=
  (independant_blend_enabled s, blend s).
Definition set_blending (v : bool * list Blend) (s : OpenGLState) : OpenGLState :=
  set_independant_blend_enabled v.1 (set_blend v.2 s).

(** [confined get set f]: [f] reads and writes the applied state only through
    the members [get]/[set] address, and appends its calls to those already
    issued. *)
Definition confined {T} (get : OpenGLState → T) (set : T → OpenGLState → OpenGLState)
  (f : GLContext → GLContext) : Prop :=
  ∃ (upd : T → T) (out : T → list GLCall), ∀ gl,
    f gl = mkGLContext (set (upd (get (cur_state gl))) (cur_state gl))
             (gl_calls gl ++ out (get (cur_state gl))).

Record lens_laws {T} (get : OpenGLState → T) (set : T → OpenGLState → OpenGLState)
  : Prop := mk_lens_laws {
  get_set : ∀ v s, get (set v s) = v;
  set_set : ∀ v w s, set v (set w s) = set v s;
  set_get : ∀ s, set (get s) s = s }.

(** The [std::array] members of two states of the same type have the same
    extents. *)
Definition same_shape (a b : OpenGLState) : Prop :=
  length (clip_distance a) = length (clip_distance b)
  ∧ length (color_mask a) = length (color_mask b)
  ∧ length (viewports a) = length (viewports b)
  ∧ length (blend a) = length (blend b)
  ∧ length (textures a) = length (textures b)
  ∧ length (samplers a) = length (samplers b)
  ∧ length (images a) = length (images b).

(** The arrays indexed up to [NumRenderTargets] and [NumViewports] have those
    extents. *)
Definition well_formed (NumRenderTargets NumViewports : nat) (s : OpenGLState) : Prop :=
  length (color_mask s) = NumRenderTargets
  ∧ length (viewports s) = NumViewports
  ∧ length (blend s) = NumRenderTargets.

(** What [ApplyViewport] guarantees of an applied slot [c] against the desired
    slot [d]: the integer members and the scissor are those of [d]; the depth
    range was either overwritten with that of [d], or left because both bounds
    compared equal under [!=]. *)
Definition viewport_applied (c d : Viewport) : Prop :=
  x c = x d ∧ y c = y d ∧ width c = width d ∧ height c = height d
  ∧ scissor c = scissor d
  ∧ ((depth_range_near c = depth_range_near d ∧ depth_range_far c = depth_range_far d)
     ∨ (float_ne (depth_range_near c) (depth_range_near d) = false
        ∧ float_ne (depth_range_far c) (depth_range_far d) = false)).

(** A depth range free of NaN: each bound compares equal to itself. *)
Definition depth_range_ordinary (v : Viewport) : Prop :=
  float_ne (depth_range_near v) (depth_range_near v) = false
  ∧ float_ne (depth_range_far v) (depth_range_far v) = false.

(** The applied state once [Apply] has returned, member by member, against the
    desired state [self] and the applied state [cur] it started from. *)
Definition converged (self cur cur' : OpenGLState) : Prop :=
  draw cur' = draw self
  ∧ clip_distance cur' = clip_distance self
  ∧ fragment_color_clamp_enabled cur' = fragment_color_clamp_enabled self
  ∧ multisample_control cur' = multisample_control self
  ∧ rasterizer_discard cur' = rasterizer_discard self
  ∧ color_mask cur' = color_mask self
  ∧ Forall2 viewport_applied (viewports cur') (viewports self)
  ∧ stencil cur' = stencil self
  ∧ independant_blend_enabled cur' = independant_blend_enabled self
  ∧ (if independant_blend_enabled self
     then blend cur' = blend self
     else blend cur' !! 0%nat = blend self !! 0%nat
          ∧ ∀ target, (0 < target)%nat → blend cur' !! target = blend cur !! target)
  ∧ textures cur' = textures self
  ∧ samplers cur' = samplers self
  ∧ images cur' = images self
  ∧ clip_control cur' = clip_control self
  ∧ renderbuffer cur' = renderbuffer self.

(** The calls [Apply] issues and the state it leaves, category by category,
    each observed in isolation on the applied state [Apply] started from. *)
Definition Apply_emitted (NumRenderTargets NumViewports : nat) (self cur : OpenGLState)
  : list GLCall :=
  emitted (ApplyFramebufferState self) cur
  ++ emitted (ApplyShaderProgram self) cur
  ++ emitted (ApplyProgramPipeline self) cur
  ++ emitted (ApplyClipDistances self) cur
  ++ emitted (ApplyFragmentColorClamp self) cur
  ++ emitted (ApplyMultisample self) cur
  ++ emitted (ApplyRasterizerDiscard self) cur
  ++ emitted (ApplyColorMask NumRenderTargets self) cur
  ++ emitted (ApplyViewport NumViewports self) cur
  ++ emitted (ApplyStencilTest self) cur
  ++ emitted (ApplyBlending NumRenderTargets self) cur
  ++ emitted (ApplyTextures self) cur
  ++ emitted (ApplySamplers self) cur
  ++ emitted (ApplyImages self) cur
  ++ emitted (ApplyClipControl self) cur
  ++ emitted (ApplyRenderBuffer self) cur.

Definition Apply_result (NumRenderTargets NumViewports : nat) (self cur : OpenGLState)
  : OpenGLState :=
  mkOpenGLState
    (mkDraw (read_framebuffer (draw (after (ApplyFramebufferState self) cur)))
       (draw_framebuffer (draw (after (ApplyFramebufferState self) cur)))
       (shader_program (draw (after (ApplyShaderProgram self) cur)))
       (program_pipeline (draw (after (ApplyProgramPipeline self) cur))))
    (clip_distance (after (ApplyClipDistances self) cur))
    (fragment_color_clamp_enabled (after (ApplyFragmentColorClamp self) cur))
    (multisample_control (after (ApplyMultisample self) cur))
    (rasterizer_discard (after (ApplyRasterizerDiscard self) cur))
    (color_mask (after (ApplyColorMask NumRenderTargets self) cur))
    (viewports (after (ApplyViewport NumViewports self) cur))
    (stencil (after (ApplyStencilTest self) cur))
    (independant_blend_enabled (after (ApplyBlending NumRenderTargets self) cur))
    (blend (after (ApplyBlending NumRenderTargets self) cur))
    (textures (after (ApplyTextures self) cur))
    (samplers (after (ApplySamplers self) cur))
    (images (after (ApplyImages self) cur))
    (clip_control (after (ApplyClipControl self) cur))
    (renderbuffer (after (ApplyRenderBuffer self) cur)).

(** The category of pipeline state a driver call acts on, in the order [Apply]
    goes through them. *)
Inductive Category :=
| CatFramebuffer | CatProgram | CatPipeline | CatClipDistances | CatColorClamp
| CatMultisample | CatRasterizerDiscard | CatColorMask | CatViewport | CatStencil
| CatBlending | CatTextures | CatSamplers | CatImages | CatClipControl
| CatRenderBuffer.

#[global] Instance Category_eq_dec : EqDecision Category.
Proof. solve_decision. Defined.

Definition cap_category (cap : GLcap) : Category :=
  match cap with
  | GL_CLIP_DISTANCE0_plus _ => CatClipDistances
  | GL_SAMPLE_ALPHA_TO_COVERAGE | GL_SAMPLE_ALPHA_TO_ONE => CatMultisample
  | GL_RASTERIZER_DISCARD => CatRasterizerDiscard
  | GL_STENCIL_TEST => CatStencil
  | GL_SCISSOR_TEST => CatViewport
  | GL_BLEND => CatBlending
  end.

Definition category_of (c : GLCall) : Category :=
  match c with
  | glBindFramebuffer _ _ => CatFramebuffer
  | glUseProgram _ => CatProgram
  | glBindProgramPipeline _ => CatPipeline
  | glEnable cap | glDisable cap | glEnablei cap _ | glDisablei cap _ => cap_category cap
  | glClampColor _ _ => CatColorClamp
  | glColorMaski _ _ _ _ _ => CatColorMask
  | glStencilFuncSeparate _ _ _ _ | glStencilOpSeparate _ _ _ _
  | glStencilMaskSeparate _ _ => CatStencil
  | glViewportIndexedf _ _ _ _ _ | glDepthRangeIndexed _ _ _
  | glScissorIndexed _ _ _ _ _ => CatViewport
  | glBlendFuncSeparate _ _ _ _ | glBlendEquationSeparate _ _
  | glBlendFuncSeparatei _ _ _ _ _ | glBlendEquationSeparatei _ _ _ => CatBlending
  | glClipControl _ _ => CatClipControl
  | glBindRenderbuffer _ _ => CatRenderBuffer
  | glBindTextureUnit _ _ => CatTextures
  | glBindSampler _ _ => CatSamplers
  | glBindImageTextures _ _ _ => CatImages
  end.

(** The calls of one category among those issued. *)
Definition calls_of (cat : Category) (calls : list GLCall) : list GLCall :=
  filter (fun c => category_of c = cat) calls.

(** All the calls are of one category; a routine that keeps it so. *)
Definition in_category (cat : Category) (calls : list GLCall) : Prop :=
  Forall (fun c => category_of c = cat) calls.

Definition keeps_category (cat : Category) (f : GLContext → GLContext) : Prop :=
  ∀ gl, in_category cat (gl_calls gl) → in_category cat (gl_calls (f gl)).

(** The texture binds issued for one unit. *)
Definition binds_texture_unit (unit : GLuint) (c : GLCall) : bool :=
  match c with
  | glBindTextureUnit u _ => bool_decide (u = unit)
  | _ => false
  end.

(** The calls that address one blend target through the indexed entry points. *)
Definition addresses_blend_target (target : GLuint) (c : GLCall) : bool :=
  match c with
  | glEnablei GL_BLEND i | glDisablei GL_BLEND i => bool_decide (i = target)
  | glBlendFuncSeparatei buf _ _ _ _ | glBlendEquationSeparatei buf _ _ => bool_decide (buf = target)
  | _ => false
  end.

(** The calls a routine adds to a context that has already issued some. *)
Definition issued (f : GLContext → GLContext) (gl : GLContext) : list GLCall :=
  drop (length (gl_calls gl)) (gl_calls (f gl)).

(** The call one texture slot gives rise to in [ApplyTextures]. *)
Definition texture_slot_calls (i : nat) (updated current : GLuint) : list GLCall :=
  if bool_decide (current ≠ updated) && bool_decide (updated ≠ 0%Z)
  then [glBindTextureUnit (Z.of_nat i) updated]
  else [].

(** The calls [ApplyTargetBlending] issues for one target, in order. *)
Definition target_blending_calls (target : nat) (force : bool) (updated current : Blend)
  : list GLCall :=
  (if bool_decide (enabled current ≠ enabled updated) || force
   then [if enabled updated then glEnablei GL_BLEND (Z.of_nat target)
         else glDisablei GL_BLEND (Z.of_nat target)]
   else [])
  ++ (if bool_decide ((src_rgb_func current, dst_rgb_func current,
                       src_a_func current, dst_a_func current)
                      ≠ (src_rgb_func updated, dst_rgb_func updated,
                         src_a_func updated, dst_a_func updated))
      then [glBlendFuncSeparatei (Z.of_nat target) (src_rgb_func updated)
              (dst_rgb_func updated) (src_a_func updated) (dst_a_func updated)]
      else [])
  ++ (if bool_decide ((rgb_equation current, a_equation current)
                      ≠ (rgb_equation updated, a_equation updated))
      then [glBlendEquationSeparatei (Z.of_nat target) (rgb_equation updated)
              (a_equation updated)]
      else []).

(** ** The rectangle the specification describes for the scissor emulation

    Follows the words of the specification, not the code: the union of the
    viewport rectangle and the scissor rectangle, with x, y, width and height
    clamped at zero. *)
Definition spec_union_scissor (v : Viewport) : Scissor :=
  let sc := scissor v in
  let left := Z.min (x v) (scissor_x sc) in
  let right := Z.max (x v + width v) (scissor_x sc + scissor_width sc) in
  let bottom := Z.min (y v) (scissor_y sc) in
  let top := Z.max (y v + height v) (scissor_y sc + scissor_height sc) in
  mkScissor true (Z.max left 0) (Z.max bottom 0)
    (Z.max (right - left) 0) (Z.max (top - bottom) 0).

(** ** States used in the examples

    Array extents as in the register header: eight render targets, sixteen
    viewports; eight clip distances, thirty-two texture and sampler units and
    eight image units. *)
Definition example_state : OpenGLState :=
  mkOpenGLState (mkDraw 0 0 0 0) (replicate 8 false) false
    (mkMultisampleControl false false) false
    (replicate 8 (mkColorMask true true true true))
    (replicate 16 (mkViewport 0 0 0 0 PrimFloat.zero PrimFloat.one
                     (mkScissor false 0 0 0 0)))
    (mkStencil false (mkStencilFace 0 0 0 0 0 0 0) (mkStencilFace 0 0 0 0 0 0 0))
    false (replicate 8 (mkBlend false 0 0 0 0 0 0))
    (replicate 32 0%Z) (replicate 32 0%Z) (replicate 8 0%Z)
    (mkClipControl 0 0) 0.

Definition example_context : GLContext := mkGLContext example_state [].

(** Desired blending differs at target 1 only, independent blending off. *)
Definition example_blend1_state : OpenGLState :=
  set_blend (<[1%nat := mkBlend true 0 0 0 0 0 0]> (blend example_state)) example_state.

(** Viewport 0 has a NaN near bound. *)
Definition example_nan_state : OpenGLState :=
  set_viewports
    (<[0%nat := mkViewport 0 0 0 0 PrimFloat.nan PrimFloat.one (mkScissor false 0 0 0 0)]>
       (viewports example_state)) example_state.

(** Image units 2 and 5 differ from [example_state]; 3 and 4 hold the same
    (zero) handles as there. *)
Definition example_images_state : OpenGLState :=
  set_images [0; 0; 21; 0; 0; 22; 0; 0]%Z example_state.

(** Texture unit 3 bound to handle 7. *)
Definition example_texture_state : OpenGLState :=
  set_textures (<[3%nat := 7%Z]> (textures example_state)) example_state.

(** Independent blending requested, every target as in [example_state]. *)
Definition example_independent_state : OpenGLState :=
  set_independant_blend_enabled true example_state.

(** Viewport 0 is 1280 by 720 at the origin, scissor disabled. *)
Definition example_720p_state : OpenGLState :=
  set_viewports
    (<[0%nat := mkViewport 0 0 1280 720 PrimFloat.zero PrimFloat.one
                  (mkScissor false 0 0 0 0)]> (viewports example_state)) example_state.

(** Viewport 0 is 10 by 10 at the origin, with an enabled scissor of 10 by 10
    at (5, 5). *)
Definition example_overlap_state : OpenGLState :=
  set_viewports
    (<[0%nat := mkViewport 0 0 10 10 PrimFloat.zero PrimFloat.one
                  (mkScissor true 5 5 10 10)]> (viewports example_state)) example_state.

(** A driver that reports the same limits for every stage: 14 uniform blocks,
    16 storage blocks, 32 texture units, 8 image uniforms; its component test
    program reads the array correctly. *)
Definition example_driver : Driver :=
  mkDriver
    (fun pname =>
       match pname with
       | GL_MAX_VERTEX_UNIFORM_BLOCKS | GL_MAX_TESS_CONTROL_UNIFORM_BLOCKS
       | GL_MAX_TESS_EVALUATION_UNIFORM_BLOCKS | GL_MAX_GEOMETRY_UNIFORM_BLOCKS => 14
       | GL_MAX_VERTEX_SHADER_STORAGE_BLOCKS | GL_MAX_TESS_CONTROL_SHADER_STORAGE_BLOCKS
       | GL_MAX_TESS_EVALUATION_SHADER_STORAGE_BLOCKS
       | GL_MAX_GEOMETRY_SHADER_STORAGE_BLOCKS => 16
       | GL_MAX_VERTEX_TEXTURE_IMAGE_UNITS | GL_MAX_TESS_CONTROL_TEXTURE_IMAGE_UNITS
       | GL_MAX_TESS_EVALUATION_TEXTURE_IMAGE_UNITS
       | GL_MAX_GEOMETRY_TEXTURE_IMAGE_UNITS => 32
       | _ => 8
       end%Z)
    (fun idx => values !!! Z.to_nat idx).

(** The limits of the four graphics stages in the order the constructor
    queries them. *)
Definition stage_limits : list (GLlimit * GLlimit * GLlimit * GLlimit) :=
  [ (GL_MAX_VERTEX_UNIFORM_BLOCKS, GL_MAX_VERTEX_SHADER_STORAGE_BLOCKS,
     GL_MAX_VERTEX_TEXTURE_IMAGE_UNITS, GL_MAX_VERTEX_IMAGE_UNIFORMS);
    (GL_MAX_TESS_CONTROL_UNIFORM_BLOCKS, GL_MAX_TESS_CONTROL_SHADER_STORAGE_BLOCKS,
     GL_MAX_TESS_CONTROL_TEXTURE_IMAGE_UNITS, GL_MAX_TESS_CONTROL_IMAGE_UNIFORMS);
    (GL_MAX_TESS_EVALUATION_UNIFORM_BLOCKS, GL_MAX_TESS_EVALUATION_SHADER_STORAGE_BLOCKS,
     GL_MAX_TESS_EVALUATION_TEXTURE_IMAGE_UNITS, GL_MAX_TESS_EVALUATION_IMAGE_UNIFORMS);
    (GL_MAX_GEOMETRY_UNIFORM_BLOCKS, GL_MAX_GEOMETRY_SHADER_STORAGE_BLOCKS,
     GL_MAX_GEOMETRY_TEXTURE_IMAGE_UNITS, GL_MAX_GEOMETRY_IMAGE_UNIFORMS) ].

(** ** Further vocabulary: what each category of [Apply] issues *)

(** The position of a category in the order [Apply] goes through them. *)
Definition category_rank (cat : Category) : nat :=
  match cat with
  | CatFramebuffer => 0 | CatProgram => 1 | CatPipeline => 2 | CatClipDistances => 3
  | CatColorClamp => 4 | CatMultisample => 5 | CatRasterizerDiscard => 6
  | CatColorMask => 7 | CatViewport => 8 | CatStencil => 9 | CatBlending => 10
  | CatTextures => 11 | CatSamplers => 12 | CatImages => 13 | CatClipControl => 14
  | CatRenderBuffer => 15
  end.

(** The routine of [Apply] in charge of a category. *)
Definition routine_of (NumRenderTargets NumViewports : nat) (cat : Category)
  (self : OpenGLState) : GLContext → GLContext :=
  match cat with
  | CatFramebuffer => ApplyFramebufferState self
  | CatProgram => ApplyShaderProgram self
  | CatPipeline => ApplyProgramPipeline self
  | CatClipDistances => ApplyClipDistances self
  | CatColorClamp => ApplyFragmentColorClamp self
  | CatMultisample => ApplyMultisample self
  | CatRasterizerDiscard => ApplyRasterizerDiscard self
  | CatColorMask => ApplyColorMask NumRenderTargets self
  | CatViewport => ApplyViewport NumViewports self
  | CatStencil => ApplyStencilTest self
  | CatBlending => ApplyBlending NumRenderTargets self
  | CatTextures => ApplyTextures self
  | CatSamplers => ApplySamplers self
  | CatImages => ApplyImages self
  | CatClipControl => ApplyClipControl self
  | CatRenderBuffer => ApplyRenderBuffer self
  end.

(** The members of a category hold the same values in the applied state [cur]
    as in the desired state [self] (for viewports, values that also compare
    equal to themselves). *)
Definition category_matches (cat : Category) (self cur : OpenGLState) : Prop :=
  match cat with
  | CatFramebuffer => get_framebuffers cur = get_framebuffers self
  | CatProgram => get_program cur = get_program self
  | CatPipeline => get_pipeline cur = get_pipeline self
  | CatClipDistances => clip_distance cur = clip_distance self
  | CatColorClamp => fragment_color_clamp_enabled cur = fragment_color_clamp_enabled self
  | CatMultisample => multisample_control cur = multisample_control self
  | CatRasterizerDiscard => rasterizer_discard cur = rasterizer_discard self
  | CatColorMask => color_mask cur = color_mask self
  | CatViewport => viewports cur = viewports self
                   ∧ Forall depth_range_ordinary (viewports self)
  | CatStencil => stencil cur = stencil self
  | CatBlending => independant_blend_enabled cur = independant_blend_enabled self
                   ∧ blend cur = blend self
  | CatTextures => textures cur = textures self
  | CatSamplers => samplers cur = samplers self
  | CatImages => images cur = images self
  | CatClipControl => clip_control cur = clip_control self
  | CatRenderBuffer => renderbuffer cur = renderbuffer self
  end.

(** The call one sampler slot gives rise to in [ApplySamplers]. *)
Definition sampler_slot_calls (i : nat) (updated current : GLuint) : list GLCall :=
  if bool_decide (current ≠ updated) then [glBindSampler (Z.of_nat i) updated] else [].

Definition binds_sampler_unit (unit : GLuint) (c : GLCall) : bool :=
  match c with
  | glBindSampler u _ => bool_decide (u = unit)
  | _ => false
  end.

(** The call one render target gives rise to in [ApplyColorMask]. *)
Definition color_mask_calls (i : nat) (updated current : ColorMask) : list GLCall :=
  if bool_decide (red_enabled updated ≠ red_enabled current)
     || bool_decide (green_enabled updated ≠ green_enabled current)
     || bool_decide (blue_enabled updated ≠ blue_enabled current)
     || bool_decide (alpha_enabled updated ≠ alpha_enabled current)
  then [glColorMaski (Z.of_nat i) (red_enabled updated) (green_enabled updated)
          (blue_enabled updated) (alpha_enabled updated)]
  else [].

Definition addresses_color_mask (index : GLuint) (c : GLCall) : bool :=
  match c with
  | glColorMaski i _ _ _ _ => bool_decide (i = index)
  | _ => false
  end.

(** The call one clip distance gives rise to in [ApplyClipDistances]. *)
Definition clip_distance_calls (i : nat) (updated current : bool) : list GLCall :=
  if bool_decide (current ≠ updated)
  then [if updated then glEnable (GL_CLIP_DISTANCE0_plus i)
        else glDisable (GL_CLIP_DISTANCE0_plus i)]
  else [].

Definition addresses_clip_distance (index : nat) (c : GLCall) : bool :=
  match c with
  | glEnable (GL_CLIP_DISTANCE0_plus i) | glDisable (GL_CLIP_DISTANCE0_plus i) =>
      bool_decide (i = index)
  | _ => false
  end.

(** The calls one viewport slot gives rise to in [ApplyViewport], in order. *)
Definition viewport_slot_calls (i : nat) (updated current : Viewport) : list GLCall :=
  (if bool_decide (x current ≠ x updated) || bool_decide (y current ≠ y updated)
      || bool_decide (width current ≠ width updated)
      || bool_decide (height current ≠ height updated)
   then [glViewportIndexedf (Z.of_nat i)
           (static_cast_GLfloat (x updated)) (static_cast_GLfloat (y updated))
           (static_cast_GLfloat (width updated)) (static_cast_GLfloat (height updated))]
   else [])
  ++ (if float_ne (depth_range_near current) (depth_range_near updated)
         || float_ne (depth_range_far current) (depth_range_far updated)
      then [glDepthRangeIndexed (Z.of_nat i) (depth_range_near updated)
              (depth_range_far updated)]
      else [])
  ++ (if bool_decide (scissor_enabled (scissor current)
                      ≠ scissor_enabled (scissor updated))
      then [if scissor_enabled (scissor updated)
            then glEnablei GL_SCISSOR_TEST (Z.of_nat i)
            else glDisablei GL_SCISSOR_TEST (Z.of_nat i)]
      else [])
  ++ (if bool_decide (scissor_x (scissor current) ≠ scissor_x (scissor updated))
         || bool_decide (scissor_y (scissor current) ≠ scissor_y (scissor updated))
         || bool_decide (scissor_width (scissor current) ≠ scissor_width (scissor updated))
         || bool_decide (scissor_height (scissor current)
                         ≠ scissor_height (scissor updated))
      then [glScissorIndexed (Z.of_nat i) (scissor_x (scissor updated))
              (scissor_y (scissor updated)) (scissor_width (scissor updated))
              (scissor_height (scissor updated))]
      else []).

Definition addresses_viewport (index : GLuint) (c : GLCall) : bool :=
  match c with
  | glViewportIndexedf i _ _ _ _ | glDepthRangeIndexed i _ _
  | glScissorIndexed i _ _ _ _
  | glEnablei GL_SCISSOR_TEST i | glDisablei GL_SCISSOR_TEST i => bool_decide (i = index)
  | _ => false
  end.

(** The calls [ApplyGlobalBlending] issues, in order. *)
Definition global_blending_calls (updated current : Blend) : list GLCall :=
  (if bool_decide (enabled current ≠ enabled updated)
   then [if enabled updated then glEnable GL_BLEND else glDisable GL_BLEND]
   else [])
  ++ (if bool_decide (src_rgb_func current ≠ src_rgb_func updated)
         || bool_decide (dst_rgb_func current ≠ dst_rgb_func updated)
         || bool_decide (src_a_func current ≠ src_a_func updated)
         || bool_decide (dst_a_func current ≠ dst_a_func updated)
      then [glBlendFuncSeparate (src_rgb_func updated) (dst_rgb_func updated)
              (src_a_func updated) (dst_a_func updated)]
      else [])
  ++ (if bool_decide (rgb_equation current ≠ rgb_equation updated)
         || bool_decide (a_equation current ≠ a_equation updated)
      then [glBlendEquationSeparate (rgb_equation updated) (a_equation updated)]
      else []).

(** The blend calls that name a target, and those that act on all targets. *)
Definition is_indexed_blend_call (c : GLCall) : bool :=
  match c with
  | glEnablei GL_BLEND _ | glDisablei GL_BLEND _
  | glBlendFuncSeparatei _ _ _ _ _ | glBlendEquationSeparatei _ _ _ => true
  | _ => false
  end.

Definition is_global_blend_call (c : GLCall) : bool :=
  match c with
  | glEnable GL_BLEND | glDisable GL_BLEND
  | glBlendFuncSeparate _ _ _ _ | glBlendEquationSeparate _ _ => true
  | _ => false
  end.

(** The calls the lambda [ConfigStencil] issues for one face, in order. *)
Definition stencil_face_calls (face : GLface) (config current : StencilFace)
  : list GLCall :=
  (if bool_decide (test_func current ≠ test_func config)
      || bool_decide (test_ref current ≠ test_ref config)
      || bool_decide (test_mask current ≠ test_mask config)
   then [glStencilFuncSeparate face (test_func config) (test_ref config)
           (test_mask config)]
   else [])
  ++ (if bool_decide (action_depth_fail current ≠ action_depth_fail config)
         || bool_decide (action_depth_pass current ≠ action_depth_pass config)
         || bool_decide (action_stencil_fail current ≠ action_stencil_fail config)
      then [glStencilOpSeparate face (action_stencil_fail config)
              (action_depth_fail config) (action_depth_pass config)]
      else [])
  ++ (if bool_decide (write_mask current ≠ write_mask config)
      then [glStencilMaskSeparate face (write_mask config)]
      else []).

(** The image binds among the calls: whether each stays inside an array of
    [size] handles and carries as many handles as it announces. *)
Definition image_bind_in_bounds (size : nat) (c : GLCall) : Prop :=
  match c with
  | glBindImageTextures first count handles =>
      (0 ≤ first)%Z ∧ (1 ≤ count)%Z ∧ (first + count ≤ Z.of_nat size)%Z
      ∧ Z.of_nat (length handles) = count
  | _ => True
  end.

(** ** Device construction: extensions, vendor and the probed flags *)

(** How a call ends: with a value, with an exception leaving it, or with
    undefined behaviour (in this file: a [std::string_view] built from a null
    pointer). *)
Inductive Exception := length_error | bad_alloc | out_of_range.

Inductive Outcome (A : Type) : Type :=
| Returns (a : A)
| Throws (e : Exception)
| Undefined.
Arguments Returns {A} a.
Arguments Throws {A} e.
Arguments Undefined {A}.

#[global] Instance Outcome_ret : MRet Outcome := fun A a => Returns a.
#[global] Instance Outcome_bind : MBind Outcome := fun A B f m =>
  match m with
  | Returns a => f a
  | Throws e => Throws e
  | Undefined => Undefined
  end.

(** The [std::string_view] built from the character pointer a [glGetString]
    or [glGetStringi] call answers with; [None] is the null pointer, whose
    length cannot be taken. *)
Definition string_view_of (answer : option string) : Outcome string :=
  match answer with
  | Some s => Returns s
  | None => Undefined
  end.

(** [GetExtensions]. [reserve(num_extensions)] converts the count to [size_t]:
    a negative count becomes larger than [max_size] and [reserve] throws
    [std::length_error]; a positive count asks the allocator for that many
    string views, and [reserve] throws [std::bad_alloc] when the host cannot
    provide them ([can_allocate]); a count of zero allocates nothing. The loop
    then appends the strings the driver returns for the indices below
    [num_extensions], in order, within the reserved capacity. *)
Definition GetExtensions (num_extensions : GLint) (can_allocate : Z → bool)
  (glGetStringi : GLuint → option string) : Outcome (list string) :=
  if bool_decide (num_extensions < 0)%Z then Throws length_error
  else if bool_decide (0 < num_extensions)%Z && negb (can_allocate num_extensions)
  then Throws bad_alloc
  else for_loop (Z.to_nat num_extensions)
         (fun index extensions =>
            extensions ← extensions;
            name ← string_view_of (glGetStringi (Z.of_nat index));
            Returns (extensions ++ [name]))
         (Returns []).

(** [HasExtension]: [std::find] over the vector. *)
Definition HasExtension (images : list string) (extension : string) : bool :=
  bool_decide (extension ∈ images).

(** The two programs [TestProgram] is called with. *)
Inductive TestShader := VariableAoffiShader | PreciseShader.

(** The scalar limits the constructor reads besides the binding limits. *)
Inductive GLscalar :=
| GL_UNIFORM_BUFFER_OFFSET_ALIGNMENT
| GL_SHADER_STORAGE_BUFFER_OFFSET_ALIGNMENT
| GL_MAX_VERTEX_ATTRIBS
| GL_MAX_VARYING_VECTORS.

(** The host beyond [Driver]: the vendor string and the extension strings (a
    null answer is [None]), the extension count, whether the allocator can
    provide a given number of string views, the extension flags the loader
    exposes, the scalar limits, and whether a test program links. *)
Record Host := mkHost {
  host_driver : Driver;
  GL_VENDOR : option string;
  GL_NUM_EXTENSIONS : GLint;
  GL_EXTENSIONS : GLuint → option string;
  can_allocate : Z → bool;
  GLAD_GL_NV_gpu_shader5 : bool;
  GLAD_GL_NV_shader_thread_group : bool;
  GLAD_GL_NV_shader_thread_shuffle : bool;
  GLAD_GL_ARB_shader_ballot : bool;
  GLAD_GL_ARB_shader_viewport_layer_array : bool;
  glGetIntegerv_scalar : GLscalar → GLint;
  link_status : TestShader → bool }.

(** [TestProgram]: whether the program linked. *)
Definition TestProgram (h : Host) (glsl : TestShader) : bool := link_status h glsl.

Definition TestVariableAoffi (h : Host) : bool := TestProgram h VariableAoffiShader.

Definition TestPreciseBug (h : Host) : bool := negb (TestProgram h PreciseShader).

Definition to_size_t (z : Z) : Z := (z mod 2 ^ 64)%Z.

Record Device := mkDevice {
  base_bindings : list BaseBindings;
  uniform_buffer_alignment : Z;
  shader_storage_alignment : Z;
  max_vertex_attributes : u32;
  max_varyings : u32;
  has_warp_intrinsics : bool;
  has_shader_ballot : bool;
  has_vertex_viewport_layer : bool;
  has_image_load_formatted : bool;
  has_variable_aoffi : bool;
  has_component_indexing_bug : bool;
  has_precise_bug : bool;
  has_broken_compute : bool;
  has_fast_buffer_sub_data : bool }.

(** [Device::Device()], statement by statement. *)
Definition Device_Device (h : Host) : Outcome Device :=
  vendor ← string_view_of (GL_VENDOR h);
  extensions ← GetExtensions (GL_NUM_EXTENSIONS h) (can_allocate h) (GL_EXTENSIONS h);
  let is_nvidia := bool_decide (vendor = "NVIDIA Corporation") in
  let is_intel := bool_decide (vendor = "Intel") in
  let base_bindings := Device_base_bindings (host_driver h) in
  let uniform_buffer_alignment :=
    to_size_t (glGetIntegerv_scalar h GL_UNIFORM_BUFFER_OFFSET_ALIGNMENT) in
  let shader_storage_alignment :=
    to_size_t (glGetIntegerv_scalar h GL_SHADER_STORAGE_BUFFER_OFFSET_ALIGNMENT) in
  let max_vertex_attributes := to_u32 (glGetIntegerv_scalar h GL_MAX_VERTEX_ATTRIBS) in
  let max_varyings := to_u32 (glGetIntegerv_scalar h GL_MAX_VARYING_VECTORS) in
  let has_warp_intrinsics :=
    GLAD_GL_NV_gpu_shader5 h && GLAD_GL_NV_shader_thread_group h
    && GLAD_GL_NV_shader_thread_shuffle h in
  let has_shader_ballot := GLAD_GL_ARB_shader_ballot h in
  let has_vertex_viewport_layer := GLAD_GL_ARB_shader_viewport_layer_array h in
  let has_image_load_formatted :=
    HasExtension extensions "GL_EXT_shader_image_load_formatted" in
  let has_variable_aoffi := TestVariableAoffi h in
  has_component_indexing_bug ←
    match TestComponentIndexingBug (host_driver h) with
    | Some bug => Returns bug
    | None => Throws out_of_range
    end;
  let has_precise_bug := TestPreciseBug h in
  let has_broken_compute := is_intel in
  let has_fast_buffer_sub_data := is_nvidia in
  Returns (mkDevice base_bindings uniform_buffer_alignment shader_storage_alignment
             max_vertex_attributes max_varyings has_warp_intrinsics has_shader_ballot
             has_vertex_viewport_layer has_image_load_formatted has_variable_aoffi
             has_component_indexing_bug has_precise_bug has_broken_compute
             has_fast_buffer_sub_data).

(** A host for the examples: an Intel driver listing three extensions, with
    memory to spare. *)
Definition example_host : Host :=
  mkHost example_driver (Some "Intel") 3
    (fun index => match index with
                  | 0%Z => Some "GL_ARB_shader_ballot"
                  | 1%Z => Some "GL_EXT_shader_image_load_formatted"
                  | _ => Some "GL_KHR_debug"
                  end)
    (fun _ => true)
    false false false true true
    (fun pname => match pname with
                  | GL_UNIFORM_BUFFER_OFFSET_ALIGNMENT => 256
                  | GL_SHADER_STORAGE_BUFFER_OFFSET_ALIGNMENT => 16
                  | GL_MAX_VERTEX_ATTRIBS => 16
                  | GL_MAX_VARYING_VECTORS => 15
                  end%Z)
    (fun _ => true).

(** A driver that reports no uniform blocks for the vertex stage. *)
Definition example_no_uniform_driver : Driver :=
  mkDriver (fun pname => match pname with
                         | GL_MAX_VERTEX_UNIFORM_BLOCKS => 0
                         | _ => 8
                         end%Z)
    (fun idx => values !!! Z.to_nat idx).

(** A state whose texture unit 3 and sampler unit 3 both hold handle 7. *)
Definition example_bound_state : OpenGLState :=
  set_samplers (<[3%nat := 7%Z]> (samplers example_texture_state)) example_texture_state.

(** Desired color mask differs at target 2; clip distance 1 enabled; viewport 1
    moved. *)
Definition example_mixed_state : OpenGLState :=
  set_color_mask (<[2%nat := mkColorMask true false true true]> (color_mask example_state))
    (set_clip_distance (<[1%nat := true]> (clip_distance example_state))
       (set_viewports
          (<[1%nat := mkViewport 0 0 640 480 PrimFloat.zero PrimFloat.one
                        (mkScissor true 0 0 640 480)]> (viewports example_state))
          (set_draw (mkDraw 1 1 2 0) example_state))).

(** Viewport 0 is 16777217 (2^24 + 1) wide and 720 high, scissor disabled. *)
Definition example_wide_state : OpenGLState :=
  set_viewports
    (<[0%nat := mkViewport 0 0 16777217 720 PrimFloat.zero PrimFloat.one
                  (mkScissor false 0 0 0 0)]> (viewports example_state)) example_state.

(** Independent blending requested; target 1 has source RGB function 770
    ([GL_SRC_ALPHA]), every other member as in [example_state]. *)
Definition example_independent_func_state : OpenGLState :=
  set_independant_blend_enabled true
    (set_blend (<[1%nat := mkBlend false 0 0 770 0 0 0]> (blend example_state))
       example_state).

(** Global blending requested; target 0 has source RGB function 1 ([GL_ONE]). *)
Definition example_global_func_state : OpenGLState :=
  set_blend (<[0%nat := mkBlend false 0 0 1 0 0 0]> (blend example_state)) example_state.

(** A host whose driver reports a negative extension count, one whose
    allocator cannot provide the string views asked for, and one whose driver
    answers a null pointer for the second extension. *)
Definition example_negative_count_host : Host :=
  mkHost example_driver (Some "Intel") (-1) (fun _ => Some "GL_KHR_debug") (fun _ => true)
    false false false true true (fun _ => 16%Z) (fun _ => true).

Definition example_no_memory_host : Host :=
  mkHost example_driver (Some "Intel") 2147483647 (fun _ => Some "GL_KHR_debug")
    (fun _ => false) false false false true true (fun _ => 16%Z) (fun _ => true).

Definition example_null_extension_host : Host :=
  mkHost example_driver (Some "Intel") 3
    (fun index => if bool_decide (index = 1%Z) then None else Some "GL_KHR_debug")
    (fun _ => true) false false false true true (fun _ => 16%Z) (fun _ => true).

#[global] Instance ColorMask_eq_dec : EqDecision ColorMask.
Proof. solve_decision. Defined.

(** The integer members of a viewport slot are small enough for the sums and
    differences of [EmulateViewportWithScissor] to stay inside [GLint]. *)
Definition rect_small (v : Viewport) : Prop :=
  let small z := (- 2 ^ 29 < z < 2 ^ 29)%Z in
  small (x v) ∧ small (y v) ∧ small (width v) ∧ small (height v)
  ∧ small (scissor_x (scissor v)) ∧ small (scissor_y (scissor v))
  ∧ small (scissor_width (scissor v)) ∧ small (scissor_height (scissor v)).

(** * Proofs *)

(** ** Tactics *)

Ltac st_norm :=
  cbv beta iota zeta delta
    [cur_state gl_calls with_cur issue UpdateValue UpdateTie Enable Enablei
     EnableCached EnableCachedi ConfigStencil
     draw clip_distance fragment_color_clamp_enabled multisample_control
     rasterizer_discard color_mask viewports stencil independant_blend_enabled
     blend textures samplers images clip_control renderbuffer
     set_draw set_clip_distance set_fragment_color_clamp_enabled
     set_multisample_control set_rasterizer_discard set_color_mask set_viewports
     set_stencil set_independant_blend_enabled set_blend set_textures set_samplers
     set_images set_clip_control set_renderbuffer
     set_read_framebuffer set_draw_framebuffer set_shader_program set_program_pipeline
     read_framebuffer draw_framebuffer shader_program program_pipeline
     alpha_to_coverage alpha_to_one test_enabled front back
     get_framebuffers set_framebuffers get_program set_program get_pipeline set_pipeline
     get_blending set_blending emitted after
     fst snd].

Ltac st_norm_in H :=
  cbv beta iota zeta delta
    [cur_state gl_calls with_cur issue UpdateValue UpdateTie Enable Enablei
     EnableCached EnableCachedi ConfigStencil
     draw clip_distance fragment_color_clamp_enabled multisample_control
     rasterizer_discard color_mask viewports stencil independant_blend_enabled
     blend textures samplers images clip_control renderbuffer
     set_draw set_clip_distance set_fragment_color_clamp_enabled
     set_multisample_control set_rasterizer_discard set_color_mask set_viewports
     set_stencil set_independant_blend_enabled set_blend set_textures set_samplers
     set_images set_clip_control set_renderbuffer
     set_read_framebuffer set_draw_framebuffer set_shader_program set_program_pipeline
     read_framebuffer draw_framebuffer shader_program program_pipeline
     alpha_to_coverage alpha_to_one test_enabled front back
     get_framebuffers set_framebuffers get_program set_program get_pipeline set_pipeline
     get_blending set_blending emitted after
     fst snd] in H.

(** Case analysis on the innermost conditions first, so that a condition is
    never split while it still mentions another one. *)
Ltac split_ifs :=
  repeat match goal with
         | |- context [if ?b then _ else _] =>
             lazymatch b with
             | context [if _ then _ else _] => fail
             | _ => destruct b eqn:?; st_norm
             end
         end.

Ltac learn_conds :=
  repeat match goal with
         | H : _ || _ = false |- _ => apply orb_false_iff in H; destruct H
         | H : _ || _ = true |- _ => apply orb_true_iff in H
         | H : bool_decide _ = false |- _ =>
             apply bool_decide_eq_false in H; apply dec_stable in H
         | H : bool_decide _ = true |- _ => apply bool_decide_eq_true in H
         end.

Ltac destruct_state s :=
  destruct s as [[] ? ? [] ? ? ? [? [] []] ? ? ? ? ? [] ?].

Ltac lens_laws_tac := split; [ by intros ? [[]] | by intros ? ? [[]] | by intros [[]] ].

(** ** Loops and arrays *)

Lemma for_loop_inv {S} (P : nat → S → Prop) n (body : nat → S → S) s :
  P 0 s → (∀ i s, i < n → P i s → P (Datatypes.S i) (body i s)) → P n (for_loop n body s).
Proof.
  intros H0 Hstep. induction n as [|n IH]; simpl; [done|].
  apply Hstep; [lia|]. apply IH. intros i s' Hi. apply Hstep. lia.
Qed.

Lemma for_loop_fix {S} n (body : nat → S → S) s :
  (∀ i, i < n → body i s = s) → for_loop n body s = s.
Proof.
  intros H. induction n as [|n IH]; simpl; [done|].
  rewrite IH by (intros; apply H; lia). apply H. lia.
Qed.

Lemma list_insert_total_id {T} `{Inhabited T} (l : list T) i : <[i := l !!! i]> l = l.
Proof.
  destruct (decide (i < length l)) as [Hi|Hi].
  - apply list_insert_id. by apply list_lookup_lookup_total_lt.
  - apply list_insert_ge. lia.
Qed.

Lemma list_insert_total_same {T} `{Inhabited T} (l : list T) i v :
  l !!! i = v → <[i := v]> l = l.
Proof. intros <-. apply list_insert_total_id. Qed.

Lemma list_eq_total {T} `{Inhabited T} (l k : list T) :
  length l = length k → (∀ i, i < length l → l !!! i = k !!! i) → l = k.
Proof.
  intros Hlen Hpt. apply list_eq. intros i.
  destruct (decide (i < length l)) as [Hi|Hi].
  - rewrite (list_lookup_lookup_total_lt l i Hi).
    rewrite (list_lookup_lookup_total_lt k i) by lia. f_equal. by apply Hpt.
  - rewrite !lookup_ge_None_2 by lia. done.
Qed.

Lemma lookup_total_of_lookup {T} `{Inhabited T} (l k : list T) i :
  l !! i = k !! i → l !!! i = k !!! i.
Proof. intros E. by rewrite !list_lookup_total_alt, E. Qed.

(** A loop whose [i]-th iteration writes slot [i] of the array [get] addresses,
    and nothing else of it. *)
Lemma slot_loop_after {T} `{Inhabited T} (get : OpenGLState → list T)
  (R : T → T → Prop) (des : list T) (body : nat → GLContext → GLContext) n :
  (∀ i gl, ∃ v, get (cur_state (body i gl)) = <[i := v]> (get (cur_state gl))
                ∧ R v (des !!! i)) →
  ∀ gl, n ≤ length (get (cur_state gl)) →
    length (get (cur_state (for_loop n body gl))) = length (get (cur_state gl))
    ∧ (∀ i, i < n → R (get (cur_state (for_loop n body gl)) !!! i) (des !!! i))
    ∧ (∀ i, n ≤ i → get (cur_state (for_loop n body gl)) !! i = get (cur_state gl) !! i).
Proof.
  intros Hbody gl. induction n as [|n IH]; intros Hn; simpl.
  - split; [done|]. split; [intros; lia|intros; done].
  - destruct IH as (Hlen & Hlow & Hhigh); [lia|].
    destruct (Hbody n (for_loop n body gl)) as (v & -> & Hv).
    split; [by rewrite length_insert|]. split.
    + intros i Hi. destruct (decide (i = n)) as [->|Hne].
      * rewrite list_lookup_total_insert_eq by lia. done.
      * rewrite list_lookup_total_insert_ne by done. apply Hlow. lia.
    + intros i Hi. rewrite list_lookup_insert_ne by lia. apply Hhigh. lia.
Qed.

Lemma slot_loop_converges {T} `{Inhabited T} (get : OpenGLState → list T)
  (des : list T) (body : nat → GLContext → GLContext) gl :
  (∀ i gl, ∃ v, get (cur_state (body i gl)) = <[i := v]> (get (cur_state gl))
                ∧ v = des !!! i) →
  length (get (cur_state gl)) = length des →
  get (cur_state (for_loop (length des) body gl)) = des.
Proof.
  intros Hbody Hlen.
  destruct (slot_loop_after get eq des body (length des) Hbody gl) as (Hl & Hlow & _);
    [lia|].
  apply list_eq_total; [lia|]. intros i Hi. apply Hlow. lia.
Qed.

(** The calls of such a loop, when the calls of iteration [i] depend on slot
    [i] alone. *)
Lemma slot_loop_emitted {T} `{Inhabited T} (get : OpenGLState → list T)
  (out : nat → T → list GLCall) (body : nat → GLContext → GLContext) n :
  (∀ i gl, gl_calls (body i gl) = gl_calls gl ++ out i (get (cur_state gl) !!! i)) →
  (∀ i gl, ∃ v, get (cur_state (body i gl)) = <[i := v]> (get (cur_state gl))) →
  ∀ gl, gl_calls (for_loop n body gl)
        = gl_calls gl ++ flat_map (fun i => out i (get (cur_state gl) !!! i)) (seq 0 n).
Proof.
  intros Hout Hbody gl. induction n as [|n IH].
  - simpl. by rewrite app_nil_r.
  - rewrite seq_S, flat_map_app. simpl. rewrite Hout, IH, app_nil_r, <- app_assoc.
    do 3 f_equal. apply lookup_total_of_lookup.
    assert (Hb : ∀ i g, ∃ v, get (cur_state (body i g)) = <[i := v]> (get (cur_state g))
                             ∧ (fun _ _ : T => True) v ((@nil T) !!! i)).
    { intros i g. destruct (Hbody i g) as [v Hv]. eauto. }
    destruct (decide (n ≤ length (get (cur_state gl)))) as [Hn|Hn].
    + destruct (slot_loop_after get (fun _ _ => True) [] body n Hb gl Hn) as (_ & _ & Hhigh).
      apply Hhigh. lia.
    + assert (Hlen : length (get (cur_state (for_loop n body gl)))
                     = length (get (cur_state gl))).
      { clear IH. induction n as [|m IHm]; simpl; [done|].
        destruct (Hbody m (for_loop m body gl)) as [v ->].
        rewrite length_insert. destruct (decide (m ≤ length (get (cur_state gl)))).
        - destruct (slot_loop_after get (fun _ _ => True) [] body m Hb gl) as (E & _); done.
        - apply IHm. lia. }
      rewrite !lookup_ge_None_2 by lia. done.
Qed.

(** ** Every routine is confined to the members of its category *)

Lemma confined_intro {T} (get : OpenGLState → T) set f (s0 : OpenGLState) :
  (∀ gl, f gl = mkGLContext
            (set (get (cur_state (f (mkGLContext (set (get (cur_state gl)) s0) []))))
               (cur_state gl))
            (gl_calls gl ++ gl_calls (f (mkGLContext (set (get (cur_state gl)) s0) [])))) →
  confined get set f.
Proof.
  intros Hf.
  exists (fun t => get (cur_state (f (mkGLContext (set t s0) [])))),
         (fun t => gl_calls (f (mkGLContext (set t s0) []))).
  exact Hf.
Qed.

Lemma confined_compose {T} (get : OpenGLState → T) set f g :
  lens_laws get set → confined get set f → confined get set g →
  confined get set (fun gl => g (f gl)).
Proof.
  intros L (u1 & o1 & H1) (u2 & o2 & H2).
  exists (fun t => u2 (u1 t)), (fun t => o1 t ++ o2 (u1 t)).
  intros gl. rewrite H1, H2. simpl.
  rewrite (get_set _ _ L), (set_set _ _ L), app_assoc. reflexivity.
Qed.

Lemma confined_for_loop {T} (get : OpenGLState → T) set n body :
  lens_laws get set → (∀ i, confined get set (body i)) →
  confined get set (for_loop n body).
Proof.
  intros L Hb. induction n as [|n IH]; simpl.
  - exists (fun t => t), (fun _ => []). intros [c l]. simpl.
    rewrite (set_get _ _ L), app_nil_r. reflexivity.
  - apply (confined_compose get set (for_loop n body) (body n)); auto.
Qed.

Lemma confined_bool_param {T} (get : OpenGLState → T) set (p : T → bool) f :
  (∀ b : bool, confined get set (f b)) →
  confined get set (fun gl => f (p (get (cur_state gl))) gl).
Proof.
  intros Hf. destruct (Hf true) as (u1 & o1 & H1), (Hf false) as (u2 & o2 & H2).
  exists (fun t => if p t then u1 t else u2 t), (fun t => if p t then o1 t else o2 t).
  intros gl. destruct (p (get (cur_state gl))); auto.
Qed.

Ltac confined_tac self :=
  apply (confined_intro _ _ _ self); destruct_state self;
  let gl := fresh "gl" in
  intros [gl ?]; destruct_state gl; st_norm; split_ifs;
  rewrite ?app_nil_r, <- ?app_assoc; try reflexivity.

Lemma blending_laws : lens_laws get_blending set_blending.
Proof. split; [ by intros [] [] | by intros [] [] [] | by intros [] ]. Qed.

Section Confinement.
Variables NumRenderTargets NumViewports : nat.

Lemma ApplyFramebufferState_confined self :
  confined get_framebuffers set_framebuffers (ApplyFramebufferState self).
Proof. unfold ApplyFramebufferState. confined_tac self. Qed.

Lemma ApplyShaderProgram_confined self :
  confined get_program set_program (ApplyShaderProgram self).
Proof. unfold ApplyShaderProgram. confined_tac self. Qed.

Lemma ApplyProgramPipeline_confined self :
  confined get_pipeline set_pipeline (ApplyProgramPipeline self).
Proof. unfold ApplyProgramPipeline. confined_tac self. Qed.

Lemma ApplyClipDistances_confined self :
  confined clip_distance set_clip_distance (ApplyClipDistances self).
Proof.
  unfold ApplyClipDistances. apply confined_for_loop; [lens_laws_tac|].
  intros i. confined_tac self.
Qed.

Lemma ApplyFragmentColorClamp_confined self :
  confined fragment_color_clamp_enabled set_fragment_color_clamp_enabled
    (ApplyFragmentColorClamp self).
Proof. unfold ApplyFragmentColorClamp. confined_tac self. Qed.

Lemma ApplyMultisample_confined self :
  confined multisample_control set_multisample_control (ApplyMultisample self).
Proof. unfold ApplyMultisample. confined_tac self. Qed.

Lemma ApplyRasterizerDiscard_confined self :
  confined rasterizer_discard set_rasterizer_discard (ApplyRasterizerDiscard self).
Proof. unfold ApplyRasterizerDiscard. confined_tac self. Qed.

Lemma ApplyColorMask_confined self :
  confined color_mask set_color_mask (ApplyColorMask NumRenderTargets self).
Proof.
  unfold ApplyColorMask. apply confined_for_loop; [lens_laws_tac|].
  intros i. confined_tac self.
Qed.

Lemma ApplyViewport_confined self :
  confined viewports set_viewports (ApplyViewport NumViewports self).
Proof.
  unfold ApplyViewport. apply confined_for_loop; [lens_laws_tac|].
  intros i. confined_tac self.
Qed.

Lemma ApplyStencilTest_confined self :
  confined stencil set_stencil (ApplyStencilTest self).
Proof. unfold ApplyStencilTest. confined_tac self. Qed.

Lemma ApplyTargetBlending_confined self target force :
  confined get_blending set_blending (ApplyTargetBlending self target force).
Proof. unfold ApplyTargetBlending. confined_tac self. Qed.

Lemma ApplyGlobalBlending_confined self :
  confined get_blending set_blending (ApplyGlobalBlending self).
Proof. unfold ApplyGlobalBlending. confined_tac self. Qed.

Lemma ApplyBlending_confined self :
  confined get_blending set_blending (ApplyBlending NumRenderTargets self).
Proof.
  unfold ApplyBlending.
  apply (confined_compose get_blending set_blending
           (fun gl => if independant_blend_enabled self
                      then for_loop NumRenderTargets
                             (fun target gl0 =>
                                ApplyTargetBlending self target
                                  (bool_decide (independant_blend_enabled self
                                                ≠ independant_blend_enabled (cur_state gl)))
                                  gl0) gl
                      else ApplyGlobalBlending self gl)
           (fun gl => with_cur (set_independant_blend_enabled
                                  (independant_blend_enabled self) (cur_state gl)) gl)).
  - apply blending_laws.
  - destruct (independant_blend_enabled self) eqn:E.
    + refine (confined_bool_param get_blending set_blending
                (fun t : bool * list Blend => bool_decide (true ≠ t.1))
                (fun force gl => for_loop NumRenderTargets
                   (fun target gl0 => ApplyTargetBlending self target force gl0) gl) _).
      intros b. apply confined_for_loop; [apply blending_laws|].
      intros i. apply ApplyTargetBlending_confined.
    + apply ApplyGlobalBlending_confined.
  - confined_tac self.
Qed.

Lemma ApplyTextures_confined self :
  confined textures set_textures (ApplyTextures self).
Proof.
  unfold ApplyTextures. apply confined_for_loop; [lens_laws_tac|].
  intros i. confined_tac self.
Qed.

Lemma ApplySamplers_confined self :
  confined samplers set_samplers (ApplySamplers self).
Proof.
  unfold ApplySamplers. apply confined_for_loop; [lens_laws_tac|].
  intros i. confined_tac self.
Qed.

Lemma ApplyImages_confined self :
  confined images set_images (ApplyImages self).
Proof.
  unfold ApplyImages. confined_tac self.
  all: repeat match goal with
              | |- context [match ?b with _ => _ end] => destruct b eqn:?; st_norm
              end;
    rewrite ?app_nil_r; try reflexivity.
Qed.

Lemma ApplyClipControl_confined self :
  confined clip_control set_clip_control (ApplyClipControl self).
Proof. unfold ApplyClipControl. confined_tac self. Qed.

Lemma ApplyRenderBuffer_confined self :
  confined renderbuffer set_renderbuffer (ApplyRenderBuffer self).
Proof. unfold ApplyRenderBuffer. confined_tac self. Qed.

(** [Apply] is the sixteen routines side by side: each sees the applied state
    [Apply] started from, because the routines before it left its members
    alone. *)
Lemma Apply_unfold self gl :
  Apply NumRenderTargets NumViewports self gl =
  mkGLContext (Apply_result NumRenderTargets NumViewports self (cur_state gl))
    (gl_calls gl ++ Apply_emitted NumRenderTargets NumViewports self (cur_state gl)).
Proof.
  destruct (ApplyFramebufferState_confined self) as (u1 & o1 & H1).
  destruct (ApplyShaderProgram_confined self) as (u2 & o2 & H2).
  destruct (ApplyProgramPipeline_confined self) as (u3 & o3 & H3).
  destruct (ApplyClipDistances_confined self) as (u4 & o4 & H4).
  destruct (ApplyFragmentColorClamp_confined self) as (u5 & o5 & H5).
  destruct (ApplyMultisample_confined self) as (u6 & o6 & H6).
  destruct (ApplyRasterizerDiscard_confined self) as (u7 & o7 & H7).
  destruct (ApplyColorMask_confined self) as (u8 & o8 & H8).
  destruct (ApplyViewport_confined self) as (u9 & o9 & H9).
  destruct (ApplyStencilTest_confined self) as (u10 & o10 & H10).
  destruct (ApplyBlending_confined self) as (u11 & o11 & H11).
  destruct (ApplyTextures_confined self) as (u12 & o12 & H12).
  destruct (ApplySamplers_confined self) as (u13 & o13 & H13).
  destruct (ApplyImages_confined self) as (u14 & o14 & H14).
  destruct (ApplyClipControl_confined self) as (u15 & o15 & H15).
  destruct (ApplyRenderBuffer_confined self) as (u16 & o16 & H16).
  destruct gl as [cur calls]. unfold Apply. cbv zeta.
  rewrite H1; st_norm. rewrite H2; st_norm. rewrite H3; st_norm.
  rewrite H4; st_norm. rewrite H5; st_norm. rewrite H6; st_norm.
  rewrite H7; st_norm. rewrite H8; st_norm. rewrite H9; st_norm.
  rewrite H10; st_norm. rewrite H11; st_norm. rewrite H12; st_norm.
  rewrite H13; st_norm. rewrite H14; st_norm. rewrite H15; st_norm.
  rewrite H16; st_norm.
  unfold Apply_emitted, Apply_result, emitted, after.
  rewrite H1, H2, H3, H4, H5, H6, H7, H8, H9, H10, H11, H12, H13, H14, H15, H16.
  st_norm. f_equal. rewrite <- !app_assoc. reflexivity.
Qed.

(** A confined routine run in a context that has issued calls before. *)
Lemma confined_emitted {T} (get : OpenGLState → T) set f gl :
  confined get set f → gl_calls (f gl) = gl_calls gl ++ emitted f (cur_state gl).
Proof.
  intros (u & o & Hf). unfold emitted. rewrite !Hf. simpl. done.
Qed.

Lemma confined_after {T} (get : OpenGLState → T) set f gl :
  confined get set f → cur_state (f gl) = after f (cur_state gl).
Proof.
  intros (u & o & Hf). unfold after. rewrite !Hf. simpl. done.
Qed.

End Confinement.

(** ** Every routine issues calls of its own category only *)

Lemma filter_all {A} (P : A → Prop) `{∀ a, Decision (P a)} (l : list A) :
  Forall P l → filter P l = l.
Proof.
  induction 1 as [|a l Ha Hl IH]; [done|].
  rewrite filter_cons_True by done. by rewrite IH.
Qed.

Lemma filter_none {A} (P : A → Prop) `{∀ a, Decision (P a)} (l : list A) :
  Forall (fun a => ¬ P a) l → filter P l = [].
Proof.
  induction 1 as [|a l Ha Hl IH]; [done|].
  by rewrite filter_cons_False.
Qed.

Lemma keeps_category_for_loop cat body n :
  (∀ i, keeps_category cat (body i)) → keeps_category cat (for_loop n body).
Proof.
  intros Hb gl H0. induction n as [|n IH]; simpl; [done|]. by apply Hb.
Qed.

Lemma keeps_category_emitted cat f cur :
  keeps_category cat f → in_category cat (emitted f cur).
Proof. intros Hf. apply Hf. constructor. Qed.

Ltac category_tac :=
  let g := fresh "g" in
  let Hg := fresh "Hg" in
  intros [g ?] Hg; st_norm; st_norm_in Hg; unfold in_category in *; split_ifs;
  rewrite ?Forall_app; repeat split; auto; repeat constructor.

Section Categories.
Variables NumRenderTargets NumViewports : nat.

Lemma ApplyFramebufferState_category self :
  keeps_category CatFramebuffer (ApplyFramebufferState self).
Proof. unfold ApplyFramebufferState. category_tac. Qed.

Lemma ApplyShaderProgram_category self :
  keeps_category CatProgram (ApplyShaderProgram self).
Proof. unfold ApplyShaderProgram. category_tac. Qed.

Lemma ApplyProgramPipeline_category self :
  keeps_category CatPipeline (ApplyProgramPipeline self).
Proof. unfold ApplyProgramPipeline. category_tac. Qed.

Lemma ApplyClipDistances_category self :
  keeps_category CatClipDistances (ApplyClipDistances self).
Proof.
  unfold ApplyClipDistances. apply keeps_category_for_loop. intros i. category_tac.
Qed.

Lemma ApplyFragmentColorClamp_category self :
  keeps_category CatColorClamp (ApplyFragmentColorClamp self).
Proof. unfold ApplyFragmentColorClamp. category_tac. Qed.

Lemma ApplyMultisample_category self :
  keeps_category CatMultisample (ApplyMultisample self).
Proof. unfold ApplyMultisample. category_tac. Qed.

Lemma ApplyRasterizerDiscard_category self :
  keeps_category CatRasterizerDiscard (ApplyRasterizerDiscard self).
Proof. unfold ApplyRasterizerDiscard. category_tac. Qed.

Lemma ApplyColorMask_category self :
  keeps_category CatColorMask (ApplyColorMask NumRenderTargets self).
Proof.
  unfold ApplyColorMask. apply keeps_category_for_loop. intros i. category_tac.
Qed.

Lemma ApplyViewport_category self :
  keeps_category CatViewport (ApplyViewport NumViewports self).
Proof.
  unfold ApplyViewport. apply keeps_category_for_loop. intros i. category_tac.
Qed.

Lemma ApplyStencilTest_category self :
  keeps_category CatStencil (ApplyStencilTest self).
Proof. unfold ApplyStencilTest. category_tac. Qed.

Lemma ApplyTargetBlending_category self target force :
  keeps_category CatBlending (ApplyTargetBlending self target force).
Proof. unfold ApplyTargetBlending. category_tac. Qed.

Lemma ApplyBlending_category self :
  keeps_category CatBlending (ApplyBlending NumRenderTargets self).
Proof.
  unfold ApplyBlending. intros gl Hgl. cbv zeta. unfold with_cur. simpl.
  destruct (independant_blend_enabled self).
  - apply keeps_category_for_loop; [|done]. intros i.
    apply ApplyTargetBlending_category.
  - revert gl Hgl. unfold ApplyGlobalBlending. category_tac.
Qed.

Lemma ApplyTextures_category self :
  keeps_category CatTextures (ApplyTextures self).
Proof.
  unfold ApplyTextures. apply keeps_category_for_loop. intros i. category_tac.
Qed.

Lemma ApplySamplers_category self :
  keeps_category CatSamplers (ApplySamplers self).
Proof.
  unfold ApplySamplers. apply keeps_category_for_loop. intros i. category_tac.
Qed.

Lemma ApplyImages_category self :
  keeps_category CatImages (ApplyImages self).
Proof.
  unfold ApplyImages. intros [g l] Hg. simpl in Hg. st_norm.
  destruct (UpdateArray _ _) as [cv [[first count]|]]; st_norm; [|exact Hg].
  apply Forall_app. split; [exact Hg|]. by repeat constructor.
Qed.

Lemma ApplyClipControl_category self :
  keeps_category CatClipControl (ApplyClipControl self).
Proof. unfold ApplyClipControl. category_tac. Qed.

Lemma ApplyRenderBuffer_category self :
  keeps_category CatRenderBuffer (ApplyRenderBuffer self).
Proof. unfold ApplyRenderBuffer. category_tac. Qed.

Lemma calls_of_own cat f cur :
  keeps_category cat f → calls_of cat (emitted f cur) = emitted f cur.
Proof.
  intros Hf. unfold calls_of. apply filter_all. by apply keeps_category_emitted.
Qed.

Lemma calls_of_other cat cat' f cur :
  keeps_category cat' f → cat' ≠ cat → calls_of cat (emitted f cur) = [].
Proof.
  intros Hf Hne. unfold calls_of. apply filter_none.
  eapply Forall_impl; [by apply keeps_category_emitted|].
  simpl. intros c -> . done.
Qed.

(** Among the calls of [Apply], those of a category are the calls of its
    routine. *)
Lemma calls_of_Apply_textures self cur :
  calls_of CatTextures (Apply_emitted NumRenderTargets NumViewports self cur)
  = emitted (ApplyTextures self) cur.
Proof.
  unfold Apply_emitted, calls_of. rewrite !filter_app.
  change (filter (λ c, category_of c = CatTextures)) with (calls_of CatTextures).
  rewrite (calls_of_own _ _ _ (ApplyTextures_category self)).
  rewrite (calls_of_other _ _ _ _ (ApplyFramebufferState_category self)) by done.
  rewrite (calls_of_other _ _ _ _ (ApplyShaderProgram_category self)) by done.
  rewrite (calls_of_other _ _ _ _ (ApplyProgramPipeline_category self)) by done.
  rewrite (calls_of_other _ _ _ _ (ApplyClipDistances_category self)) by done.
  rewrite (calls_of_other _ _ _ _ (ApplyFragmentColorClamp_category self)) by done.
  rewrite (calls_of_other _ _ _ _ (ApplyMultisample_category self)) by done.
  rewrite (calls_of_other _ _ _ _ (ApplyRasterizerDiscard_category self)) by done.
  rewrite (calls_of_other _ _ _ _ (ApplyColorMask_category self)) by done.
  rewrite (calls_of_other _ _ _ _ (ApplyViewport_category self)) by done.
  rewrite (calls_of_other _ _ _ _ (ApplyStencilTest_category self)) by done.
  rewrite (calls_of_other _ _ _ _ (ApplyBlending_category self)) by done.
  rewrite (calls_of_other _ _ _ _ (ApplySamplers_category self)) by done.
  rewrite (calls_of_other _ _ _ _ (ApplyImages_category self)) by done.
  rewrite (calls_of_other _ _ _ _ (ApplyClipControl_category self)) by done.
  rewrite (calls_of_other _ _ _ _ (ApplyRenderBuffer_category self)) by done.
  simpl. by rewrite app_nil_r.
Qed.

End Categories.

(** ** What each routine leaves in the applied state *)

Ltac after_tac self cur :=
  destruct_state self; destruct_state cur; st_norm; split_ifs; learn_conds;
  simpl in *; try congruence.

Section After.
Variables NumRenderTargets NumViewports : nat.

Lemma ApplyFramebufferState_after self cur :
  get_framebuffers (after (ApplyFramebufferState self) cur) = get_framebuffers self.
Proof. unfold ApplyFramebufferState. after_tac self cur. Qed.

Lemma ApplyShaderProgram_after self cur :
  get_program (after (ApplyShaderProgram self) cur) = get_program self.
Proof. unfold ApplyShaderProgram. after_tac self cur. Qed.

Lemma ApplyProgramPipeline_after self cur :
  get_pipeline (after (ApplyProgramPipeline self) cur) = get_pipeline self.
Proof. unfold ApplyProgramPipeline. after_tac self cur. Qed.

Lemma ApplyFragmentColorClamp_after self cur :
  fragment_color_clamp_enabled (after (ApplyFragmentColorClamp self) cur)
  = fragment_color_clamp_enabled self.
Proof. unfold ApplyFragmentColorClamp. after_tac self cur. Qed.

Lemma ApplyMultisample_after self cur :
  multisample_control (after (ApplyMultisample self) cur) = multisample_control self.
Proof. unfold ApplyMultisample. after_tac self cur. Qed.

Lemma ApplyRasterizerDiscard_after self cur :
  rasterizer_discard (after (ApplyRasterizerDiscard self) cur) = rasterizer_discard self.
Proof. unfold ApplyRasterizerDiscard. after_tac self cur. Qed.

Lemma ApplyStencilTest_after self cur :
  stencil (after (ApplyStencilTest self) cur) = stencil self.
Proof. unfold ApplyStencilTest. after_tac self cur. Qed.

Lemma ApplyClipControl_after self cur :
  clip_control (after (ApplyClipControl self) cur) = clip_control self.
Proof. unfold ApplyClipControl. after_tac self cur. Qed.

Lemma ApplyRenderBuffer_after self cur :
  renderbuffer (after (ApplyRenderBuffer self) cur) = renderbuffer self.
Proof. unfold ApplyRenderBuffer. after_tac self cur. Qed.

Lemma ApplyClipDistances_after self cur :
  length (clip_distance cur) = length (clip_distance self) →
  clip_distance (after (ApplyClipDistances self) cur) = clip_distance self.
Proof.
  intros Hlen. unfold after, ApplyClipDistances.
  apply (slot_loop_converges clip_distance); [|done].
  intros i [g l]. st_norm. split_ifs; eexists; split; reflexivity.
Qed.

Lemma ApplyTextures_after self cur :
  length (textures cur) = length (textures self) →
  textures (after (ApplyTextures self) cur) = textures self.
Proof.
  intros Hlen. unfold after, ApplyTextures. cbv zeta.
  apply (slot_loop_converges textures); [|done].
  intros i [g l]. st_norm. split_ifs; eexists; split; reflexivity.
Qed.

Lemma ApplySamplers_after self cur :
  length (samplers cur) = length (samplers self) →
  samplers (after (ApplySamplers self) cur) = samplers self.
Proof.
  intros Hlen. unfold after, ApplySamplers. cbv zeta.
  apply (slot_loop_converges samplers); [|done].
  intros i [g l]. st_norm. split_ifs; eexists; split; reflexivity.
Qed.

Lemma ApplyColorMask_after self cur :
  length (color_mask self) = NumRenderTargets →
  length (color_mask cur) = NumRenderTargets →
  color_mask (after (ApplyColorMask NumRenderTargets self) cur) = color_mask self.
Proof.
  intros Hs Hc. unfold after, ApplyColorMask. rewrite <- Hs.
  apply (slot_loop_converges color_mask); [|simpl; lia].
  intros i [g l]. st_norm. split_ifs.
  - eexists; split; reflexivity.
  - exists (color_mask g !!! i). split; [symmetry; apply list_insert_total_id|].
    learn_conds.
    destruct (color_mask g !!! i), (color_mask self !!! i); simpl in *. congruence.
Qed.


Lemma ApplyViewport_after self cur :
  length (viewports self) = NumViewports →
  length (viewports cur) = NumViewports →
  Forall2 viewport_applied (viewports (after (ApplyViewport NumViewports self) cur))
    (viewports self).
Proof.
  intros Hs Hc. unfold after, ApplyViewport.
  lazymatch goal with |- context [for_loop _ ?b _] => set (body := b) end.
  assert (Hbody : ∀ i gl, ∃ v,
    viewports (cur_state (body i gl)) = <[i := v]> (viewports (cur_state gl))
    ∧ viewport_applied v (viewports self !!! i)).
  { intros i [g l]. subst body. st_norm.
    destruct (viewports g !!! i) as [cx cy cw ch cn cf [ce csx csy csw csh]].
    destruct (viewports self !!! i) as [ux uy uw uh un uf [ue usx usy usw ush]].
    simpl. split_ifs; learn_conds; simpl in *;
      (eexists; split; [reflexivity|]); unfold viewport_applied; simpl;
      repeat split; try congruence; auto. }
  destruct (slot_loop_after viewports viewport_applied (viewports self) body NumViewports
              Hbody (mkGLContext cur [])) as (Hlen & Hlow & _); [simpl; lia|].
  apply Forall2_same_length_lookup. split; [simpl in *; lia|].
  intros i c d Hc' Hd.
  assert (Hi : i < NumViewports).
  { apply lookup_lt_Some in Hd. lia. }
  specialize (Hlow i Hi).
  rewrite (list_lookup_total_correct _ _ _ Hc') in Hlow.
  rewrite (list_lookup_total_correct _ _ _ Hd) in Hlow. exact Hlow.
Qed.


Lemma ApplyTargetBlending_slot self target force gl :
  ∃ v, blend (cur_state (ApplyTargetBlending self target force gl))
       = <[target := v]> (blend (cur_state gl))
       ∧ v = blend self !!! target.
Proof.
  destruct gl as [g l]. unfold ApplyTargetBlending. st_norm.
  destruct (blend g !!! target), (blend self !!! target). simpl.
  split_ifs; learn_conds; simpl in *; (eexists; split; [reflexivity|]); congruence.
Qed.

Lemma ApplyGlobalBlending_slot self gl :
  blend (cur_state (ApplyGlobalBlending self gl))
  = <[0 := blend self !!! 0]> (blend (cur_state gl)).
Proof.
  destruct gl as [g l]. unfold ApplyGlobalBlending. st_norm.
  destruct (blend g !!! 0), (blend self !!! 0). simpl.
  split_ifs; learn_conds; simpl in *; f_equal; congruence.
Qed.

Lemma ApplyBlending_after_flag self cur :
  independant_blend_enabled (after (ApplyBlending NumRenderTargets self) cur)
  = independant_blend_enabled self.
Proof. unfold after, ApplyBlending. reflexivity. Qed.

Lemma ApplyBlending_after self cur :
  length (blend self) = NumRenderTargets →
  length (blend cur) = NumRenderTargets →
  if independant_blend_enabled self
  then blend (after (ApplyBlending NumRenderTargets self) cur) = blend self
  else blend (after (ApplyBlending NumRenderTargets self) cur) !! 0 = blend self !! 0
       ∧ ∀ target, 0 < target →
           blend (after (ApplyBlending NumRenderTargets self) cur) !! target
           = blend cur !! target.
Proof.
  intros Hs Hc. unfold after, ApplyBlending. cbv zeta. unfold with_cur. simpl.
  destruct (independant_blend_enabled self).
  - rewrite <- Hs. apply (slot_loop_converges blend); [|simpl; lia].
    intros i gl. apply ApplyTargetBlending_slot.
  - rewrite ApplyGlobalBlending_slot. simpl. split.
    + destruct (blend cur) as [|c0 rest], (blend self) as [|s0 srest];
        simpl in *; try done; lia.
    + intros t Ht. apply list_lookup_insert_ne. lia.
Qed.

(** [UpdateArray]: the array is overwritten with the new one; the returned
    range starts at the first differing index and ends at the last one. *)
Lemma UpdateArray_spec (current_values new_values : list Z) :
  length current_values = length new_values →
  (UpdateArray current_values new_values).1 = new_values
  ∧ match (UpdateArray current_values new_values).2 with
    | None => current_values = new_values
    | Some (f, c) =>
        ∃ first last,
          f = Z.of_nat first ∧ c = Z.of_nat (last - first + 1)
          ∧ first ≤ last < length current_values
          ∧ current_values !!! first ≠ new_values !!! first
          ∧ current_values !!! last ≠ new_values !!! last
          ∧ (∀ i, i < first → current_values !!! i = new_values !!! i)
          ∧ (∀ i, last < i < length current_values →
               current_values !!! i = new_values !!! i)
    end.
Proof.
  intros Hlen. unfold UpdateArray.
  lazymatch goal with |- context [for_loop _ ?b _] => set (body := b) end.
  set (Inv := fun (k : nat) (st : list Z * option nat * nat) =>
    let '(c, fst, lst) := st in
    length c = length current_values
    ∧ (∀ i, i < k → c !!! i = new_values !!! i)
    ∧ (∀ i, k ≤ i → c !!! i = current_values !!! i)
    ∧ match fst with
      | None => ∀ i, i < k → current_values !!! i = new_values !!! i
      | Some f =>
          f ≤ lst ∧ lst < k
          ∧ current_values !!! f ≠ new_values !!! f
          ∧ current_values !!! lst ≠ new_values !!! lst
          ∧ (∀ i, i < f → current_values !!! i = new_values !!! i)
          ∧ (∀ i, lst < i → i < k → current_values !!! i = new_values !!! i)
      end).
  assert (HI : Inv (length current_values)
                 (for_loop (length current_values) body (current_values, None, 0))).
  { apply for_loop_inv.
    - simpl. repeat split; intros; try done; lia.
    - intros k [[c fst] lst] Hk (Hl & Hlow & Hhigh & Hf). subst body. simpl.
      unfold UpdateValue. simpl.
      assert (Hck : c !!! k = current_values !!! k) by (apply Hhigh; lia).
      assert (Hins : ∀ i, i < Datatypes.S k →
                <[k := new_values !!! k]> c !!! i = new_values !!! i).
      { intros i Hi. destruct (decide (i = k)) as [->|Hne].
        - apply list_lookup_total_insert_eq. lia.
        - rewrite list_lookup_total_insert_ne by done. apply Hlow. lia. }
      assert (Hkeep : ∀ i, Datatypes.S k ≤ i →
                <[k := new_values !!! k]> c !!! i = current_values !!! i).
      { intros i Hi. rewrite list_lookup_total_insert_ne by lia. apply Hhigh. lia. }
      case_bool_decide as Hd; simpl.
      + rewrite Hck in Hd.
        destruct fst as [f|]; [destruct Hf as (? & ? & ? & ? & ? & ?)|];
          rewrite length_insert; repeat split; auto; try lia; intros; lia.
      + rewrite Hck in Hd.
        destruct fst as [f|]; [destruct Hf as (? & ? & ? & ? & ? & Hgap)|];
          rewrite length_insert; repeat split; auto; try lia;
          intros i **; (destruct (decide (i = k)) as [->|]; [done|]);
          first [apply Hgap; lia | apply Hf; lia]. }
  destruct (for_loop (length current_values) body (current_values, None, 0))
    as [[c fst] lst].
  destruct HI as (Hl & Hlow & _ & Hf).
  assert (Hc : c = new_values).
  { apply list_eq_total; [lia|]. intros i Hi. apply Hlow. lia. }
  destruct fst as [f|]; simpl.
  - split; [done|]. destruct Hf as (? & ? & ? & ? & ? & ?).
    exists f, lst. repeat split; auto; try lia. intros i [? ?]. auto.
  - split; [done|]. apply list_eq_total; [done|]. intros i Hi. by apply Hf.
Qed.

Lemma ApplyImages_after self cur :
  length (images cur) = length (images self) →
  images (after (ApplyImages self) cur) = images self.
Proof.
  intros Hlen. unfold after, ApplyImages. cbv zeta. simpl.
  destruct (UpdateArray_spec (images cur) (images self) Hlen) as [H1 _].
  destruct (UpdateArray (images cur) (images self)) as [cv [[f c]|]]; simpl in *;
    subst cv; reflexivity.
Qed.

End After.

(** ** Convergence of [Apply] *)

Section Convergence.
Variables NumRenderTargets NumViewports : nat.

Lemma Apply_converged self gl :
  well_formed NumRenderTargets NumViewports self →
  same_shape self (cur_state gl) →
  converged self (cur_state gl) (cur_state (Apply NumRenderTargets NumViewports self gl)).
Proof.
  intros (Hcm & Hvp & Hbl) (Sclip & Scm & Svp & Sbl & Stex & Ssam & Simg).
  rewrite Apply_unfold. unfold converged, Apply_result.
  cbn [cur_state draw clip_distance fragment_color_clamp_enabled multisample_control
       rasterizer_discard color_mask viewports stencil independant_blend_enabled
       blend textures samplers images clip_control renderbuffer].
  pose proof (ApplyFramebufferState_after self (cur_state gl)) as Hfb.
  pose proof (ApplyShaderProgram_after self (cur_state gl)) as Hsp.
  pose proof (ApplyProgramPipeline_after self (cur_state gl)) as Hpp.
  unfold get_framebuffers, get_program, get_pipeline in Hfb, Hsp, Hpp.
  injection Hfb as Hr Hd.
  repeat apply conj.
  - rewrite Hr, Hd, Hsp, Hpp. by destruct (draw self).
  - apply ApplyClipDistances_after. lia.
  - apply ApplyFragmentColorClamp_after.
  - apply ApplyMultisample_after.
  - apply ApplyRasterizerDiscard_after.
  - apply ApplyColorMask_after; lia.
  - apply ApplyViewport_after; lia.
  - apply ApplyStencilTest_after.
  - apply ApplyBlending_after_flag.
  - apply ApplyBlending_after; lia.
  - rewrite ApplyTextures_after by lia. done.
  - rewrite ApplySamplers_after by lia. done.
  - rewrite ApplyImages_after by lia. done.
  - apply ApplyClipControl_after.
  - apply ApplyRenderBuffer_after.
Qed.

End Convergence.

(** ** A routine whose members already match does nothing *)

Lemma bool_decide_ne_refl {A} `{EqDecision A} (a : A) : bool_decide (a ≠ a) = false.
Proof. by apply bool_decide_eq_false_2; intros ?. Qed.

Ltac fixed_tac self gl :=
  let H := fresh "H" in
  let cur := fresh "cur" in
  intros H; destruct gl as [cur ?]; destruct_state self; destruct_state cur;
  st_norm_in H; st_norm; simplify_eq;
  repeat (rewrite !bool_decide_ne_refl; simpl; st_norm); reflexivity.

Lemma viewport_applied_depth c d :
  viewport_applied c d → depth_range_ordinary d →
  float_ne (depth_range_near c) (depth_range_near d) = false
  ∧ float_ne (depth_range_far c) (depth_range_far d) = false.
Proof.
  intros (_ & _ & _ & _ & _ & [[-> ->]|H]) Ho; [exact Ho|exact H].
Qed.

Section Fixed.
Variables NumRenderTargets NumViewports : nat.

Lemma ApplyFramebufferState_fixed self gl :
  get_framebuffers (cur_state gl) = get_framebuffers self →
  ApplyFramebufferState self gl = gl.
Proof. unfold ApplyFramebufferState. fixed_tac self gl. Qed.

Lemma ApplyShaderProgram_fixed self gl :
  get_program (cur_state gl) = get_program self → ApplyShaderProgram self gl = gl.
Proof. unfold ApplyShaderProgram. fixed_tac self gl. Qed.

Lemma ApplyProgramPipeline_fixed self gl :
  get_pipeline (cur_state gl) = get_pipeline self → ApplyProgramPipeline self gl = gl.
Proof. unfold ApplyProgramPipeline. fixed_tac self gl. Qed.

Lemma ApplyFragmentColorClamp_fixed self gl :
  fragment_color_clamp_enabled (cur_state gl) = fragment_color_clamp_enabled self →
  ApplyFragmentColorClamp self gl = gl.
Proof. unfold ApplyFragmentColorClamp. fixed_tac self gl. Qed.

Lemma ApplyMultisample_fixed self gl :
  multisample_control (cur_state gl) = multisample_control self →
  ApplyMultisample self gl = gl.
Proof. unfold ApplyMultisample. fixed_tac self gl. Qed.

Lemma ApplyRasterizerDiscard_fixed self gl :
  rasterizer_discard (cur_state gl) = rasterizer_discard self →
  ApplyRasterizerDiscard self gl = gl.
Proof. unfold ApplyRasterizerDiscard. fixed_tac self gl. Qed.

Lemma ApplyStencilTest_fixed self gl :
  stencil (cur_state gl) = stencil self → ApplyStencilTest self gl = gl.
Proof. unfold ApplyStencilTest. fixed_tac self gl. Qed.

Lemma ApplyClipControl_fixed self gl :
  clip_control (cur_state gl) = clip_control self → ApplyClipControl self gl = gl.
Proof. unfold ApplyClipControl. fixed_tac self gl. Qed.

Lemma ApplyRenderBuffer_fixed self gl :
  renderbuffer (cur_state gl) = renderbuffer self → ApplyRenderBuffer self gl = gl.
Proof. unfold ApplyRenderBuffer. fixed_tac self gl. Qed.

Ltac fixed_loop_tac self gl :=
  let H := fresh "H" in
  let cur := fresh "cur" in
  let i := fresh "i" in
  intros H; apply for_loop_fix; intros i _;
  destruct gl as [cur ?]; destruct_state self; destruct_state cur;
  st_norm_in H; st_norm; simplify_eq;
  repeat (rewrite !bool_decide_ne_refl; simpl; st_norm);
  rewrite ?list_insert_total_id; reflexivity.

Lemma ApplyClipDistances_fixed self gl :
  clip_distance (cur_state gl) = clip_distance self → ApplyClipDistances self gl = gl.
Proof. unfold ApplyClipDistances. fixed_loop_tac self gl. Qed.

Lemma ApplyColorMask_fixed self gl :
  color_mask (cur_state gl) = color_mask self →
  ApplyColorMask NumRenderTargets self gl = gl.
Proof. unfold ApplyColorMask. fixed_loop_tac self gl. Qed.

Lemma ApplyTextures_fixed self gl :
  textures (cur_state gl) = textures self → ApplyTextures self gl = gl.
Proof. unfold ApplyTextures. cbv zeta. fixed_loop_tac self gl. Qed.

Lemma ApplySamplers_fixed self gl :
  samplers (cur_state gl) = samplers self → ApplySamplers self gl = gl.
Proof. unfold ApplySamplers. cbv zeta. fixed_loop_tac self gl. Qed.

Lemma ApplyViewport_fixed self gl :
  length (viewports self) = NumViewports →
  Forall2 viewport_applied (viewports (cur_state gl)) (viewports self) →
  Forall depth_range_ordinary (viewports self) →
  ApplyViewport NumViewports self gl = gl.
Proof.
  intros Hlen Hap Hord. unfold ApplyViewport. apply for_loop_fix. intros i Hi.
  destruct gl as [cur l].
  assert (Hc : ∃ c, viewports cur !! i = Some c).
  { apply lookup_lt_is_Some. pose proof (Forall2_length _ _ _ Hap) as E.
    simpl in E. lia. }
  assert (Hd : ∃ d, viewports self !! i = Some d).
  { apply lookup_lt_is_Some. lia. }
  destruct Hc as [c Hc], Hd as [d Hd].
  pose proof (Forall2_lookup_lr _ _ _ _ _ _ Hap Hc Hd) as Hcd.
  pose proof (Forall_lookup_1 _ _ _ _ Hord Hd) as Hod.
  destruct (viewport_applied_depth c d Hcd Hod) as [Hn Hf].
  destruct Hcd as (Hx & Hy & Hw & Hh & Hs & _).
  cbv zeta. simpl cur_state.
  rewrite (list_lookup_total_correct _ _ _ Hc), (list_lookup_total_correct _ _ _ Hd).
  rewrite Hx, Hy, Hw, Hh, !bool_decide_ne_refl. simpl.
  rewrite Hn, Hf. simpl.
  unfold EnableCachedi, UpdateValue. rewrite Hs, !bool_decide_ne_refl. simpl.
  rewrite ?bool_decide_ne_refl. simpl.
  unfold with_cur. simpl. f_equal.
  destruct cur; unfold set_viewports; simpl in *. f_equal.
  apply list_insert_id. rewrite Hc. f_equal.
  destruct c as [? ? ? ? ? ? sc], d as [? ? ? ? ? ? sd]; simpl in *. subst.
  by destruct sd.
Qed.

Lemma ApplyTargetBlending_fixed self target gl :
  blend (cur_state gl) !!! target = blend self !!! target →
  ApplyTargetBlending self target false gl = gl.
Proof.
  intros H. destruct gl as [cur l]. simpl in H.
  unfold ApplyTargetBlending, UpdateTie, with_cur. cbv zeta. simpl cur_state.
  rewrite H. destruct (blend self !!! target) eqn:E. simpl.
  repeat (rewrite !bool_decide_ne_refl; simpl).
  rewrite <- H, list_insert_total_id. by destruct cur.
Qed.

Lemma ApplyGlobalBlending_fixed self gl :
  blend (cur_state gl) !!! 0 = blend self !!! 0 →
  ApplyGlobalBlending self gl = gl.
Proof.
  intros H. destruct gl as [cur l]. simpl in H.
  unfold ApplyGlobalBlending, EnableCached, UpdateValue, with_cur. cbv zeta.
  simpl cur_state.
  rewrite H. destruct (blend self !!! 0) eqn:E. simpl.
  repeat (rewrite !bool_decide_ne_refl; simpl).
  rewrite <- H, list_insert_total_id. by destruct cur.
Qed.

Lemma ApplyBlending_fixed self gl :
  independant_blend_enabled (cur_state gl) = independant_blend_enabled self →
  (if independant_blend_enabled self
   then blend (cur_state gl) = blend self
   else blend (cur_state gl) !! 0 = blend self !! 0) →
  ApplyBlending NumRenderTargets self gl = gl.
Proof.
  intros Hflag Hbl. unfold ApplyBlending. cbv zeta. rewrite Hflag.
  rewrite bool_decide_ne_refl.
  assert (Hset : ∀ g, independant_blend_enabled (cur_state g)
                      = independant_blend_enabled self →
            with_cur (set_independant_blend_enabled (independant_blend_enabled self)
                        (cur_state g)) g = g).
  { intros [[] ?] E. simpl in *. subst. reflexivity. }
  destruct (independant_blend_enabled self) eqn:E.
  - rewrite for_loop_fix; [by apply Hset|].
    intros i _. apply ApplyTargetBlending_fixed. by rewrite Hbl.
  - rewrite ApplyGlobalBlending_fixed; [by apply Hset|].
    by apply lookup_total_of_lookup.
Qed.

Lemma UpdateArray_same (l : list Z) : UpdateArray l l = (l, None).
Proof.
  destruct (UpdateArray_spec l l eq_refl) as [H1 H2].
  destruct (UpdateArray l l) as [cv [[f c]|]]; simpl in *.
  - destruct H2 as (first & last & _ & _ & _ & Hne & _). done.
  - by subst.
Qed.

Lemma ApplyImages_fixed self gl :
  images (cur_state gl) = images self → ApplyImages self gl = gl.
Proof.
  intros H. unfold ApplyImages. cbv zeta. rewrite H, UpdateArray_same.
  destruct gl as [[] ?]. simpl in *. subst. reflexivity.
Qed.

(** Once [Apply] has run, running it again with the same desired state changes
    neither the applied state nor the calls issued. *)
Lemma Apply_fixed self cur0 gl :
  length (viewports self) = NumViewports →
  converged self cur0 (cur_state gl) →
  Forall depth_range_ordinary (viewports self) →
  Apply NumRenderTargets NumViewports self gl = gl.
Proof.
  intros Hlen (Hdraw & Hclip & Hclamp & Hms & Hrd & Hcm & Hvp & Hst & Hflag & Hbl
               & Htex & Hsam & Himg & Hcc & Hrb) Hord.
  unfold Apply. cbv zeta.
  rewrite ApplyFramebufferState_fixed by (unfold get_framebuffers; by rewrite Hdraw).
  rewrite ApplyShaderProgram_fixed by (unfold get_program; by rewrite Hdraw).
  rewrite ApplyProgramPipeline_fixed by (unfold get_pipeline; by rewrite Hdraw).
  rewrite ApplyClipDistances_fixed by done.
  rewrite ApplyFragmentColorClamp_fixed by done.
  rewrite ApplyMultisample_fixed by done.
  rewrite ApplyRasterizerDiscard_fixed by done.
  rewrite ApplyColorMask_fixed by done.
  rewrite ApplyViewport_fixed by done.
  rewrite ApplyStencilTest_fixed by done.
  rewrite ApplyBlending_fixed; [|done|by destruct (independant_blend_enabled self), Hbl].
  rewrite ApplyTextures_fixed by done.
  rewrite ApplySamplers_fixed by done.
  rewrite ApplyImages_fixed by done.
  rewrite ApplyClipControl_fixed by done.
  by apply ApplyRenderBuffer_fixed.
Qed.

End Fixed.

(** ** The calls [Apply] adds *)

Lemma filter_filter_implied {A} (P Q : A → Prop) `{∀ a, Decision (P a)}
  `{∀ a, Decision (Q a)} (l : list A) :
  (∀ a, P a → Q a) → filter P (filter Q l) = filter P l.
Proof.
  intros HPQ. induction l as [|a l IH]; [done|].
  destruct (decide (Q a)) as [Hq|Hq].
  - rewrite (filter_cons_True Q) by done.
    destruct (decide (P a)).
    + rewrite !(filter_cons_True P) by done. by rewrite IH.
    + rewrite !(filter_cons_False P) by done. by rewrite IH.
  - rewrite (filter_cons_False Q) by done.
    rewrite (filter_cons_False P) by (intros ?; apply Hq; auto). done.
Qed.

Section Issued.
Variables NumRenderTargets NumViewports : nat.

Lemma Apply_issued self gl :
  issued (Apply NumRenderTargets NumViewports self) gl
  = Apply_emitted NumRenderTargets NumViewports self (cur_state gl).
Proof.
  unfold issued. rewrite Apply_unfold. simpl. by rewrite drop_app_length.
Qed.

Lemma calls_of_Apply_images self cur :
  calls_of CatImages (Apply_emitted NumRenderTargets NumViewports self cur)
  = emitted (ApplyImages self) cur.
Proof.
  unfold Apply_emitted, calls_of. rewrite !filter_app.
  change (filter (λ c, category_of c = CatImages)) with (calls_of CatImages).
  rewrite (calls_of_own _ _ _ (ApplyImages_category self)).
  rewrite (calls_of_other _ _ _ _ (ApplyFramebufferState_category self)) by done.
  rewrite (calls_of_other _ _ _ _ (ApplyShaderProgram_category self)) by done.
  rewrite (calls_of_other _ _ _ _ (ApplyProgramPipeline_category self)) by done.
  rewrite (calls_of_other _ _ _ _ (ApplyClipDistances_category self)) by done.
  rewrite (calls_of_other _ _ _ _ (ApplyFragmentColorClamp_category self)) by done.
  rewrite (calls_of_other _ _ _ _ (ApplyMultisample_category self)) by done.
  rewrite (calls_of_other _ _ _ _ (ApplyRasterizerDiscard_category self)) by done.
  rewrite (calls_of_other _ _ _ _ (ApplyColorMask_category NumRenderTargets self)) by done.
  rewrite (calls_of_other _ _ _ _ (ApplyViewport_category NumViewports self)) by done.
  rewrite (calls_of_other _ _ _ _ (ApplyStencilTest_category self)) by done.
  rewrite (calls_of_other _ _ _ _ (ApplyBlending_category NumRenderTargets self)) by done.
  rewrite (calls_of_other _ _ _ _ (ApplyTextures_category self)) by done.
  rewrite (calls_of_other _ _ _ _ (ApplySamplers_category self)) by done.
  rewrite (calls_of_other _ _ _ _ (ApplyClipControl_category self)) by done.
  rewrite (calls_of_other _ _ _ _ (ApplyRenderBuffer_category self)) by done.
  simpl. by rewrite app_nil_r.
Qed.

Lemma calls_of_Apply_blending self cur :
  calls_of CatBlending (Apply_emitted NumRenderTargets NumViewports self cur)
  = emitted (ApplyBlending NumRenderTargets self) cur.
Proof.
  unfold Apply_emitted, calls_of. rewrite !filter_app.
  change (filter (λ c, category_of c = CatBlending)) with (calls_of CatBlending).
  rewrite (calls_of_own _ _ _ (ApplyBlending_category NumRenderTargets self)).
  rewrite (calls_of_other _ _ _ _ (ApplyFramebufferState_category self)) by done.
  rewrite (calls_of_other _ _ _ _ (ApplyShaderProgram_category self)) by done.
  rewrite (calls_of_other _ _ _ _ (ApplyProgramPipeline_category self)) by done.
  rewrite (calls_of_other _ _ _ _ (ApplyClipDistances_category self)) by done.
  rewrite (calls_of_other _ _ _ _ (ApplyFragmentColorClamp_category self)) by done.
  rewrite (calls_of_other _ _ _ _ (ApplyMultisample_category self)) by done.
  rewrite (calls_of_other _ _ _ _ (ApplyRasterizerDiscard_category self)) by done.
  rewrite (calls_of_other _ _ _ _ (ApplyColorMask_category NumRenderTargets self)) by done.
  rewrite (calls_of_other _ _ _ _ (ApplyViewport_category NumViewports self)) by done.
  rewrite (calls_of_other _ _ _ _ (ApplyStencilTest_category self)) by done.
  rewrite (calls_of_other _ _ _ _ (ApplyImages_category self)) by done.
  rewrite (calls_of_other _ _ _ _ (ApplyTextures_category self)) by done.
  rewrite (calls_of_other _ _ _ _ (ApplySamplers_category self)) by done.
  rewrite (calls_of_other _ _ _ _ (ApplyClipControl_category self)) by done.
  rewrite (calls_of_other _ _ _ _ (ApplyRenderBuffer_category self)) by done.
  simpl. by rewrite app_nil_r.
Qed.

(** *** Textures: one bind per differing slot, none for a zero handle *)

Lemma ApplyTextures_emitted self cur :
  emitted (ApplyTextures self) cur
  = flat_map (fun i => texture_slot_calls i (textures self !!! i) (textures cur !!! i))
      (seq 0 (length (textures self))).
Proof.
  unfold emitted, ApplyTextures. cbv zeta.
  rewrite (slot_loop_emitted textures
             (fun i c => texture_slot_calls i (textures self !!! i) c)).
  - done.
  - intros i [g l]. unfold texture_slot_calls. st_norm. split_ifs; simpl in *;
      rewrite ?app_nil_r; try done.
  - intros i [g l]. st_norm. split_ifs; eexists; reflexivity.
Qed.

Lemma filter_singleton_true {A} (P : A → bool) (a : A) :
  P a = true → filter P [a] = [a].
Proof. intros E. rewrite filter_cons_True; [done|]. by rewrite E. Qed.

Lemma filter_singleton_false {A} (P : A → bool) (a : A) :
  P a = false → filter P [a] = [].
Proof. intros E. rewrite filter_cons_False; [done|]. rewrite E. exact id. Qed.

Lemma texture_slot_calls_filter i j u c :
  filter (binds_texture_unit (Z.of_nat i)) (texture_slot_calls j u c)
  = if bool_decide (j = i) then texture_slot_calls j u c else [].
Proof.
  unfold texture_slot_calls.
  destruct (bool_decide (c ≠ u) && bool_decide (u ≠ 0%Z)); [|by case_bool_decide].
  case_bool_decide as Hji.
  - subst. apply filter_singleton_true. simpl. by rewrite bool_decide_eq_true_2.
  - apply filter_singleton_false. simpl. rewrite bool_decide_eq_false_2; [done|]. lia.
Qed.

Lemma flat_map_filter_slot {A} (P : A → Prop) `{∀ a, Decision (P a)}
  (f : nat → list A) i n :
  (∀ j, filter P (f j) = if bool_decide (j = i) then f j else []) →
  filter P (flat_map f (seq 0 n)) = if bool_decide (i < n) then f i else [].
Proof.
  intros Hf. induction n as [|n IH].
  - case_bool_decide; [lia|done].
  - rewrite seq_S, flat_map_app, filter_app, IH. simpl. rewrite app_nil_r, Hf.
    repeat case_bool_decide; subst; try lia; rewrite ?app_nil_r; done.
Qed.

Lemma Apply_texture_binds self gl i :
  i < length (textures self) →
  filter (binds_texture_unit (Z.of_nat i))
    (issued (Apply NumRenderTargets NumViewports self) gl)
  = texture_slot_calls i (textures self !!! i) (textures (cur_state gl) !!! i).
Proof.
  intros Hi. rewrite Apply_issued.
  rewrite <- (filter_filter_implied (binds_texture_unit (Z.of_nat i))
                (fun c => category_of c = CatTextures)).
  2:{ intros c Hc. destruct c; simpl in *; done. }
  change (filter (λ c, category_of c = CatTextures)) with (calls_of CatTextures).
  rewrite calls_of_Apply_textures, ApplyTextures_emitted.
  rewrite (flat_map_filter_slot _ _ i).
  - by rewrite bool_decide_eq_true_2.
  - intros j. apply texture_slot_calls_filter.
Qed.

Lemma Apply_textures_state self gl :
  length (textures (cur_state gl)) = length (textures self) →
  textures (cur_state (Apply NumRenderTargets NumViewports self gl)) = textures self.
Proof.
  intros Hlen. rewrite Apply_unfold. simpl. by apply ApplyTextures_after.
Qed.

(** *** Blending: each target applied on its own *)

Lemma ApplyTargetBlending_calls self target force gl :
  gl_calls (ApplyTargetBlending self target force gl)
  = gl_calls gl ++ target_blending_calls target force (blend self !!! target)
                     (blend (cur_state gl) !!! target).
Proof.
  destruct gl as [g l]. unfold ApplyTargetBlending, target_blending_calls.
  simpl cur_state. simpl gl_calls.
  destruct (blend g !!! target), (blend self !!! target). st_norm. simpl.
  repeat match goal with
         | |- context [if ?b then _ else _] =>
             lazymatch b with
             | context [if _ then _ else _] => fail
             | _ => destruct b eqn:?; simpl
             end
         end;
    rewrite ?app_nil_r, <- ?app_assoc; done.
Qed.

Lemma filter_optional {A} (P : A → bool) (b r : bool) (c : A) :
  P c = r → filter P (if b then [c] else []) = if r then (if b then [c] else []) else [].
Proof.
  intros <-. destruct b; [|by destruct (P c)].
  destruct (P c) eqn:E; [by apply filter_singleton_true|by apply filter_singleton_false].
Qed.

Lemma target_blending_calls_filter t j force u c :
  filter (addresses_blend_target (Z.of_nat t)) (target_blending_calls j force u c)
  = if bool_decide (j = t) then target_blending_calls j force u c else [].
Proof.
  unfold target_blending_calls. rewrite !filter_app.
  assert (Hb : bool_decide (Z.of_nat j = Z.of_nat t) = bool_decide (j = t)).
  { apply bool_decide_ext. lia. }
  rewrite !(filter_optional _ _ (bool_decide (j = t)));
    [by destruct (bool_decide (j = t))|simpl; done..| by destruct (enabled u)].
Qed.

Lemma ApplyBlending_independent_emitted self cur :
  independant_blend_enabled self = true →
  emitted (ApplyBlending NumRenderTargets self) cur
  = flat_map (fun target =>
                target_blending_calls target (negb (independant_blend_enabled cur))
                  (blend self !!! target) (blend cur !!! target))
      (seq 0 NumRenderTargets).
Proof.
  intros Hind. unfold emitted, ApplyBlending. cbv zeta. rewrite Hind.
  unfold with_cur. simpl.
  rewrite (slot_loop_emitted blend
             (fun t c => target_blending_calls t (negb (independant_blend_enabled cur))
                           (blend self !!! t) c)).
  - done.
  - intros i gl. rewrite ApplyTargetBlending_calls. do 2 f_equal.
    by destruct (independant_blend_enabled cur).
  - intros i gl. destruct (ApplyTargetBlending_slot self i
      (bool_decide (true ≠ independant_blend_enabled cur)) gl) as (v & Hv & _). eauto.
Qed.

Lemma Apply_blend_target_calls self gl target :
  independant_blend_enabled self = true →
  target < NumRenderTargets →
  filter (addresses_blend_target (Z.of_nat target))
    (issued (Apply NumRenderTargets NumViewports self) gl)
  = target_blending_calls target (negb (independant_blend_enabled (cur_state gl)))
      (blend self !!! target) (blend (cur_state gl) !!! target).
Proof.
  intros Hind Ht. rewrite Apply_issued.
  rewrite <- (filter_filter_implied (addresses_blend_target (Z.of_nat target))
                (fun c => category_of c = CatBlending)).
  2:{ intros c Hc. destruct c as [| | | | |[]|[]| | | | | | | | | | | | | | | | |];
        simpl in *; done. }
  change (filter (λ c, category_of c = CatBlending)) with (calls_of CatBlending).
  rewrite calls_of_Apply_blending, ApplyBlending_independent_emitted by done.
  rewrite (flat_map_filter_slot _ _ target).
  - by rewrite bool_decide_eq_true_2.
  - intros j. apply target_blending_calls_filter.
Qed.

End Issued.

(** * The claims *)

(** ** Convergence *)

(** C1 (amended). For a desired state and an applied state of the same array
    extents, once [Apply] has returned the applied state agrees with the
    desired one member by member, with two provisos: when independent blending
    is off only blend target 0 is brought up to date (the other targets keep
    what the applied state held), and a viewport's depth range is either the
    desired one or compares equal to it under [!=]. *)
Theorem Apply_convergence (NumRenderTargets NumViewports : nat) (self : OpenGLState)
  (gl : GLContext) :
  well_formed NumRenderTargets NumViewports self →
  same_shape self (cur_state gl) →
  converged self (cur_state gl) (cur_state (Apply NumRenderTargets NumViewports self gl)).
Proof.
  intros (Hcm & Hvp & Hbl) (Sclip & Scm & Svp & Sbl & Stex & Ssam & Simg).
  rewrite Apply_unfold. unfold converged, Apply_result.
  cbn [cur_state draw clip_distance fragment_color_clamp_enabled multisample_control
       rasterizer_discard color_mask viewports stencil independant_blend_enabled
       blend textures samplers images clip_control renderbuffer].
  split.
  { pose proof (ApplyFramebufferState_after self (cur_state gl)) as Hfb.
    injection Hfb as -> ->.
    pose proof (ApplyShaderProgram_after self (cur_state gl)) as Hsp.
    pose proof (ApplyProgramPipeline_after self (cur_state gl)) as Hpp.
    unfold get_program, get_pipeline in Hsp, Hpp. rewrite Hsp, Hpp.
    by destruct (draw self). }
  split; [apply ApplyClipDistances_after; lia|].
  split; [apply ApplyFragmentColorClamp_after|].
  split; [apply ApplyMultisample_after|].
  split; [apply ApplyRasterizerDiscard_after|].
  split; [apply ApplyColorMask_after; lia|].
  split; [apply ApplyViewport_after; lia|].
  split; [apply ApplyStencilTest_after|].
  split; [apply ApplyBlending_after_flag|].
  split; [apply ApplyBlending_after; lia|].
  split; [apply ApplyTextures_after; lia|].
  split; [apply ApplySamplers_after; lia|].
  split; [apply ApplyImages_after; lia|].
  split; [apply ApplyClipControl_after|apply ApplyRenderBuffer_after].
Qed.

Lemma example_blend1_well_formed : well_formed 8 16 example_blend1_state.
Proof. repeat split. Qed.

Lemma example_blend1_same_shape : same_shape example_blend1_state example_state.
Proof. repeat split. Qed.

Lemma Apply_convergence_witness :
  well_formed 8 16 example_blend1_state
  ∧ same_shape example_blend1_state (cur_state example_context)
  ∧ converged example_blend1_state (cur_state example_context)
      (cur_state (Apply 8 16 example_blend1_state example_context)).
Proof.
  refine (conj example_blend1_well_formed (conj example_blend1_same_shape _)).
  exact (Apply_convergence 8 16 example_blend1_state example_context
           example_blend1_well_formed example_blend1_same_shape).
Defined.

(** C1 as stated fails: with independent blending off, a desired state that
    enables blending on target 1 leaves target 1 of the applied state as it
    was. *)
Lemma Apply_convergence_counterexample :
  well_formed 8 16 example_blend1_state
  ∧ same_shape example_blend1_state (cur_state example_context)
  ∧ enabled (blend example_blend1_state !!! 1) = true
  ∧ enabled (blend (cur_state (Apply 8 16 example_blend1_state example_context)) !!! 1)
    = false
  ∧ blend (cur_state (Apply 8 16 example_blend1_state example_context))
    ≠ blend example_blend1_state.
Proof.
  refine (conj example_blend1_well_formed (conj example_blend1_same_shape _)).
  split; [reflexivity|]. split; [vm_compute; reflexivity|].
  intros E. apply (f_equal (fun l => enabled (l !!! 1))) in E.
  vm_compute in E. discriminate.
Qed.

(** ** Idempotence *)

(** C2 (amended). When no viewport of the desired state has a NaN depth-range
    bound, a second [Apply] of the same desired state right after the first
    issues no driver call. *)
Theorem Apply_idempotence (NumRenderTargets NumViewports : nat) (self : OpenGLState)
  (gl : GLContext) :
  well_formed NumRenderTargets NumViewports self →
  same_shape self (cur_state gl) →
  Forall depth_range_ordinary (viewports self) →
  issued (Apply NumRenderTargets NumViewports self)
    (Apply NumRenderTargets NumViewports self gl) = [].
Proof.
  intros Hwf Hss Hord. unfold issued.
  rewrite (Apply_fixed NumRenderTargets NumViewports self (cur_state gl)
             (Apply NumRenderTargets NumViewports self gl)).
  - by rewrite drop_all.
  - apply Hwf.
  - by apply Apply_converged.
  - exact Hord.
Qed.

Lemma example_texture_well_formed : well_formed 8 16 example_texture_state.
Proof. repeat split. Qed.

Lemma example_texture_same_shape : same_shape example_texture_state example_state.
Proof. repeat split. Qed.

Lemma example_texture_ordinary :
  Forall depth_range_ordinary (viewports example_texture_state).
Proof. repeat (constructor; [split; reflexivity|]). constructor. Qed.

Lemma Apply_idempotence_witness :
  issued (Apply 8 16 example_texture_state)
    (Apply 8 16 example_texture_state example_context) = [].
Proof.
  exact (Apply_idempotence 8 16 example_texture_state example_context
           example_texture_well_formed example_texture_same_shape
           example_texture_ordinary).
Defined.

(** C2 as stated fails: a NaN depth-range bound differs from itself, so every
    [Apply] of such a state issues the depth-range call again. *)
Lemma Apply_idempotence_counterexample :
  well_formed 8 16 example_nan_state
  ∧ same_shape example_nan_state (cur_state example_context)
  ∧ issued (Apply 8 16 example_nan_state) (Apply 8 16 example_nan_state example_context)
    = [glDepthRangeIndexed 0 PrimFloat.nan PrimFloat.one].
Proof. repeat split. Qed.

(** ** Range bind of the image units *)

(** C3. When the image units that differ from the applied state start at index
    [first] and end at index [last], [Apply] issues exactly one image bind; it
    covers [first .. last] inclusive and carries the desired handles of every
    index in that range, those in between included. When no image unit
    differs it issues none. *)
Theorem Apply_images_range_bind (NumRenderTargets NumViewports : nat)
  (self : OpenGLState) (gl : GLContext) :
  length (images (cur_state gl)) = length (images self) →
  (∀ first last : nat,
     first ≤ last < length (images self) →
     images (cur_state gl) !!! first ≠ images self !!! first →
     images (cur_state gl) !!! last ≠ images self !!! last →
     (∀ i, i < first → images (cur_state gl) !!! i = images self !!! i) →
     (∀ i, last < i < length (images self) →
        images (cur_state gl) !!! i = images self !!! i) →
     calls_of CatImages (issued (Apply NumRenderTargets NumViewports self) gl)
     = [glBindImageTextures (Z.of_nat first) (Z.of_nat (last - first + 1))
          (take (last - first + 1) (drop first (images self)))]
     ∧ ∀ k, first ≤ k ≤ last →
         take (last - first + 1) (drop first (images self)) !! (k - first)
         = Some (images self !!! k))
  ∧ (images (cur_state gl) = images self →
     calls_of CatImages (issued (Apply NumRenderTargets NumViewports self) gl) = []).
Proof.
  intros Hlen. rewrite Apply_issued, calls_of_Apply_images.
  unfold emitted, ApplyImages. cbv zeta. simpl cur_state.
  split.
  - intros first last Hrange Hf Hl Hbefore Hafter.
    destruct (UpdateArray_spec (images (cur_state gl)) (images self) Hlen) as [_ Hspec].
    destruct (UpdateArray (images (cur_state gl)) (images self)) as [cv [[f c]|]];
      simpl in Hspec.
    + destruct Hspec as (first' & last' & -> & -> & Hr' & Hf' & Hl' & Hb' & Ha').
      assert (first' = first).
      { destruct (decide (first' < first)); [by specialize (Hbefore _ l)|].
        destruct (decide (first < first')); [by specialize (Hb' _ l)|]. lia. }
      assert (last' = last).
      { destruct (decide (last' < last)).
        - exfalso. apply Hl. apply Ha'. lia.
        - destruct (decide (last < last')); [|lia].
          exfalso. apply Hl'. apply Hafter. lia. }
      subst first' last'. simpl. rewrite !Nat2Z.id. split; [done|].
      intros k Hk. rewrite lookup_take_lt by lia. rewrite lookup_drop.
      replace (first + (k - first)) with k by lia.
      apply list_lookup_lookup_total_lt. lia.
    + exfalso. apply Hf. by rewrite Hspec.
  - intros E. rewrite E, UpdateArray_same. done.
Qed.

Lemma Apply_images_range_bind_witness :
  calls_of CatImages (issued (Apply 8 16 example_images_state) example_context)
  = [glBindImageTextures 2 4 [21; 0; 0; 22]%Z]
  ∧ [21; 0; 0; 22]%Z !! 1 = Some (images example_images_state !!! 3)
  ∧ [21; 0; 0; 22]%Z !! 2 = Some (images example_images_state !!! 4).
Proof.
  destruct (Apply_images_range_bind 8 16 example_images_state example_context eq_refl)
    as [Hrange _].
  destruct (Hrange 2 5) as [Hcall Hvalues].
  - simpl. lia.
  - vm_compute. discriminate.
  - vm_compute. discriminate.
  - intros [|[|i]] Hi; [reflexivity..|lia].
  - intros [|[|[|[|[|[|[|[|i]]]]]]]] Hi; simpl in Hi; try lia; reflexivity.
  - split; [exact Hcall|]. split; [exact (Hvalues 3 ltac:(lia))|exact (Hvalues 4 ltac:(lia))].
Defined.

(** ** Texture binds *)

(** C5 (amended). In [Apply], a texture slot of any index whose desired handle
    is zero and differs from the applied one gets no bind call, yet the applied
    state records the zero; a slot whose desired handle is not zero and differs
    gets exactly one bind call, for that unit and that handle. The test is on
    the handle of the slot, not on its index: slot 0 is treated like the
    others. *)
Theorem Apply_texture_unbind_skip (NumRenderTargets NumViewports : nat)
  (self : OpenGLState) (gl : GLContext) (i : nat) :
  i < length (textures self) →
  length (textures (cur_state gl)) = length (textures self) →
  textures (cur_state gl) !!! i ≠ textures self !!! i →
  textures (cur_state (Apply NumRenderTargets NumViewports self gl)) !!! i
  = textures self !!! i
  ∧ (textures self !!! i = 0%Z →
     filter (binds_texture_unit (Z.of_nat i))
       (issued (Apply NumRenderTargets NumViewports self) gl) = [])
  ∧ (textures self !!! i ≠ 0%Z →
     filter (binds_texture_unit (Z.of_nat i))
       (issued (Apply NumRenderTargets NumViewports self) gl)
     = [glBindTextureUnit (Z.of_nat i) (textures self !!! i)]).
Proof.
  intros Hi Hlen Hne. rewrite Apply_textures_state by done.
  rewrite Apply_texture_binds by done. unfold texture_slot_calls.
  rewrite (bool_decide_eq_true_2 _ Hne). simpl.
  split; [done|]. split; intros Hz.
  - by rewrite bool_decide_eq_false_2 by (intros ?; done).
  - by rewrite bool_decide_eq_true_2.
Qed.

Lemma Apply_texture_unbind_skip_witness :
  textures (cur_state (Apply 8 16 example_state
                         (mkGLContext example_texture_state []))) !!! 3 = 0%Z
  ∧ filter (binds_texture_unit 3)
      (issued (Apply 8 16 example_state) (mkGLContext example_texture_state [])) = []
  ∧ filter (binds_texture_unit 3)
      (issued (Apply 8 16 example_texture_state) example_context)
    = [glBindTextureUnit 3 7].
Proof.
  destruct (Apply_texture_unbind_skip 8 16 example_state
              (mkGLContext example_texture_state []) 3) as (Hstate & Hzero & _).
  { simpl. lia. }
  { reflexivity. }
  { vm_compute. discriminate. }
  destruct (Apply_texture_unbind_skip 8 16 example_texture_state example_context 3)
    as (_ & _ & Hbind).
  { simpl. lia. }
  { reflexivity. }
  { vm_compute. discriminate. }
  split; [exact Hstate|]. split; [exact (Hzero eq_refl)|].
  apply Hbind. vm_compute. discriminate.
Defined.

(** C5 as stated fails: it singles out slot zero and promises a bind call for
    every other slot whose desired value differs. Unit 3 holds handle 7 and is
    to be unbound: its desired value differs, it is not slot zero, and no bind
    call is issued for it (nor any other call). *)
Lemma Apply_texture_unbind_skip_counterexample :
  textures (cur_state (mkGLContext example_texture_state [])) !!! 3%nat = 7%Z
  ∧ textures example_state !!! 3%nat = 0%Z
  ∧ filter (binds_texture_unit 3)
      (issued (Apply 8 16 example_state) (mkGLContext example_texture_state [])) = []
  ∧ issued (Apply 8 16 example_state) (mkGLContext example_texture_state []) = [].
Proof. repeat split. Qed.

(** ** Invalidation and handle reuse *)

Lemma scrub_lookup (handle : Z) (l : list Z) i t :
  l !! i = Some t →
  map (fun e => if bool_decide (e = handle) then 0%Z else e) l !! i
  = Some (if bool_decide (t = handle) then 0%Z else t).
Proof. intros E. by rewrite list_lookup_fmap, E. Qed.

Lemma scrub_not_elem (handle : Z) (l : list Z) :
  handle ≠ 0%Z →
  handle ∉ map (fun e => if bool_decide (e = handle) then 0%Z else e) l.
Proof.
  intros Hz Hin. apply list_elem_of_fmap in Hin as (e & He & _).
  case_bool_decide; congruence.
Qed.

Lemma ResetFramebuffer_read (handle : Z) (s : OpenGLState) :
  read_framebuffer (draw (ResetFramebuffer handle s))
  = (if bool_decide (read_framebuffer (draw s) = handle) then 0%Z
     else read_framebuffer (draw s)).
Proof.
  unfold ResetFramebuffer. destruct s as [[r d p q]]. simpl.
  destruct (bool_decide (r = handle)); simpl; by destruct (bool_decide (d = handle)).
Qed.

Lemma ResetFramebuffer_draw (handle : Z) (s : OpenGLState) :
  draw_framebuffer (draw (ResetFramebuffer handle s))
  = (if bool_decide (draw_framebuffer (draw s) = handle) then 0%Z
     else draw_framebuffer (draw s)).
Proof.
  unfold ResetFramebuffer. destruct s as [[r d p q]]. simpl.
  destruct (bool_decide (r = handle)); simpl; by destruct (bool_decide (d = handle)).
Qed.

(** C4 (amended). Each invalidation helper replaces every occurrence of the
    handle, in the members of its category of the instance it is called on,
    with zero. If texture unit 3 of a state was bound to a non-zero handle [H],
    unit 3 is zero after [UnbindTexture(H)]; once that scrubbed state has
    itself been applied, so that unit 3 of the applied state is zero too, a
    later [Apply] of a state with [H] at unit 3 issues the bind call for unit 3
    rather than skipping it. *)
Theorem invalidation_and_handle_reuse (NumRenderTargets NumViewports : nat)
  (H : Z) (s d : OpenGLState) (gl : GLContext) :
  H ≠ 0%Z →
  length (textures (cur_state gl)) = length (textures s) →
  length (textures d) = length (textures s) →
  textures s !! 3 = Some H →
  textures d !! 3 = Some H →
  ((∀ i t, textures s !! i = Some t →
      textures (UnbindTexture H s) !! i = Some (if bool_decide (t = H) then 0%Z else t))
   ∧ (H ∉ textures (UnbindTexture H s))
   ∧ (∀ i t, samplers s !! i = Some t →
        samplers (ResetSampler H s) !! i = Some (if bool_decide (t = H) then 0%Z else t))
   ∧ (H ∉ samplers (ResetSampler H s))
   ∧ shader_program (draw (ResetProgram H s))
     = (if bool_decide (shader_program (draw s) = H) then 0%Z
        else shader_program (draw s))
   ∧ program_pipeline (draw (ResetPipeline H s))
     = (if bool_decide (program_pipeline (draw s) = H) then 0%Z
        else program_pipeline (draw s))
   ∧ read_framebuffer (draw (ResetFramebuffer H s))
     = (if bool_decide (read_framebuffer (draw s) = H) then 0%Z
        else read_framebuffer (draw s))
   ∧ draw_framebuffer (draw (ResetFramebuffer H s))
     = (if bool_decide (draw_framebuffer (draw s) = H) then 0%Z
        else draw_framebuffer (draw s))
   ∧ renderbuffer (ResetRenderbuffer H s)
     = (if bool_decide (renderbuffer s = H) then 0%Z else renderbuffer s))
  ∧ textures (UnbindTexture H s) !! 3 = Some 0%Z
  ∧ textures (cur_state (Apply NumRenderTargets NumViewports (UnbindTexture H s) gl)) !! 3
    = Some 0%Z
  ∧ filter (binds_texture_unit 3)
      (issued (Apply NumRenderTargets NumViewports d)
         (Apply NumRenderTargets NumViewports (UnbindTexture H s) gl))
    = [glBindTextureUnit 3 H].
Proof.
  intros Hz Hcur Hd Hs3 Hd3.
  assert (Hscrub3 : textures (UnbindTexture H s) !! 3 = Some 0%Z).
  { unfold UnbindTexture. simpl. rewrite (scrub_lookup H _ 3 H Hs3).
    by rewrite bool_decide_eq_true_2. }
  assert (Hlen : length (textures (UnbindTexture H s)) = length (textures s)).
  { unfold UnbindTexture. simpl. by rewrite length_map. }
  assert (Happlied :
    textures (cur_state (Apply NumRenderTargets NumViewports (UnbindTexture H s) gl))
    = textures (UnbindTexture H s)).
  { apply Apply_textures_state. lia. }
  repeat apply conj.
  - intros i t E. unfold UnbindTexture. simpl. by apply scrub_lookup.
  - unfold UnbindTexture. simpl. by apply scrub_not_elem.
  - intros i t E. unfold ResetSampler. simpl. by apply scrub_lookup.
  - unfold ResetSampler. simpl. by apply scrub_not_elem.
  - unfold ResetProgram. by case_bool_decide.
  - unfold ResetPipeline. by case_bool_decide.
  - apply ResetFramebuffer_read.
  - apply ResetFramebuffer_draw.
  - unfold ResetRenderbuffer. by case_bool_decide.
  - exact Hscrub3.
  - by rewrite Happlied.
  - assert (H3 : 3 < length (textures d)).
    { apply lookup_lt_Some in Hd3. lia. }
    change 3%Z with (Z.of_nat 3). rewrite Apply_texture_binds by done.
    rewrite Happlied.
    rewrite (list_lookup_total_correct _ _ _ Hd3), (list_lookup_total_correct _ _ _ Hscrub3).
    unfold texture_slot_calls.
    rewrite !bool_decide_eq_true_2 by (intros ?; congruence). done.
Qed.

Lemma invalidation_and_handle_reuse_witness :
  textures (UnbindTexture 7 example_texture_state) !! 3 = Some 0%Z
  ∧ filter (binds_texture_unit 3)
      (issued (Apply 8 16 example_texture_state)
         (Apply 8 16 (UnbindTexture 7 example_texture_state)
            (mkGLContext example_texture_state [])))
    = [glBindTextureUnit 3 7].
Proof.
  destruct (invalidation_and_handle_reuse 8 16 7 example_texture_state
              example_texture_state (mkGLContext example_texture_state []))
    as (_ & Hzero & _ & Hbind); try reflexivity.
  { discriminate. }
  exact (conj Hzero Hbind).
Defined.

(** C4 as stated fails: scrubbing a desired state does not touch the applied
    state. With handle 7 applied at unit 3, [UnbindTexture(7)] on the desired
    state zeroes its unit 3; binding 7 at unit 3 again and applying issues no
    call, because the applied state still holds 7 there. *)
Lemma invalidation_and_handle_reuse_counterexample :
  textures (cur_state (Apply 8 16 example_texture_state example_context)) !! 3
  = Some 7%Z
  ∧ textures (UnbindTexture 7 example_texture_state) !! 3 = Some 0%Z
  ∧ textures (set_textures (<[3 := 7%Z]> (textures (UnbindTexture 7 example_texture_state)))
                (UnbindTexture 7 example_texture_state)) !! 3 = Some 7%Z
  ∧ issued (Apply 8 16
              (set_textures (<[3 := 7%Z]> (textures (UnbindTexture 7 example_texture_state)))
                 (UnbindTexture 7 example_texture_state)))
      (Apply 8 16 example_texture_state example_context)
    = [].
Proof. repeat split. Qed.

(** ** Blending *)

(** C7. What the code does where the specification asks for target 0 to be
    re-applied. With independent blending requested, the calls [Apply] issues
    for a blend target are those of [ApplyTargetBlending] for it, where
    [force] (the applied state had independent blending off) enters the test
    of the enable call alone. On the transition a target whose record did not
    change therefore gets its enable or disable call and nothing else: its
    blend-function and blend-equation calls are not issued again. Without the
    transition such a target gets no call. *)
Theorem Apply_blend_mode_transition (NumRenderTargets NumViewports : nat)
  (self : OpenGLState) (gl : GLContext) (target : nat) :
  independant_blend_enabled self = true →
  target < NumRenderTargets →
  filter (addresses_blend_target (Z.of_nat target))
    (issued (Apply NumRenderTargets NumViewports self) gl)
  = target_blending_calls target (negb (independant_blend_enabled (cur_state gl)))
      (blend self !!! target) (blend (cur_state gl) !!! target)
  ∧ (independant_blend_enabled (cur_state gl) = false →
     blend (cur_state gl) !!! target = blend self !!! target →
     filter (addresses_blend_target (Z.of_nat target))
       (issued (Apply NumRenderTargets NumViewports self) gl)
     = [if enabled (blend self !!! target)
        then glEnablei GL_BLEND (Z.of_nat target)
        else glDisablei GL_BLEND (Z.of_nat target)])
  ∧ (independant_blend_enabled (cur_state gl) = true →
     blend (cur_state gl) !!! target = blend self !!! target →
     filter (addresses_blend_target (Z.of_nat target))
       (issued (Apply NumRenderTargets NumViewports self) gl) = []).
Proof.
  intros Hind Ht. rewrite Apply_blend_target_calls by done.
  split; [done|]. unfold target_blending_calls.
  split; intros -> ->; rewrite !bool_decide_ne_refl; simpl; done.
Qed.

(** On the transition with target 0 unchanged only [glDisablei] addresses
    target 0. And a blend function can be left stale: target 1's function is
    sent while independent blending is on, a global [glBlendFuncSeparate] (which
    the driver applies to every target) follows once it is off, and on the
    way back to independent blending target 1 gets its disable call only. *)
Lemma Apply_blend_mode_transition_witness :
  filter (addresses_blend_target 0)
    (issued (Apply 8 16 example_independent_state) example_context)
  = [glDisablei GL_BLEND 0]
  ∧ filter (addresses_blend_target 0)
      (issued (Apply 8 16 example_independent_state)
         (mkGLContext example_independent_state [])) = []
  ∧ glBlendFuncSeparatei 1 770 0 0 0
    ∈ issued (Apply 8 16 example_independent_func_state) example_context
  ∧ glBlendFuncSeparate 1 0 0 0
    ∈ issued (Apply 8 16 example_global_func_state)
        (Apply 8 16 example_independent_func_state example_context)
  ∧ filter (addresses_blend_target 1)
      (issued (Apply 8 16 example_independent_func_state)
         (Apply 8 16 example_global_func_state
            (Apply 8 16 example_independent_func_state example_context)))
    = [glDisablei GL_BLEND 1].
Proof.
  destruct (Apply_blend_mode_transition 8 16 example_independent_state example_context 0)
    as (_ & Hforced & _); [reflexivity|lia|].
  destruct (Apply_blend_mode_transition 8 16 example_independent_state
              (mkGLContext example_independent_state []) 0)
    as (_ & _ & Hquiet); [reflexivity|lia|].
  destruct (Apply_blend_mode_transition 8 16 example_independent_func_state
              (Apply 8 16 example_global_func_state
                 (Apply 8 16 example_independent_func_state example_context)) 1)
    as (_ & Hstale & _); [reflexivity|lia|].
  split; [exact (Hforced eq_refl eq_refl)|].
  split; [exact (Hquiet eq_refl eq_refl)|].
  split; [vm_compute; repeat first [apply list_elem_of_here|apply list_elem_of_further]|].
  split; [vm_compute; repeat first [apply list_elem_of_here|apply list_elem_of_further]|].
  exact (Hstale eq_refl eq_refl).
Defined.

(** ** Viewport emulation with the scissor *)

Lemma EmulateViewportWithScissor_slot0 (self : OpenGLState) :
  0 < length (viewports self) →
  viewports (EmulateViewportWithScissor self) !!! 0
  = (let current := viewports self !!! 0 in
     let sc := scissor current in
     mkViewport (x current) (y current) (width current) (height current)
       (depth_range_near current) (depth_range_far current)
       (if scissor_enabled sc then
          let left := Z.max (x current) (scissor_x sc) in
          let right := Z.max (wrap_GLint (x current + width current))
                             (wrap_GLint (scissor_x sc + scissor_width sc)) in
          let bottom := Z.max (y current) (scissor_y sc) in
          let top := Z.max (wrap_GLint (y current + height current))
                           (wrap_GLint (scissor_y sc + scissor_height sc)) in
          mkScissor (scissor_enabled sc)
            (Z.max left 0) (Z.max bottom 0)
            (Z.max (wrap_GLint (right - left)) 0) (Z.max (wrap_GLint (top - bottom)) 0)
        else mkScissor true (x current) (y current) (width current) (height current))).
Proof.
  intros Hlen. unfold EmulateViewportWithScissor. cbv zeta. simpl viewports.
  by rewrite list_lookup_total_insert_eq.
Qed.

Lemma wrap_GLint_id (z : Z) : (- 2 ^ 31 ≤ z < 2 ^ 31)%Z → wrap_GLint z = z.
Proof.
  intros Hz. unfold wrap_GLint.
  change (2 ^ 31)%Z with 2147483648%Z in *. change (2 ^ 32)%Z with 4294967296%Z.
  rewrite Z.mod_small by lia. lia.
Qed.

(** Removes the wrap-around of the sums that stay inside [GLint], innermost
    first. *)
Ltac unwrap_GLint :=
  repeat match goal with
         | |- context [wrap_GLint ?z] =>
             lazymatch z with
             | context [wrap_GLint _] => fail
             | _ => rewrite (wrap_GLint_id z)
                      by (change (2 ^ 31)%Z with 2147483648%Z; lia)
             end
         end.

(** C6. What [EmulateViewportWithScissor] computes. Slot 0 keeps its viewport
    rectangle and ends with scissoring enabled. If scissoring was not enabled
    the scissor rectangle becomes exactly the viewport rectangle; for the
    viewport [{0, 0, 1280, 720}] that is [{0, 0, 1280, 720}]. If scissoring was
    already enabled (integers small enough for no sum to overflow) the new
    rectangle has for near edges the larger of the two near edges and for far
    edges the larger of the two far edges, its x, y, width and height clamped
    at zero: the far edges of the union with the near edges of the
    intersection. It is the union the specification describes when the two
    rectangles share their near corner, and not in general. *)
Theorem EmulateViewportWithScissor_scissor (self : OpenGLState) :
  0 < length (viewports self) →
  let v := viewports self !!! 0 in
  let v' := viewports (EmulateViewportWithScissor self) !!! 0 in
  (x v' = x v ∧ y v' = y v ∧ width v' = width v ∧ height v' = height v)
  ∧ scissor_enabled (scissor v') = true
  ∧ (scissor_enabled (scissor v) = false →
     scissor v' = mkScissor true (x v) (y v) (width v) (height v))
  ∧ (scissor_enabled (scissor v) = true → rect_small v →
     scissor v'
     = mkScissor true
         (Z.max (Z.max (x v) (scissor_x (scissor v))) 0)
         (Z.max (Z.max (y v) (scissor_y (scissor v))) 0)
         (Z.max (Z.max (x v + width v) (scissor_x (scissor v) + scissor_width (scissor v))
                 - Z.max (x v) (scissor_x (scissor v))) 0)
         (Z.max (Z.max (y v + height v) (scissor_y (scissor v) + scissor_height (scissor v))
                 - Z.max (y v) (scissor_y (scissor v))) 0)
     ∧ (scissor_x (scissor v) = x v → scissor_y (scissor v) = y v →
        scissor v' = spec_union_scissor v))
  ∧ scissor (viewports (EmulateViewportWithScissor example_720p_state) !!! 0)
    = mkScissor true 0 0 1280 720.
Proof.
  intros Hlen v v'. subst v'. rewrite EmulateViewportWithScissor_slot0 by done.
  fold v. cbv zeta. unfold spec_union_scissor, rect_small. cbv zeta beta.
  destruct v as [vx vy vw vh dn df [en sx sy sw sh]]. simpl.
  repeat apply conj; try done.
  - by destruct en.
  - by intros ->.
  - intros -> (Hx & Hy & Hw & Hh & Hsx & Hsy & Hsw & Hsh).
    change (2 ^ 29)%Z with 536870912%Z in *. unwrap_GLint.
    split; [done|]. intros -> ->. by rewrite !Z.max_id, !Z.min_id.
Qed.

(** The scenario of the specification, and the input on which the code and the
    specification part: for the viewport [{0, 0, 10, 10}] with the enabled
    scissor [{5, 5, 10, 10}] the code yields [{5, 5, 10, 10}], which leaves
    out the viewport's origin; the clamped union is [{0, 0, 15, 15}]. *)
Lemma EmulateViewportWithScissor_scissor_witness :
  scissor (viewports (EmulateViewportWithScissor example_720p_state) !!! 0)
  = mkScissor true 0 0 1280 720
  ∧ scissor (viewports example_overlap_state !!! 0) = mkScissor true 5 5 10 10
  ∧ scissor (viewports (EmulateViewportWithScissor example_overlap_state) !!! 0)
    = mkScissor true 5 5 10 10
  ∧ spec_union_scissor (viewports example_overlap_state !!! 0)
    = mkScissor true 0 0 15 15.
Proof.
  destruct (EmulateViewportWithScissor_scissor example_720p_state) as (_ & _ & Hoff & _).
  { simpl. lia. }
  destruct (EmulateViewportWithScissor_scissor example_overlap_state)
    as (_ & _ & _ & Hon & _).
  { simpl. lia. }
  split; [exact (Hoff eq_refl)|]. split; [reflexivity|].
  split; [|reflexivity].
  refine (proj1 (Hon eq_refl _)). unfold rect_small. simpl. lia.
Defined.

(** ** Binding bases *)

(** C8 (amended). [Device::Device()] leaves six entries. Entry 0 is
    [{1, 0, 0, 0}]: one reserved uniform-buffer slot. For k = 1..4, entry k is
    entry k-1 plus the limits the driver reports for the k-th graphics stage
    in the order vertex, tessellation control, tessellation evaluation,
    geometry, where the reserved slot is subtracted from the uniform-buffer
    limit of each of the four stages, not of the vertex stage alone; all
    arithmetic is modulo 2^32. Entry 5 is [{0, 0, 0, 0}]. *)
Theorem Device_base_bindings_layout (drv : Driver) :
  length (Device_base_bindings drv) = 6
  ∧ Device_base_bindings drv !! 0 = Some (mkBaseBindings 1 0 0 0)
  ∧ Device_base_bindings drv !! 5 = Some (mkBaseBindings 0 0 0 0)
  ∧ ∀ k uniform_blocks shader_storage_blocks texture_image_units image_uniforms,
      stage_limits !! k
      = Some (uniform_blocks, shader_storage_blocks, texture_image_units, image_uniforms) →
      Device_base_bindings drv !!! (S k)
      = mkBaseBindings
          (to_u32 (uniform_buffer (Device_base_bindings drv !!! k)
                   + to_u32 (to_u32 (glGetIntegerv drv uniform_blocks) - 1)))
          (to_u32 (shader_storage_buffer (Device_base_bindings drv !!! k)
                   + to_u32 (glGetIntegerv drv shader_storage_blocks)))
          (to_u32 (sampler (Device_base_bindings drv !!! k)
                   + to_u32 (glGetIntegerv drv texture_image_units)))
          (to_u32 (image (Device_base_bindings drv !!! k)
                   + to_u32 (glGetIntegerv drv image_uniforms))).
Proof.
  repeat apply conj; try reflexivity.
  intros k ub ssb tex img Hk.
  destruct k as [|[|[|[|k]]]]; simpl in Hk; [..|discriminate];
    injection Hk as <- <- <- <-; reflexivity.
Qed.

Lemma Device_base_bindings_layout_witness :
  Device_base_bindings example_driver !!! 2
  = mkBaseBindings 27 32 64 16.
Proof.
  destruct (Device_base_bindings_layout example_driver) as (_ & _ & _ & Hstep).
  rewrite (Hstep 1 _ _ _ _ eq_refl). reflexivity.
Defined.

(** C8 as stated fails: with a driver that reports 14 uniform blocks for every
    stage, entry 1 is at 14 and entry 2 at 27, that is 13 further and not the
    reported 14; the reserved slot is taken off every stage. *)
Lemma Device_base_bindings_layout_counterexample :
  glGetIntegerv example_driver GL_MAX_VERTEX_UNIFORM_BLOCKS = 14%Z
  ∧ glGetIntegerv example_driver GL_MAX_TESS_CONTROL_UNIFORM_BLOCKS = 14%Z
  ∧ uniform_buffer (Device_base_bindings example_driver !!! 1%nat) = 14%Z
  ∧ uniform_buffer (Device_base_bindings example_driver !!! 2%nat) = 27%Z
  ∧ uniform_buffer (Device_base_bindings example_driver !!! 2%nat)
    ≠ (uniform_buffer (Device_base_bindings example_driver !!! 1%nat) + 14)%Z.
Proof. repeat split. vm_compute. discriminate. Qed.

(** ** Frame of the invalidation helpers *)

Lemma scrub_keeps (handle : Z) (l : list Z) i t :
  l !! i = Some t → t ≠ handle →
  map (fun e => if bool_decide (e = handle) then 0%Z else e) l !! i = Some t.
Proof.
  intros E Hne. rewrite (scrub_lookup handle l i t E).
  by rewrite bool_decide_eq_false_2.
Qed.

(** C9. Each invalidation helper changes only the members of its own
    category, keeps every slot or member that does not hold the handle, keeps
    the array extents, and returns the object it was called on: called through
    a reference it yields that same reference, and no other object of the
    store changes. *)
Theorem invalidation_frame (H : Z) (s : OpenGLState) :
  (UnbindTexture H s = set_textures (textures (UnbindTexture H s)) s
   ∧ length (textures (UnbindTexture H s)) = length (textures s)
   ∧ ∀ i t, textures s !! i = Some t → t ≠ H →
       textures (UnbindTexture H s) !! i = Some t)
  ∧ (ResetSampler H s = set_samplers (samplers (ResetSampler H s)) s
     ∧ length (samplers (ResetSampler H s)) = length (samplers s)
     ∧ ∀ i t, samplers s !! i = Some t → t ≠ H →
         samplers (ResetSampler H s) !! i = Some t)
  ∧ (ResetProgram H s = set_program (get_program (ResetProgram H s)) s
     ∧ (get_program s ≠ H → ResetProgram H s = s))
  ∧ (ResetPipeline H s = set_pipeline (get_pipeline (ResetPipeline H s)) s
     ∧ (get_pipeline s ≠ H → ResetPipeline H s = s))
  ∧ (ResetFramebuffer H s = set_framebuffers (get_framebuffers (ResetFramebuffer H s)) s
     ∧ (read_framebuffer (draw s) ≠ H →
        read_framebuffer (draw (ResetFramebuffer H s)) = read_framebuffer (draw s))
     ∧ (draw_framebuffer (draw s) ≠ H →
        draw_framebuffer (draw (ResetFramebuffer H s)) = draw_framebuffer (draw s)))
  ∧ (ResetRenderbuffer H s = set_renderbuffer (renderbuffer (ResetRenderbuffer H s)) s
     ∧ (renderbuffer s ≠ H → ResetRenderbuffer H s = s))
  ∧ ∀ member, member ∈ [UnbindTexture H; ResetSampler H; ResetProgram H;
                        ResetPipeline H; ResetFramebuffer H; ResetRenderbuffer H] →
      ∀ (store : ObjStore) (this : ObjRef),
        store !! this = Some s →
        call_member member this store = Some (this, <[this := member s]> store)
        ∧ ∀ other, other ≠ this → (<[this := member s]> store) !! other = store !! other.
Proof.
  repeat apply conj.
  - by destruct s.
  - unfold UnbindTexture. simpl. by rewrite length_map.
  - intros i t E Hne. unfold UnbindTexture. simpl. by apply scrub_keeps.
  - by destruct s.
  - unfold ResetSampler. simpl. by rewrite length_map.
  - intros i t E Hne. unfold ResetSampler. simpl. by apply scrub_keeps.
  - unfold ResetProgram. destruct s as [[]]. simpl. by case_bool_decide.
  - unfold ResetProgram, get_program. intros Hne. by rewrite bool_decide_eq_false_2.
  - unfold ResetPipeline. destruct s as [[]]. simpl. by case_bool_decide.
  - unfold ResetPipeline, get_pipeline. intros Hne. by rewrite bool_decide_eq_false_2.
  - unfold ResetFramebuffer. destruct s as [[r d p q]]. simpl.
    destruct (bool_decide (r = H)); simpl; by destruct (bool_decide (d = H)).
  - intros Hne. rewrite ResetFramebuffer_read. by rewrite bool_decide_eq_false_2.
  - intros Hne. rewrite ResetFramebuffer_draw. by rewrite bool_decide_eq_false_2.
  - unfold ResetRenderbuffer. destruct s. simpl. by case_bool_decide.
  - unfold ResetRenderbuffer. intros Hne. by rewrite bool_decide_eq_false_2.
  - intros member _ store this Hthis. split.
    + unfold call_member. by rewrite Hthis.
    + intros other Hne. by apply lookup_insert_ne.
Qed.

Lemma invalidation_frame_witness :
  call_member (UnbindTexture 7) 1%positive {[ 1%positive := example_texture_state ]}
  = Some (1%positive,
          <[1%positive := UnbindTexture 7 example_texture_state]>
            {[ 1%positive := example_texture_state ]})
  ∧ textures (UnbindTexture 7 example_texture_state) !! 2 = Some 0%Z.
Proof.
  destruct (invalidation_frame 7 example_texture_state)
    as ((_ & _ & Hkeep) & _ & _ & _ & _ & _ & Hthis).
  destruct (Hthis (UnbindTexture 7) ltac:(apply list_elem_of_here)
              {[ 1%positive := example_texture_state ]} 1%positive) as [Hcall _].
  { apply lookup_singleton_eq. }
  split; [exact Hcall|].
  apply Hkeep; [reflexivity|discriminate].
Defined.

(** ** The component-indexing probe *)

Lemma component_indexing_loop_total (drv : Driver) (index remaining : nat) :
  index + remaining ≤ length values →
  component_indexing_loop drv index remaining
  = Some (bool_decide (Exists (fun i => component_test_output drv (Z.of_nat i)
                                        ≠ values !!! i) (seq index remaining))).
Proof.
  revert index. induction remaining as [|k IH]; intros index Hle;
    cbn [component_indexing_loop seq].
  - rewrite bool_decide_eq_false_2; [done|]. inversion 1.
  - unfold at_. rewrite (list_lookup_lookup_total_lt values index) by lia.
    case_bool_decide as Hne.
    + rewrite bool_decide_eq_true_2; [done|]. by apply Exists_cons_hd.
    + rewrite IH by lia. f_equal. apply bool_decide_ext.
      rewrite Exists_cons. tauto.
Qed.

(** C10. In [TestComponentIndexingBug] the loop index ranges over 4..7 and
    [values] has eight elements, so every [values.at(index)] is in bounds; the
    probe never leaves through the out-of-range exception and returns [true]
    exactly when the driver's output differs from [values] at one of the four
    indices. *)
Theorem TestComponentIndexingBug_in_bounds (drv : Driver) :
  length values = 8
  ∧ probed_indices = [4; 5; 6; 7]
  ∧ (∀ index, index ∈ probed_indices →
       index < length values ∧ is_Some (at_ values index))
  ∧ is_Some (TestComponentIndexingBug drv)
  ∧ TestComponentIndexingBug drv
    = Some (bool_decide (Exists (fun i => component_test_output drv (Z.of_nat i)
                                          ≠ values !!! i) probed_indices)).
Proof.
  assert (Htotal := component_indexing_loop_total drv 4 (8 - 4) ltac:(simpl; lia)).
  repeat apply conj; try reflexivity.
  - intros index Hin. unfold probed_indices in Hin. simpl in Hin.
    assert (Hlt : index < length values).
    { repeat (apply elem_of_cons in Hin as [->|Hin]; [simpl; lia|]).
      by apply elem_of_nil in Hin. }
    split; [exact Hlt|]. by apply lookup_lt_is_Some.
  - unfold TestComponentIndexingBug. rewrite Htotal. eauto.
  - exact Htotal.
Qed.

Lemma TestComponentIndexingBug_in_bounds_witness :
  is_Some (at_ values 7) ∧ TestComponentIndexingBug example_driver = Some false.
Proof.
  destruct (TestComponentIndexingBug_in_bounds example_driver)
    as (_ & _ & Hbounds & _ & _).
  destruct (Hbounds 7) as [_ Hsome].
  { unfold probed_indices. simpl. repeat constructor. }
  split; [exact Hsome|reflexivity].
Defined.

(** * Further properties of the code *)

(** * Further properties of the code *)

(** ** [Apply] category by category *)

Lemma calls_of_app cat (a b : list GLCall) :
  calls_of cat (a ++ b) = calls_of cat a ++ calls_of cat b.
Proof. unfold calls_of. apply filter_app. Qed.

Ltac category_step H :=
  first [ rewrite (calls_of_own _ _ _ H)
        | rewrite (calls_of_other _ _ _ _ H) by done ].

Lemma calls_of_Apply_emitted NumRenderTargets NumViewports cat self cur :
  calls_of cat (Apply_emitted NumRenderTargets NumViewports self cur)
  = emitted (routine_of NumRenderTargets NumViewports cat self) cur.
Proof.
  unfold Apply_emitted. rewrite !calls_of_app.
  destruct cat; simpl routine_of;
    category_step (ApplyFramebufferState_category self);
    category_step (ApplyShaderProgram_category self);
    category_step (ApplyProgramPipeline_category self);
    category_step (ApplyClipDistances_category self);
    category_step (ApplyFragmentColorClamp_category self);
    category_step (ApplyMultisample_category self);
    category_step (ApplyRasterizerDiscard_category self);
    category_step (ApplyColorMask_category NumRenderTargets self);
    category_step (ApplyViewport_category NumViewports self);
    category_step (ApplyStencilTest_category self);
    category_step (ApplyBlending_category NumRenderTargets self);
    category_step (ApplyTextures_category self);
    category_step (ApplySamplers_category self);
    category_step (ApplyImages_category self);
    category_step (ApplyClipControl_category self);
    category_step (ApplyRenderBuffer_category self);
    simpl; rewrite ?app_nil_r; reflexivity.
Qed.

(** X1. Among the calls one [Apply] issues, those of a category are exactly
    the calls its routine issues when run alone on the applied state [Apply]
    started from: no routine issues a call of another category, and none
    depends on what the routines before it did. *)
Theorem Apply_calls_by_category (NumRenderTargets NumViewports : nat) (cat : Category)
  (self : OpenGLState) (gl : GLContext) :
  calls_of cat (issued (Apply NumRenderTargets NumViewports self) gl)
  = emitted (routine_of NumRenderTargets NumViewports cat self) (cur_state gl).
Proof. rewrite Apply_issued. apply calls_of_Apply_emitted. Qed.

(** *** Order of the calls *)

Lemma in_category_ranks cat (l : list GLCall) :
  in_category cat l →
  Forall (fun r => r = category_rank cat) (map (fun c => category_rank (category_of c)) l).
Proof.
  intros Hl. apply Forall_fmap. eapply Forall_impl; [exact Hl|].
  simpl. by intros c ->.
Qed.

Lemma sorted_const_app (r : nat) (a b : list nat) :
  Forall (fun x => x = r) a → Forall (fun y => r ≤ y) b →
  StronglySorted le b → StronglySorted le (a ++ b).
Proof.
  intros Ha Hb Sb. induction Ha as [|x a -> Ha IH]; simpl; [done|].
  constructor; [done|]. apply Forall_app. split; [|done].
  eapply Forall_impl; [exact Ha|]. simpl. intros ? ->. done.
Qed.

Lemma ranks_ge_app (r r' : nat) (a b : list nat) :
  r' ≤ r → Forall (fun x => x = r) a → Forall (fun y => r ≤ y) b →
  Forall (fun y => r' ≤ y) (a ++ b).
Proof.
  intros Hr Ha Hb. apply Forall_app. split.
  - eapply Forall_impl; [exact Ha|]. simpl. intros ? ->. done.
  - eapply Forall_impl; [exact Hb|]. simpl. intros ? ?. lia.
Qed.

(** X2. The calls of one [Apply] come category by category in the order of its
    routines: framebuffer, program, pipeline, clip distances, color clamp,
    multisample, rasterizer discard, color mask, viewport, stencil, blending,
    textures, samplers, images, clip control, renderbuffer. No call of a later
    category precedes a call of an earlier one. *)
Theorem Apply_call_order (NumRenderTargets NumViewports : nat) (self : OpenGLState)
  (gl : GLContext) :
  StronglySorted le
    (map (fun c => category_rank (category_of c))
       (issued (Apply NumRenderTargets NumViewports self) gl)).
Proof.
  rewrite Apply_issued. unfold Apply_emitted. rewrite !map_app.
  pose proof (in_category_ranks _ _ (keeps_category_emitted _ _ (cur_state gl)
    (ApplyFramebufferState_category self))) as H0.
  pose proof (in_category_ranks _ _ (keeps_category_emitted _ _ (cur_state gl)
    (ApplyShaderProgram_category self))) as H1.
  pose proof (in_category_ranks _ _ (keeps_category_emitted _ _ (cur_state gl)
    (ApplyProgramPipeline_category self))) as H2.
  pose proof (in_category_ranks _ _ (keeps_category_emitted _ _ (cur_state gl)
    (ApplyClipDistances_category self))) as H3.
  pose proof (in_category_ranks _ _ (keeps_category_emitted _ _ (cur_state gl)
    (ApplyFragmentColorClamp_category self))) as H4.
  pose proof (in_category_ranks _ _ (keeps_category_emitted _ _ (cur_state gl)
    (ApplyMultisample_category self))) as H5.
  pose proof (in_category_ranks _ _ (keeps_category_emitted _ _ (cur_state gl)
    (ApplyRasterizerDiscard_category self))) as H6.
  pose proof (in_category_ranks _ _ (keeps_category_emitted _ _ (cur_state gl)
    (ApplyColorMask_category NumRenderTargets self))) as H7.
  pose proof (in_category_ranks _ _ (keeps_category_emitted _ _ (cur_state gl)
    (ApplyViewport_category NumViewports self))) as H8.
  pose proof (in_category_ranks _ _ (keeps_category_emitted _ _ (cur_state gl)
    (ApplyStencilTest_category self))) as H9.
  pose proof (in_category_ranks _ _ (keeps_category_emitted _ _ (cur_state gl)
    (ApplyBlending_category NumRenderTargets self))) as H10.
  pose proof (in_category_ranks _ _ (keeps_category_emitted _ _ (cur_state gl)
    (ApplyTextures_category self))) as H11.
  pose proof (in_category_ranks _ _ (keeps_category_emitted _ _ (cur_state gl)
    (ApplySamplers_category self))) as H12.
  pose proof (in_category_ranks _ _ (keeps_category_emitted _ _ (cur_state gl)
    (ApplyImages_category self))) as H13.
  pose proof (in_category_ranks _ _ (keeps_category_emitted _ _ (cur_state gl)
    (ApplyClipControl_category self))) as H14.
  pose proof (in_category_ranks _ _ (keeps_category_emitted _ _ (cur_state gl)
    (ApplyRenderBuffer_category self))) as H15.
  simpl category_rank in *.
  assert (S15 : StronglySorted le
    (map (λ c, category_rank (category_of c)) (emitted (ApplyRenderBuffer self) (cur_state gl)))
    ∧ Forall (fun y => 15 ≤ y)
        (map (λ c, category_rank (category_of c))
           (emitted (ApplyRenderBuffer self) (cur_state gl)))).
  { split.
    - rewrite <- (app_nil_r (map _ _)). apply (sorted_const_app 15); [done|done|constructor].
    - eapply Forall_impl; [exact H15|]. simpl. intros ? ->. done. }
  repeat match goal with
         | S : StronglySorted le ?b ∧ Forall (fun y => ?r ≤ y) ?b
           |- context [?a ++ ?b] =>
             match goal with
             | Ha : Forall (fun x => x = ?ra) a |- _ =>
                 let S' := fresh "S" in
                 assert (S' : StronglySorted le (a ++ b) ∧ Forall (fun y => ra ≤ y) (a ++ b))
                   by (destruct S as [Ss Sf]; split;
                       [ apply (sorted_const_app ra); [exact Ha| |exact Ss];
                         eapply Forall_impl; [exact Sf|]; simpl; intros; lia
                       | apply (ranks_ge_app ra ra); [lia|exact Ha|];
                         eapply Forall_impl; [exact Sf|]; simpl; intros; lia ]);
                 clear S Ha
             end
         end.
  match goal with S : _ ∧ _ |- _ => exact (proj1 S) end.
Qed.

(** *** A category whose members already match stays silent *)

Lemma viewport_applied_refl (l : list Viewport) : Forall2 viewport_applied l l.
Proof.
  apply Forall_Forall2_diag. apply Forall_forall. intros v _.
  unfold viewport_applied. repeat split; auto.
Qed.

Lemma emitted_fixed f cur :
  f (mkGLContext cur []) = mkGLContext cur [] → emitted f cur = [].
Proof. unfold emitted. by intros ->. Qed.

Lemma routine_fixed NumRenderTargets NumViewports cat self cur :
  length (viewports self) = NumViewports →
  category_matches cat self cur →
  routine_of NumRenderTargets NumViewports cat self (mkGLContext cur [])
  = mkGLContext cur [].
Proof.
  intros Hvp Hm. destruct cat; simpl in Hm |- *.
  - by apply ApplyFramebufferState_fixed.
  - by apply ApplyShaderProgram_fixed.
  - by apply ApplyProgramPipeline_fixed.
  - by apply ApplyClipDistances_fixed.
  - by apply ApplyFragmentColorClamp_fixed.
  - by apply ApplyMultisample_fixed.
  - by apply ApplyRasterizerDiscard_fixed.
  - by apply ApplyColorMask_fixed.
  - destruct Hm as [E Hord]. apply ApplyViewport_fixed; [done| |done].
    simpl. rewrite E. apply viewport_applied_refl.
  - by apply ApplyStencilTest_fixed.
  - destruct Hm as [Ef Eb]. apply ApplyBlending_fixed; [done|].
    simpl. rewrite Eb. by destruct (independant_blend_enabled self).
  - by apply ApplyTextures_fixed.
  - by apply ApplySamplers_fixed.
  - by apply ApplyImages_fixed.
  - by apply ApplyClipControl_fixed.
  - by apply ApplyRenderBuffer_fixed.
Qed.

(** X3. If the members of a category hold the same values in the applied state
    as in the desired state (for viewports: values without NaN), [Apply]
    issues no call of that category, whatever the other categories do. *)
Theorem Apply_matching_category_silent (NumRenderTargets NumViewports : nat)
  (cat : Category) (self : OpenGLState) (gl : GLContext) :
  well_formed NumRenderTargets NumViewports self →
  category_matches cat self (cur_state gl) →
  calls_of cat (issued (Apply NumRenderTargets NumViewports self) gl) = [].
Proof.
  intros (_ & Hvp & _) Hm. rewrite Apply_issued, calls_of_Apply_emitted.
  apply emitted_fixed. by apply routine_fixed.
Qed.

Lemma example_mixed_well_formed : well_formed 8 16 example_mixed_state.
Proof. repeat split. Qed.

Lemma Apply_matching_category_silent_witness :
  calls_of CatTextures (issued (Apply 8 16 example_mixed_state) example_context) = [].
Proof.
  exact (Apply_matching_category_silent 8 16 CatTextures example_mixed_state
           example_context example_mixed_well_formed eq_refl).
Defined.

(** *** The scalar members: one call, on change only *)

Ltac emitted_tac self gl :=
  rewrite Apply_issued, calls_of_Apply_emitted; simpl routine_of;
  unfold ApplyFramebufferState, ApplyShaderProgram, ApplyProgramPipeline,
    ApplyRenderBuffer, ApplyFragmentColorClamp, ApplyMultisample,
    ApplyRasterizerDiscard;
  destruct gl as [gl ?]; simpl cur_state;
  destruct_state self; destruct_state gl; st_norm; split_ifs; simpl; reflexivity.

(** X4. The handle bindings are issued on change only and carry the desired
    handle: the read framebuffer before the draw framebuffer, each with its
    own call even when both change to the same handle; one [glUseProgram], one
    [glBindProgramPipeline], one [glBindRenderbuffer]. *)
Theorem Apply_handle_binds (NumRenderTargets NumViewports : nat) (self : OpenGLState)
  (gl : GLContext) :
  calls_of CatFramebuffer (issued (Apply NumRenderTargets NumViewports self) gl)
  = (if bool_decide (read_framebuffer (draw (cur_state gl)) ≠ read_framebuffer (draw self))
     then [glBindFramebuffer GL_READ_FRAMEBUFFER (read_framebuffer (draw self))] else [])
    ++ (if bool_decide (draw_framebuffer (draw (cur_state gl))
                        ≠ draw_framebuffer (draw self))
        then [glBindFramebuffer GL_DRAW_FRAMEBUFFER (draw_framebuffer (draw self))]
        else [])
  ∧ calls_of CatProgram (issued (Apply NumRenderTargets NumViewports self) gl)
    = (if bool_decide (shader_program (draw (cur_state gl)) ≠ shader_program (draw self))
       then [glUseProgram (shader_program (draw self))] else [])
  ∧ calls_of CatPipeline (issued (Apply NumRenderTargets NumViewports self) gl)
    = (if bool_decide (program_pipeline (draw (cur_state gl))
                       ≠ program_pipeline (draw self))
       then [glBindProgramPipeline (program_pipeline (draw self))] else [])
  ∧ calls_of CatRenderBuffer (issued (Apply NumRenderTargets NumViewports self) gl)
    = (if bool_decide (renderbuffer (cur_state gl) ≠ renderbuffer self)
       then [glBindRenderbuffer GL_RENDERBUFFER (renderbuffer self)] else []).
Proof.
  repeat apply conj.
  - emitted_tac self gl.
  - emitted_tac self gl.
  - emitted_tac self gl.
  - emitted_tac self gl.
Qed.

(** X5. The enable flags and the clip-control pair are applied on change only:
    color clamp by one [glClampColor] carrying the desired flag; alpha to
    coverage before alpha to one, rasterizer discard, each by [glEnable] when
    the desired flag is set and [glDisable] when it is clear; clip control by
    one [glClipControl] when the origin or the depth mode differs. *)
Theorem Apply_flag_calls (NumRenderTargets NumViewports : nat) (self : OpenGLState)
  (gl : GLContext) :
  calls_of CatColorClamp (issued (Apply NumRenderTargets NumViewports self) gl)
  = (if bool_decide (fragment_color_clamp_enabled (cur_state gl)
                     ≠ fragment_color_clamp_enabled self)
     then [glClampColor GL_CLAMP_FRAGMENT_COLOR_ARB (fragment_color_clamp_enabled self)]
     else [])
  ∧ calls_of CatMultisample (issued (Apply NumRenderTargets NumViewports self) gl)
    = (if bool_decide (alpha_to_coverage (multisample_control (cur_state gl))
                       ≠ alpha_to_coverage (multisample_control self))
       then [if alpha_to_coverage (multisample_control self)
             then glEnable GL_SAMPLE_ALPHA_TO_COVERAGE
             else glDisable GL_SAMPLE_ALPHA_TO_COVERAGE]
       else [])
      ++ (if bool_decide (alpha_to_one (multisample_control (cur_state gl))
                          ≠ alpha_to_one (multisample_control self))
          then [if alpha_to_one (multisample_control self)
                then glEnable GL_SAMPLE_ALPHA_TO_ONE
                else glDisable GL_SAMPLE_ALPHA_TO_ONE]
          else [])
  ∧ calls_of CatRasterizerDiscard (issued (Apply NumRenderTargets NumViewports self) gl)
    = (if bool_decide (rasterizer_discard (cur_state gl) ≠ rasterizer_discard self)
       then [if rasterizer_discard self then glEnable GL_RASTERIZER_DISCARD
             else glDisable GL_RASTERIZER_DISCARD]
       else [])
  ∧ calls_of CatClipControl (issued (Apply NumRenderTargets NumViewports self) gl)
    = (if bool_decide (origin (clip_control (cur_state gl)) ≠ origin (clip_control self)
                       ∨ depth_mode (clip_control (cur_state gl))
                         ≠ depth_mode (clip_control self))
       then [glClipControl (origin (clip_control self)) (depth_mode (clip_control self))]
       else []).
Proof.
  repeat apply conj.
  - emitted_tac self gl.
  - emitted_tac self gl.
  - emitted_tac self gl.
  - rewrite Apply_issued, calls_of_Apply_emitted. simpl routine_of.
    unfold emitted, ApplyClipControl, UpdateTie. cbv zeta. simpl cur_state.
    destruct (clip_control (cur_state gl)) as [o d], (clip_control self) as [o' d'].
    simpl. repeat case_bool_decide; simpl; try done; exfalso;
      destruct (decide (o = o')), (decide (d = d')); subst;
      first [tauto|intuition congruence].
Qed.

(** *** Stencil *)

(** X6. The stencil calls of [Apply] are, in this order: the test enable or
    disable if the flag changed; then for the front face and after it the back
    face, [glStencilFuncSeparate] if test function, reference or mask changed,
    [glStencilOpSeparate] if one of the three actions changed, and
    [glStencilMaskSeparate] if the write mask changed. *)
Theorem Apply_stencil_calls (NumRenderTargets NumViewports : nat) (self : OpenGLState)
  (gl : GLContext) :
  calls_of CatStencil (issued (Apply NumRenderTargets NumViewports self) gl)
  = (if bool_decide (test_enabled (stencil (cur_state gl)) ≠ test_enabled (stencil self))
     then [if test_enabled (stencil self) then glEnable GL_STENCIL_TEST
           else glDisable GL_STENCIL_TEST]
     else [])
    ++ stencil_face_calls GL_FRONT (front (stencil self)) (front (stencil (cur_state gl)))
    ++ stencil_face_calls GL_BACK (back (stencil self)) (back (stencil (cur_state gl))).
Proof.
  rewrite Apply_issued, calls_of_Apply_emitted. simpl routine_of.
  destruct gl as [gl ?]. simpl cur_state. unfold stencil_face_calls, ApplyStencilTest.
  destruct_state self; destruct_state gl. st_norm. simpl.
  repeat match goal with
         | |- context [if ?b then _ else _] =>
             lazymatch b with
             | context [if _ then _ else _] => fail
             | _ => destruct b eqn:?; simpl
             end
         end; reflexivity.
Qed.

(** ** The arrays of [Apply], slot by slot *)

Lemma Apply_slot_filter NumRenderTargets NumViewports (cat : Category)
  (P : GLCall → bool) (f : nat → list GLCall) (n i : nat) self gl :
  (∀ c, P c → category_of c = cat) →
  emitted (routine_of NumRenderTargets NumViewports cat self) (cur_state gl)
  = flat_map f (seq 0 n) →
  (∀ j, filter P (f j) = if bool_decide (j = i) then f j else []) →
  i < n →
  filter P (issued (Apply NumRenderTargets NumViewports self) gl) = f i.
Proof.
  intros HP Hem Hf Hi. rewrite Apply_issued.
  rewrite <- (filter_filter_implied P (fun c => category_of c = cat)) by exact HP.
  change (filter (λ c, category_of c = cat)) with (calls_of cat).
  rewrite calls_of_Apply_emitted, Hem, (flat_map_filter_slot _ _ i) by exact Hf.
  by rewrite bool_decide_eq_true_2.
Qed.

Lemma ApplySamplers_emitted self cur :
  emitted (ApplySamplers self) cur
  = flat_map (fun i => sampler_slot_calls i (samplers self !!! i) (samplers cur !!! i))
      (seq 0 (length (samplers self))).
Proof.
  unfold emitted, ApplySamplers. cbv zeta.
  rewrite (slot_loop_emitted samplers
             (fun i c => sampler_slot_calls i (samplers self !!! i) c)).
  - done.
  - intros i [g l]. unfold sampler_slot_calls. st_norm. split_ifs; simpl in *;
      rewrite ?app_nil_r; try done.
  - intros i [g l]. st_norm. split_ifs; eexists; reflexivity.
Qed.

Lemma sampler_slot_calls_filter i j u c :
  filter (binds_sampler_unit (Z.of_nat i)) (sampler_slot_calls j u c)
  = if bool_decide (j = i) then sampler_slot_calls j u c else [].
Proof.
  unfold sampler_slot_calls.
  rewrite (filter_optional _ _ (bool_decide (j = i))).
  - by destruct (bool_decide (j = i)).
  - simpl. apply bool_decide_ext. lia.
Qed.

(** X7. In [Apply], every sampler unit whose desired handle differs from the
    applied one gets exactly one [glBindSampler] with the desired handle, the
    zero handle included (unlike texture units, unbinding a sampler is
    issued); a unit that does not differ gets none. *)
Theorem Apply_sampler_binds (NumRenderTargets NumViewports : nat) (self : OpenGLState)
  (gl : GLContext) (i : nat) :
  i < length (samplers self) →
  filter (binds_sampler_unit (Z.of_nat i))
    (issued (Apply NumRenderTargets NumViewports self) gl)
  = if bool_decide (samplers (cur_state gl) !!! i ≠ samplers self !!! i)
    then [glBindSampler (Z.of_nat i) (samplers self !!! i)]
    else [].
Proof.
  intros Hi.
  rewrite (Apply_slot_filter NumRenderTargets NumViewports CatSamplers _
             (fun j => sampler_slot_calls j (samplers self !!! j)
                         (samplers (cur_state gl) !!! j))
             (length (samplers self)) i); try done.
  - intros c Hc. by destruct c.
  - apply ApplySamplers_emitted.
  - intros j. apply sampler_slot_calls_filter.
Qed.

Lemma Apply_sampler_binds_witness :
  filter (binds_sampler_unit 3)
    (issued (Apply 8 16 example_state) (mkGLContext example_bound_state []))
  = [glBindSampler 3 0].
Proof.
  exact (Apply_sampler_binds 8 16 example_state (mkGLContext example_bound_state []) 3
           ltac:(simpl; lia)).
Defined.

Lemma ApplyColorMask_emitted NumRenderTargets self cur :
  emitted (ApplyColorMask NumRenderTargets self) cur
  = flat_map (fun i => color_mask_calls i (color_mask self !!! i) (color_mask cur !!! i))
      (seq 0 NumRenderTargets).
Proof.
  unfold emitted, ApplyColorMask.
  rewrite (slot_loop_emitted color_mask
             (fun i c => color_mask_calls i (color_mask self !!! i) c)).
  - done.
  - intros i [g l]. unfold color_mask_calls. st_norm. split_ifs; simpl in *;
      rewrite ?app_nil_r; try done.
  - intros i [g l]. st_norm. split_ifs; [eexists; reflexivity|].
    exists (color_mask g !!! i). simpl. by rewrite list_insert_total_id.
Qed.

Lemma color_mask_calls_filter i j u c :
  filter (addresses_color_mask (Z.of_nat i)) (color_mask_calls j u c)
  = if bool_decide (j = i) then color_mask_calls j u c else [].
Proof.
  unfold color_mask_calls.
  rewrite (filter_optional _ _ (bool_decide (j = i))).
  - by destruct (bool_decide (j = i)).
  - simpl. apply bool_decide_ext. lia.
Qed.

(** X8. In [Apply], a render target whose desired color mask differs from the
    applied one in at least one channel gets exactly one [glColorMaski]
    carrying all four desired channel flags; a target whose four flags match
    gets none. *)
Theorem Apply_color_mask_calls (NumRenderTargets NumViewports : nat)
  (self : OpenGLState) (gl : GLContext) (i : nat) :
  i < NumRenderTargets →
  filter (addresses_color_mask (Z.of_nat i))
    (issued (Apply NumRenderTargets NumViewports self) gl)
  = if bool_decide (color_mask (cur_state gl) !!! i ≠ color_mask self !!! i)
    then [glColorMaski (Z.of_nat i) (red_enabled (color_mask self !!! i))
            (green_enabled (color_mask self !!! i))
            (blue_enabled (color_mask self !!! i))
            (alpha_enabled (color_mask self !!! i))]
    else [].
Proof.
  intros Hi.
  rewrite (Apply_slot_filter NumRenderTargets NumViewports CatColorMask _
             (fun j => color_mask_calls j (color_mask self !!! j)
                         (color_mask (cur_state gl) !!! j))
             NumRenderTargets i); try done.
  - unfold color_mask_calls.
    destruct (color_mask (cur_state gl) !!! i) as [r g b a],
             (color_mask self !!! i) as [r' g' b' a']. simpl.
    repeat case_bool_decide; simpl; try done; exfalso; simplify_eq; tauto.
  - intros c Hc. by destruct c.
  - apply ApplyColorMask_emitted.
  - intros j. apply color_mask_calls_filter.
Qed.

Lemma Apply_color_mask_calls_witness :
  filter (addresses_color_mask 2)
    (issued (Apply 8 16 example_mixed_state) example_context)
  = [glColorMaski 2 true false true true].
Proof.
  exact (Apply_color_mask_calls 8 16 example_mixed_state example_context 2
           ltac:(lia)).
Defined.

Lemma ApplyClipDistances_emitted self cur :
  emitted (ApplyClipDistances self) cur
  = flat_map (fun i => clip_distance_calls i (clip_distance self !!! i)
                         (clip_distance cur !!! i))
      (seq 0 (length (clip_distance self))).
Proof.
  unfold emitted, ApplyClipDistances.
  rewrite (slot_loop_emitted clip_distance
             (fun i c => clip_distance_calls i (clip_distance self !!! i) c)).
  - done.
  - intros i [g l]. unfold clip_distance_calls. st_norm. split_ifs; simpl in *;
      rewrite ?app_nil_r; try done.
  - intros i [g l]. st_norm. split_ifs; eexists; reflexivity.
Qed.

Lemma clip_distance_calls_filter i j u c :
  filter (addresses_clip_distance i) (clip_distance_calls j u c)
  = if bool_decide (j = i) then clip_distance_calls j u c else [].
Proof.
  unfold clip_distance_calls.
  rewrite (filter_optional _ _ (bool_decide (j = i))).
  - by destruct (bool_decide (j = i)).
  - by destruct u.
Qed.

(** X9. In [Apply], a clip distance whose desired flag differs from the
    applied one gets exactly one call on [GL_CLIP_DISTANCE0 + i]: [glEnable]
    when the desired flag is set, [glDisable] when it is clear; one that does
    not differ gets none. *)
Theorem Apply_clip_distance_calls (NumRenderTargets NumViewports : nat)
  (self : OpenGLState) (gl : GLContext) (i : nat) :
  i < length (clip_distance self) →
  filter (addresses_clip_distance i)
    (issued (Apply NumRenderTargets NumViewports self) gl)
  = if bool_decide (clip_distance (cur_state gl) !!! i ≠ clip_distance self !!! i)
    then [if (clip_distance self !!! i : bool) then glEnable (GL_CLIP_DISTANCE0_plus i)
          else glDisable (GL_CLIP_DISTANCE0_plus i)]
    else [].
Proof.
  intros Hi.
  rewrite (Apply_slot_filter NumRenderTargets NumViewports CatClipDistances _
             (fun j => clip_distance_calls j (clip_distance self !!! j)
                         (clip_distance (cur_state gl) !!! j))
             (length (clip_distance self)) i); try done.
  - intros c Hc. destruct c as [| | |cap|cap| | | | | | | | | | | | | | | | | | | ];
      try done; by destruct cap.
  - apply ApplyClipDistances_emitted.
  - intros j. apply clip_distance_calls_filter.
Qed.

Lemma Apply_clip_distance_calls_witness :
  filter (addresses_clip_distance 1)
    (issued (Apply 8 16 example_mixed_state) example_context)
  = [glEnable (GL_CLIP_DISTANCE0_plus 1)].
Proof.
  exact (Apply_clip_distance_calls 8 16 example_mixed_state example_context 1
           ltac:(simpl; lia)).
Defined.

(** ** Viewports, global blending and image binds *)

Lemma ApplyViewport_emitted NumViewports self cur :
  emitted (ApplyViewport NumViewports self) cur
  = flat_map (fun i => viewport_slot_calls i (viewports self !!! i) (viewports cur !!! i))
      (seq 0 NumViewports).
Proof.
  unfold emitted, ApplyViewport.
  rewrite (slot_loop_emitted viewports
             (fun i c => viewport_slot_calls i (viewports self !!! i) c)).
  - done.
  - intros i [g l]. unfold viewport_slot_calls. simpl cur_state.
    destruct (viewports g !!! i) as [? ? ? ? ? ? []],
             (viewports self !!! i) as [? ? ? ? ? ? []].
    st_norm. simpl.
    repeat match goal with
           | |- context [if ?b then _ else _] =>
               lazymatch b with
               | context [if _ then _ else _] => fail
               | _ => destruct b eqn:?; simpl
               end
           end;
      rewrite ?app_nil_r, <- ?app_assoc; done.
  - intros i [g l]. simpl cur_state.
    destruct (viewports g !!! i) as [? ? ? ? ? ? []],
             (viewports self !!! i) as [? ? ? ? ? ? []].
    st_norm. simpl. split_ifs; simpl; eexists; reflexivity.
Qed.

Lemma viewport_slot_calls_filter i j u c :
  filter (addresses_viewport (Z.of_nat i)) (viewport_slot_calls j u c)
  = if bool_decide (j = i) then viewport_slot_calls j u c else [].
Proof.
  unfold viewport_slot_calls. rewrite !filter_app.
  assert (Hb : bool_decide (Z.of_nat j = Z.of_nat i) = bool_decide (j = i)).
  { apply bool_decide_ext. lia. }
  rewrite !(filter_optional _ _ (bool_decide (j = i)));
    [by destruct (bool_decide (j = i))|simpl; try done..].
  by destruct (scissor_enabled (scissor u)).
Qed.

(** X10. In [Apply], the calls that address viewport [i] are, in this order
    and each only when its own fields differ from the applied state: the
    viewport rectangle, its four integers converted to [GLfloat] (so a
    member of more than 24 significant bits reaches the driver rounded); the
    depth range (its bounds compared as floating-point values); the
    scissor-test switch; and the scissor rectangle, as integers. Each call
    carries the desired values of the slot. *)
Theorem Apply_viewport_calls (NumRenderTargets NumViewports : nat)
  (self : OpenGLState) (gl : GLContext) (i : nat) :
  i < NumViewports →
  filter (addresses_viewport (Z.of_nat i))
    (issued (Apply NumRenderTargets NumViewports self) gl)
  = viewport_slot_calls i (viewports self !!! i) (viewports (cur_state gl) !!! i).
Proof.
  intros Hi.
  apply (Apply_slot_filter NumRenderTargets NumViewports CatViewport _
           (fun j => viewport_slot_calls j (viewports self !!! j)
                       (viewports (cur_state gl) !!! j))
           NumViewports i); try done.
  - intros c Hc.
    destruct c as [| | | | |cap ?|cap ?| | | | | | | | | | | | | | | | |];
      try done; by destruct cap.
  - apply ApplyViewport_emitted.
  - intros j. apply viewport_slot_calls_filter.
Qed.

(** A viewport 16777217 wide is sent as 16777216 wide. *)
Lemma Apply_viewport_calls_witness :
  filter (addresses_viewport 0)
    (issued (Apply 8 16 example_wide_state) example_context)
  = [glViewportIndexedf 0 (S754_zero false) (S754_zero false)
       (static_cast_GLfloat 16777216) (static_cast_GLfloat 720)].
Proof.
  exact (Apply_viewport_calls 8 16 example_wide_state example_context 0 ltac:(lia)).
Defined.

Lemma ApplyGlobalBlending_calls self gl :
  gl_calls (ApplyGlobalBlending self gl)
  = gl_calls gl ++ global_blending_calls (blend self !!! 0) (blend (cur_state gl) !!! 0).
Proof.
  destruct gl as [g l]. unfold ApplyGlobalBlending, global_blending_calls.
  simpl cur_state. simpl gl_calls.
  destruct (blend g !!! 0), (blend self !!! 0). st_norm. simpl.
  repeat match goal with
         | |- context [if ?b then _ else _] =>
             lazymatch b with
             | context [if _ then _ else _] => fail
             | _ => destruct b eqn:?; simpl
             end
         end;
    rewrite ?app_nil_r, <- ?app_assoc; done.
Qed.

Lemma ApplyBlending_global_emitted NumRenderTargets self cur :
  independant_blend_enabled self = false →
  emitted (ApplyBlending NumRenderTargets self) cur
  = global_blending_calls (blend self !!! 0) (blend cur !!! 0).
Proof.
  intros Hind. unfold emitted, ApplyBlending. cbv zeta. rewrite Hind.
  unfold with_cur. simpl. by rewrite ApplyGlobalBlending_calls.
Qed.

Lemma global_blending_calls_global u c :
  Forall (fun k => is_global_blend_call k = true ∧ is_indexed_blend_call k = false)
    (global_blending_calls u c).
Proof.
  unfold global_blending_calls.
  repeat match goal with
         | |- context [if ?b then _ else _] =>
             lazymatch b with
             | context [if _ then _ else _] => fail
             | _ => destruct b; simpl
             end
         end;
    repeat constructor.
Qed.

Lemma target_blending_calls_indexed t force u c :
  Forall (fun k => is_global_blend_call k = false ∧ is_indexed_blend_call k = true)
    (target_blending_calls t force u c).
Proof.
  unfold target_blending_calls.
  repeat match goal with
         | |- context [if ?b then _ else _] =>
             lazymatch b with
             | context [if _ then _ else _] => fail
             | _ => destruct b; simpl
             end
         end;
    repeat constructor.
Qed.

(** X11. The blending calls of [Apply] are of one kind only. With independent
    blending off in the desired state they are the calls of
    [ApplyGlobalBlending]: the non-indexed switch, function and equation,
    each only when target 0 differs from the applied target 0, whatever the
    applied independent-blending flag was (nothing is forced on the way back
    from independent to global blending), and no indexed blend call is
    issued. With independent blending on, no non-indexed blend call is
    issued. *)
Theorem Apply_blending_kind (NumRenderTargets NumViewports : nat)
  (self : OpenGLState) (gl : GLContext) :
  let calls := issued (Apply NumRenderTargets NumViewports self) gl in
  (if independant_blend_enabled self
   then filter is_global_blend_call calls = []
        ∧ filter is_indexed_blend_call calls = calls_of CatBlending calls
   else filter is_indexed_blend_call calls = []
        ∧ filter is_global_blend_call calls
          = global_blending_calls (blend self !!! 0) (blend (cur_state gl) !!! 0)).
Proof.
  intros calls. subst calls. rewrite Apply_issued.
  assert (Hg : ∀ l, filter is_global_blend_call l
                    = filter is_global_blend_call (calls_of CatBlending l)).
  { intros l. unfold calls_of. rewrite filter_filter_implied; [done|].
    intros c Hc.
    destruct c as [| | |cap|cap| | | | | | | | | | | | | | | | | | |];
      try done; by destruct cap. }
  assert (Hi : ∀ l, filter is_indexed_blend_call l
                    = filter is_indexed_blend_call (calls_of CatBlending l)).
  { intros l. unfold calls_of. rewrite filter_filter_implied; [done|].
    intros c Hc.
    destruct c as [| | | | |cap ?|cap ?| | | | | | | | | | | | | | | | |];
      try done; by destruct cap. }
  rewrite Hg, Hi, calls_of_Apply_emitted. simpl routine_of.
  destruct (independant_blend_enabled self) eqn:Hind.
  - rewrite ApplyBlending_independent_emitted by done. split.
    + apply filter_none. apply Forall_flat_map, Forall_forall. intros t _.
      eapply Forall_impl; [apply target_blending_calls_indexed|].
      simpl. intros c [-> _]. exact id.
    + apply filter_all. apply Forall_flat_map, Forall_forall. intros t _.
      eapply Forall_impl; [apply target_blending_calls_indexed|].
      simpl. intros c [_ ->]. exact I.
  - rewrite ApplyBlending_global_emitted by done. split.
    + apply filter_none.
      eapply Forall_impl; [apply global_blending_calls_global|].
      simpl. intros c [_ ->]. exact id.
    + apply filter_all.
      eapply Forall_impl; [apply global_blending_calls_global|].
      simpl. intros c [-> _]. exact I.
Qed.

(** X12. Every image bind [Apply] issues stays inside the image array: its
    first unit is not negative, it covers at least one unit, it ends within
    the array, and it carries exactly as many handles as it announces, so the
    driver never reads past the desired array; and [Apply] issues at most one
    image bind. *)
Theorem Apply_image_bind_in_bounds (NumRenderTargets NumViewports : nat)
  (self : OpenGLState) (gl : GLContext) :
  length (images (cur_state gl)) = length (images self) →
  Forall (image_bind_in_bounds (length (images self)))
    (issued (Apply NumRenderTargets NumViewports self) gl)
  ∧ length (calls_of CatImages (issued (Apply NumRenderTargets NumViewports self) gl))
    ≤ 1.
Proof.
  intros Hlen.
  assert (Hcalls : Forall (image_bind_in_bounds (length (images self)))
                     (calls_of CatImages
                        (issued (Apply NumRenderTargets NumViewports self) gl))
                   ∧ length (calls_of CatImages
                        (issued (Apply NumRenderTargets NumViewports self) gl)) ≤ 1).
  { rewrite Apply_issued, calls_of_Apply_emitted. simpl routine_of.
    unfold emitted, ApplyImages. cbv zeta. simpl cur_state.
    destruct (UpdateArray_spec (images (cur_state gl)) (images self) Hlen) as [_ Hspec].
    destruct (UpdateArray (images (cur_state gl)) (images self)) as [cv [[f c]|]];
      simpl in Hspec; simpl; [|split; [constructor|lia]].
    destruct Hspec as (first & last & -> & -> & Hr & _).
    split; [|lia]. repeat constructor; try lia.
    rewrite length_take, length_drop, !Nat2Z.id. lia. }
  destruct Hcalls as [Hin Hone]. split; [|done].
  apply Forall_forall. intros c Hc.
  destruct (decide (category_of c = CatImages)) as [Hcat|Hcat].
  - rewrite Forall_forall in Hin. apply Hin. unfold calls_of.
    by apply list_elem_of_filter.
  - by destruct c.
Qed.

Lemma Apply_image_bind_in_bounds_witness :
  Forall (image_bind_in_bounds 8) (issued (Apply 8 16 example_images_state) example_context)
  ∧ length (calls_of CatImages (issued (Apply 8 16 example_images_state) example_context))
    ≤ 1.
Proof.
  exact (Apply_image_bind_in_bounds 8 16 example_images_state example_context eq_refl).
Defined.

(** ** Applying a state that differs in one category *)

Lemma confined_run {T} (get : OpenGLState → T) set f gl :
  lens_laws get set → confined get set f →
  f gl = mkGLContext (set (get (cur_state (f (mkGLContext (cur_state gl) []))))
                        (cur_state gl))
           (gl_calls gl ++ gl_calls (f (mkGLContext (cur_state gl) []))).
Proof.
  intros [Hgs _ _] (u & o & Hf). rewrite !Hf. simpl. by rewrite Hgs.
Qed.

Lemma framebuffers_laws : lens_laws get_framebuffers set_framebuffers.
Proof. split; [by intros [] [[]]|by intros [] [] [[]]|by intros [[]]]. Qed.

Ltac use_fixed NRT NVP self cur Hlen Hm c :=
  try (let E := fresh "E" in
       pose proof (routine_fixed NRT NVP c self cur Hlen (Hm c ltac:(discriminate))) as E;
       cbv beta iota delta [routine_of] in E; rewrite !E; clear E).

Lemma Apply_single_category NumRenderTargets NumViewports cat self gl :
  length (viewports self) = NumViewports →
  (∀ c, c ≠ cat → category_matches c self (cur_state gl)) →
  Apply NumRenderTargets NumViewports self gl
  = routine_of NumRenderTargets NumViewports cat self gl.
Proof.
  intros Hlen Hm. rewrite Apply_unfold. destruct gl as [cur l].
  simpl cur_state in *. simpl gl_calls.
  unfold Apply_result, Apply_emitted, emitted, after.
  destruct cat; cbv beta iota delta [routine_of];
    use_fixed NumRenderTargets NumViewports self cur Hlen Hm CatFramebuffer;
    use_fixed NumRenderTargets NumViewports self cur Hlen Hm CatProgram;
    use_fixed NumRenderTargets NumViewports self cur Hlen Hm CatPipeline;
    use_fixed NumRenderTargets NumViewports self cur Hlen Hm CatClipDistances;
    use_fixed NumRenderTargets NumViewports self cur Hlen Hm CatColorClamp;
    use_fixed NumRenderTargets NumViewports self cur Hlen Hm CatMultisample;
    use_fixed NumRenderTargets NumViewports self cur Hlen Hm CatRasterizerDiscard;
    use_fixed NumRenderTargets NumViewports self cur Hlen Hm CatColorMask;
    use_fixed NumRenderTargets NumViewports self cur Hlen Hm CatViewport;
    use_fixed NumRenderTargets NumViewports self cur Hlen Hm CatStencil;
    use_fixed NumRenderTargets NumViewports self cur Hlen Hm CatBlending;
    use_fixed NumRenderTargets NumViewports self cur Hlen Hm CatTextures;
    use_fixed NumRenderTargets NumViewports self cur Hlen Hm CatSamplers;
    use_fixed NumRenderTargets NumViewports self cur Hlen Hm CatImages;
    use_fixed NumRenderTargets NumViewports self cur Hlen Hm CatClipControl;
    use_fixed NumRenderTargets NumViewports self cur Hlen Hm CatRenderBuffer;
    cbn [cur_state gl_calls app]; rewrite ?app_nil_r.
  all: match goal with
       | |- _ = ?f (mkGLContext ?c ?k) =>
           first
             [ rewrite (confined_run get_framebuffers set_framebuffers f (mkGLContext c k));
               [|first [lens_laws_tac|apply blending_laws|apply framebuffers_laws]|apply ApplyFramebufferState_confined]
             | rewrite (confined_run get_program set_program f (mkGLContext c k));
               [|first [lens_laws_tac|apply blending_laws|apply framebuffers_laws]|apply ApplyShaderProgram_confined]
             | rewrite (confined_run get_pipeline set_pipeline f (mkGLContext c k));
               [|first [lens_laws_tac|apply blending_laws|apply framebuffers_laws]|apply ApplyProgramPipeline_confined]
             | rewrite (confined_run clip_distance set_clip_distance f (mkGLContext c k));
               [|first [lens_laws_tac|apply blending_laws|apply framebuffers_laws]|apply ApplyClipDistances_confined]
             | rewrite (confined_run fragment_color_clamp_enabled
                          set_fragment_color_clamp_enabled f (mkGLContext c k));
               [|first [lens_laws_tac|apply blending_laws|apply framebuffers_laws]|apply ApplyFragmentColorClamp_confined]
             | rewrite (confined_run multisample_control set_multisample_control f (mkGLContext c k));
               [|first [lens_laws_tac|apply blending_laws|apply framebuffers_laws]|apply ApplyMultisample_confined]
             | rewrite (confined_run rasterizer_discard set_rasterizer_discard f (mkGLContext c k));
               [|first [lens_laws_tac|apply blending_laws|apply framebuffers_laws]|apply ApplyRasterizerDiscard_confined]
             | rewrite (confined_run color_mask set_color_mask f (mkGLContext c k));
               [|first [lens_laws_tac|apply blending_laws|apply framebuffers_laws]|apply ApplyColorMask_confined]
             | rewrite (confined_run viewports set_viewports f (mkGLContext c k));
               [|first [lens_laws_tac|apply blending_laws|apply framebuffers_laws]|apply ApplyViewport_confined]
             | rewrite (confined_run stencil set_stencil f (mkGLContext c k));
               [|first [lens_laws_tac|apply blending_laws|apply framebuffers_laws]|apply ApplyStencilTest_confined]
             | rewrite (confined_run get_blending set_blending f (mkGLContext c k));
               [|first [lens_laws_tac|apply blending_laws|apply framebuffers_laws]|apply ApplyBlending_confined]
             | rewrite (confined_run textures set_textures f (mkGLContext c k));
               [|first [lens_laws_tac|apply blending_laws|apply framebuffers_laws]|apply ApplyTextures_confined]
             | rewrite (confined_run samplers set_samplers f (mkGLContext c k));
               [|first [lens_laws_tac|apply blending_laws|apply framebuffers_laws]|apply ApplySamplers_confined]
             | rewrite (confined_run images set_images f (mkGLContext c k));
               [|first [lens_laws_tac|apply blending_laws|apply framebuffers_laws]|apply ApplyImages_confined]
             | rewrite (confined_run clip_control set_clip_control f (mkGLContext c k));
               [|first [lens_laws_tac|apply blending_laws|apply framebuffers_laws]|apply ApplyClipControl_confined]
             | rewrite (confined_run renderbuffer set_renderbuffer f (mkGLContext c k));
               [|first [lens_laws_tac|apply blending_laws|apply framebuffers_laws]|apply ApplyRenderBuffer_confined] ];
           cbn [cur_state gl_calls];
           generalize (f (mkGLContext c [])); intros r
       end.
  all: destruct_state cur; reflexivity.
Qed.

Lemma scrubbed_matches handle (scrub : GLuint → OpenGLState → OpenGLState) own cur :
  Forall depth_range_ordinary (viewports cur) →
  (∀ c, c ≠ own → category_matches c cur cur →
        category_matches c (scrub handle cur) cur) →
  ∀ c, c ≠ own → category_matches c (scrub handle cur) cur.
Proof.
  intros Hord Hframe c Hc. apply Hframe; [done|].
  destruct c; simpl; auto.
Qed.

Lemma ApplyTextures_run self gl :
  length (textures (cur_state gl)) = length (textures self) →
  ApplyTextures self gl
  = mkGLContext (set_textures (textures self) (cur_state gl))
      (gl_calls gl
       ++ flat_map (fun i => texture_slot_calls i (textures self !!! i)
                               (textures (cur_state gl) !!! i))
            (seq 0 (length (textures self)))).
Proof.
  intros Hlen.
  rewrite (confined_run textures set_textures (ApplyTextures self) gl);
    [|lens_laws_tac|apply ApplyTextures_confined].
  change (cur_state (ApplyTextures self (mkGLContext (cur_state gl) [])))
    with (after (ApplyTextures self) (cur_state gl)).
  change (gl_calls (ApplyTextures self (mkGLContext (cur_state gl) [])))
    with (emitted (ApplyTextures self) (cur_state gl)).
  by rewrite ApplyTextures_after, ApplyTextures_emitted.
Qed.

Lemma ApplySamplers_run self gl :
  length (samplers (cur_state gl)) = length (samplers self) →
  ApplySamplers self gl
  = mkGLContext (set_samplers (samplers self) (cur_state gl))
      (gl_calls gl
       ++ flat_map (fun i => sampler_slot_calls i (samplers self !!! i)
                               (samplers (cur_state gl) !!! i))
            (seq 0 (length (samplers self)))).
Proof.
  intros Hlen.
  rewrite (confined_run samplers set_samplers (ApplySamplers self) gl);
    [|lens_laws_tac|apply ApplySamplers_confined].
  change (cur_state (ApplySamplers self (mkGLContext (cur_state gl) [])))
    with (after (ApplySamplers self) (cur_state gl)).
  change (gl_calls (ApplySamplers self (mkGLContext (cur_state gl) [])))
    with (emitted (ApplySamplers self) (cur_state gl)).
  by rewrite ApplySamplers_after, ApplySamplers_emitted.
Qed.

Lemma flat_map_seq_ext {A} (f g : nat → list A) n :
  (∀ i, i < n → f i = g i) → flat_map f (seq 0 n) = flat_map g (seq 0 n).
Proof.
  intros H. induction n as [|n IH]; [done|].
  rewrite seq_S, !flat_map_app. simpl. rewrite IH, H by (intros; auto with lia). done.
Qed.

Lemma flat_map_seq_nil {A} (f : nat → list A) n :
  (∀ i, i < n → f i = []) → flat_map f (seq 0 n) = [].
Proof.
  intros H. rewrite (flat_map_seq_ext f (fun _ => [])) by done.
  clear H. induction n as [|n IH]; [done|]. by rewrite seq_S, flat_map_app, IH.
Qed.

Lemma lookup_total_map_lt (f : Z → Z) (l : list Z) i :
  i < length l → map f l !!! i = f (l !!! i).
Proof.
  intros Hi. apply list_lookup_total_correct.
  change (map f l) with (f <$> l). rewrite list_lookup_fmap.
  by rewrite (list_lookup_lookup_total_lt l i Hi).
Qed.

(** X13. Forgetting a texture costs no driver call: applying the applied state
    itself with [UnbindTexture handle] performed on it issues nothing and
    leaves the applied state with every unit that held the handle at zero,
    everything else as it was. *)
Theorem Apply_UnbindTexture_silent (NumRenderTargets NumViewports : nat)
  (handle : GLuint) (gl : GLContext) :
  length (viewports (cur_state gl)) = NumViewports →
  Forall depth_range_ordinary (viewports (cur_state gl)) →
  Apply NumRenderTargets NumViewports (UnbindTexture handle (cur_state gl)) gl
  = mkGLContext (UnbindTexture handle (cur_state gl)) (gl_calls gl).
Proof.
  intros Hlen Hord.
  rewrite (Apply_single_category _ _ CatTextures); [|done|].
  2:{ apply (scrubbed_matches handle UnbindTexture); [done|].
      intros c Hc. by destruct c. }
  simpl routine_of. rewrite ApplyTextures_run by (simpl; by rewrite length_map).
  f_equal. rewrite flat_map_seq_nil; [by rewrite app_nil_r|].
  intros i Hi. simpl in Hi |- *. rewrite length_map in Hi.
  rewrite lookup_total_map_lt by done. unfold texture_slot_calls.
  repeat case_bool_decide; simpl; congruence.
Qed.

Lemma example_bound_ordinary :
  Forall depth_range_ordinary (viewports example_bound_state).
Proof. repeat (constructor; [split; reflexivity|]). constructor. Qed.

Lemma Apply_UnbindTexture_silent_witness :
  Apply 8 16 (UnbindTexture 7 example_bound_state) (mkGLContext example_bound_state [])
  = mkGLContext (UnbindTexture 7 example_bound_state) [].
Proof.
  exact (Apply_UnbindTexture_silent 8 16 7 (mkGLContext example_bound_state [])
           eq_refl example_bound_ordinary).
Defined.

(** X14. Forgetting a sampler is told to the driver: applying the applied state
    itself with [ResetSampler handle] performed on it issues one
    [glBindSampler unit 0] for each unit that held the (non-zero) handle, in
    unit order, nothing else, and leaves those units at zero. *)
Theorem Apply_ResetSampler_unbinds (NumRenderTargets NumViewports : nat)
  (handle : GLuint) (gl : GLContext) :
  length (viewports (cur_state gl)) = NumViewports →
  Forall depth_range_ordinary (viewports (cur_state gl)) →
  Apply NumRenderTargets NumViewports (ResetSampler handle (cur_state gl)) gl
  = mkGLContext (ResetSampler handle (cur_state gl))
      (gl_calls gl
       ++ flat_map (fun unit =>
                      if bool_decide (samplers (cur_state gl) !!! unit = handle)
                         && bool_decide (handle ≠ 0%Z)
                      then [glBindSampler (Z.of_nat unit) 0] else [])
            (seq 0 (length (samplers (cur_state gl))))).
Proof.
  intros Hlen Hord.
  rewrite (Apply_single_category _ _ CatSamplers); [|done|].
  2:{ apply (scrubbed_matches handle ResetSampler); [done|].
      intros c Hc. by destruct c. }
  simpl routine_of. rewrite ApplySamplers_run by (simpl; by rewrite length_map).
  do 2 f_equal. simpl. rewrite length_map. apply flat_map_seq_ext.
  intros i Hi. rewrite lookup_total_map_lt by done. unfold sampler_slot_calls.
  repeat case_bool_decide; simpl; congruence.
Qed.

Lemma Apply_ResetSampler_unbinds_witness :
  Apply 8 16 (ResetSampler 7 example_bound_state) (mkGLContext example_bound_state [])
  = mkGLContext (ResetSampler 7 example_bound_state) [glBindSampler 3 0].
Proof.
  exact (Apply_ResetSampler_unbinds 8 16 7 (mkGLContext example_bound_state [])
           eq_refl example_bound_ordinary).
Defined.

Ltac reset_flow scrub handle cat :=
  rewrite (Apply_single_category _ _ cat);
    [|unfold scrub; cbv zeta; repeat case_bool_decide; done
     |apply (scrubbed_matches handle scrub); [done|];
      let c := fresh "c" in
      intros c ? ?; unfold scrub; cbv zeta;
      repeat case_bool_decide; destruct c; done];
  simpl routine_of;
  unfold ApplyShaderProgram, ApplyProgramPipeline, ApplyRenderBuffer,
    ApplyFramebufferState, scrub;
  match goal with gl : GLContext |- _ => destruct gl as [gl ?]; destruct_state gl end;
  simpl; st_norm; simpl;
  repeat (case_bool_decide; simpl in *; subst);
  rewrite ?app_nil_r, <- ?app_assoc; first [done|congruence].

(** X15. Forgetting a program, pipeline, renderbuffer or framebuffer: applying
    the applied state itself with the [Reset...] member performed on it
    issues exactly the unbinding call (handle zero) when the applied state
    held the non-zero handle and nothing otherwise; for a framebuffer the
    read binding and the draw binding are unbound separately, read first. In
    each case the applied state becomes the reset one. *)
Theorem Apply_Reset_unbinds (NumRenderTargets NumViewports : nat)
  (handle : GLuint) (gl : GLContext) :
  length (viewports (cur_state gl)) = NumViewports →
  Forall depth_range_ordinary (viewports (cur_state gl)) →
  Apply NumRenderTargets NumViewports (ResetProgram handle (cur_state gl)) gl
  = mkGLContext (ResetProgram handle (cur_state gl))
      (gl_calls gl
       ++ if bool_decide (shader_program (draw (cur_state gl)) = handle)
             && bool_decide (handle ≠ 0%Z)
          then [glUseProgram 0] else [])
  ∧ Apply NumRenderTargets NumViewports (ResetPipeline handle (cur_state gl)) gl
    = mkGLContext (ResetPipeline handle (cur_state gl))
        (gl_calls gl
         ++ if bool_decide (program_pipeline (draw (cur_state gl)) = handle)
               && bool_decide (handle ≠ 0%Z)
            then [glBindProgramPipeline 0] else [])
  ∧ Apply NumRenderTargets NumViewports (ResetRenderbuffer handle (cur_state gl)) gl
    = mkGLContext (ResetRenderbuffer handle (cur_state gl))
        (gl_calls gl
         ++ if bool_decide (renderbuffer (cur_state gl) = handle)
               && bool_decide (handle ≠ 0%Z)
            then [glBindRenderbuffer GL_RENDERBUFFER 0] else [])
  ∧ Apply NumRenderTargets NumViewports (ResetFramebuffer handle (cur_state gl)) gl
    = mkGLContext (ResetFramebuffer handle (cur_state gl))
        (gl_calls gl
         ++ (if bool_decide (read_framebuffer (draw (cur_state gl)) = handle)
                && bool_decide (handle ≠ 0%Z)
             then [glBindFramebuffer GL_READ_FRAMEBUFFER 0] else [])
         ++ (if bool_decide (draw_framebuffer (draw (cur_state gl)) = handle)
                && bool_decide (handle ≠ 0%Z)
             then [glBindFramebuffer GL_DRAW_FRAMEBUFFER 0] else [])).
Proof.
  intros Hlen Hord. repeat apply conj.
  - reset_flow ResetProgram handle CatProgram.
  - reset_flow ResetPipeline handle CatPipeline.
  - reset_flow ResetRenderbuffer handle CatRenderBuffer.
  - reset_flow ResetFramebuffer handle CatFramebuffer.
Qed.

Lemma example_mixed_ordinary :
  Forall depth_range_ordinary (viewports example_mixed_state).
Proof. repeat (constructor; [split; reflexivity|]). constructor. Qed.

Lemma Apply_Reset_unbinds_witness :
  Apply 8 16 (ResetFramebuffer 1 example_mixed_state)
    (mkGLContext example_mixed_state [])
  = mkGLContext (ResetFramebuffer 1 example_mixed_state)
      [glBindFramebuffer GL_READ_FRAMEBUFFER 0; glBindFramebuffer GL_DRAW_FRAMEBUFFER 0].
Proof.
  exact (proj2 (proj2 (proj2
           (Apply_Reset_unbinds 8 16 1 (mkGLContext example_mixed_state [])
              eq_refl example_mixed_ordinary)))).
Defined.

(** ** Viewport emulation *)

(** X16. Calling [EmulateViewportWithScissor] a second time changes nothing,
    provided the integers of slot 0 are small enough for the 32-bit sums not
    to wrap and either scissoring was already enabled before the first call
    or the viewport rectangle has no negative member (a negative member is
    copied by the first call and clamped to zero by the second). *)
Theorem EmulateViewportWithScissor_idempotent (self : OpenGLState) :
  0 < length (viewports self) →
  rect_small (viewports self !!! 0) →
  scissor_enabled (scissor (viewports self !!! 0)) = true
  ∨ (0 ≤ x (viewports self !!! 0%nat) ∧ 0 ≤ y (viewports self !!! 0%nat)
     ∧ 0 ≤ width (viewports self !!! 0%nat)
     ∧ 0 ≤ height (viewports self !!! 0%nat))%Z →
  EmulateViewportWithScissor (EmulateViewportWithScissor self)
  = EmulateViewportWithScissor self.
Proof.
  intros Hlen Hsmall Hcase.
  unfold EmulateViewportWithScissor at 1. cbv zeta.
  rewrite EmulateViewportWithScissor_slot0 by done.
  unfold EmulateViewportWithScissor. cbv zeta.
  destruct self as [? ? ? ? ? ? vps ? ? ? ? ? ? ? ?]. unfold set_viewports. simpl in *.
  rewrite list_insert_insert_eq. do 2 f_equal.
  destruct (vps !!! 0) as [vx vy vw vh dn df [en sx sy sw sh]]. simpl in *.
  unfold rect_small in Hsmall. cbv zeta beta in Hsmall. simpl in Hsmall, Hcase.
  destruct Hsmall as (Hx & Hy & Hw & Hh & Hsx & Hsy & Hsw & Hsh).
  change (2 ^ 29)%Z with 536870912%Z in *.
  destruct en; simpl.
  - unwrap_GLint. do 2 f_equal; lia.
  - destruct Hcase as [?|(? & ? & ? & ?)]; [done|].
    unwrap_GLint. do 2 f_equal; lia.
Qed.

Lemma EmulateViewportWithScissor_idempotent_witness :
  EmulateViewportWithScissor (EmulateViewportWithScissor example_overlap_state)
  = EmulateViewportWithScissor example_overlap_state.
Proof.
  apply EmulateViewportWithScissor_idempotent.
  - simpl. lia.
  - unfold rect_small. simpl. lia.
  - left. reflexivity.
Defined.

(** ** The binding-base table *)

Lemma to_u32_small (z : Z) : (0 ≤ z < 2 ^ 32)%Z → to_u32 z = z.
Proof. intros Hz. unfold to_u32. by rewrite Z.mod_small. Qed.

(** Removes the conversions to [u32] that do not wrap, innermost first. *)
Ltac unwrap_u32 :=
  repeat match goal with
         | |- context [to_u32 ?z] =>
             lazymatch z with
             | context [to_u32 _] => fail
             | _ => rewrite (to_u32_small z)
                      by (change (2 ^ 32)%Z with 4294967296%Z; lia)
             end
         end.

(** X17. When every limit the driver reports is a count below 2^28 and every
    stage has at least one uniform block, nothing wraps: each stage's bases
    are the previous stage's bases plus the previous stage's reported limits
    (less the reserved uniform block), so the bases never decrease from one
    graphics stage to the next and the stages' binding ranges do not
    overlap. *)
Theorem Device_base_bindings_plain (drv : Driver) :
  (∀ pname, (0 ≤ glGetIntegerv drv pname < 2 ^ 28)%Z) →
  (∀ k uniform_blocks shader_storage_blocks texture_image_units image_uniforms,
     stage_limits !! k
     = Some (uniform_blocks, shader_storage_blocks, texture_image_units, image_uniforms) →
     (1 ≤ glGetIntegerv drv uniform_blocks)%Z) →
  ∀ k uniform_blocks shader_storage_blocks texture_image_units image_uniforms,
    stage_limits !! k
    = Some (uniform_blocks, shader_storage_blocks, texture_image_units, image_uniforms) →
    (uniform_buffer (Device_base_bindings drv !!! S k)
     = uniform_buffer (Device_base_bindings drv !!! k)
       + (glGetIntegerv drv uniform_blocks - 1)
     ∧ shader_storage_buffer (Device_base_bindings drv !!! S k)
       = shader_storage_buffer (Device_base_bindings drv !!! k)
         + glGetIntegerv drv shader_storage_blocks
     ∧ sampler (Device_base_bindings drv !!! S k)
       = sampler (Device_base_bindings drv !!! k)
         + glGetIntegerv drv texture_image_units
     ∧ image (Device_base_bindings drv !!! S k)
       = image (Device_base_bindings drv !!! k) + glGetIntegerv drv image_uniforms)%Z.
Proof.
  intros Hrange Hub k ub ssb tex img Hk.
  pose proof (Hub 0 _ _ _ _ eq_refl) as Hu0. pose proof (Hub 1 _ _ _ _ eq_refl) as Hu1.
  pose proof (Hub 2 _ _ _ _ eq_refl) as Hu2. pose proof (Hub 3 _ _ _ _ eq_refl) as Hu3.
  assert (Hr : ∀ pname, (0 ≤ glGetIntegerv drv pname < 268435456)%Z) by exact Hrange.
  clear Hub Hrange.
  destruct k as [|[|[|[|k]]]]; simpl in Hk; [..|discriminate];
    injection Hk as <- <- <- <-;
    unfold Device_base_bindings, BaseBindings_add, BuildBaseBindings, GetInteger_u32,
      ReservedUniformBlocks; cbv zeta; simpl;
    repeat match goal with
           | |- context [glGetIntegerv drv ?p] =>
               lazymatch goal with
               | _ : (0 ≤ glGetIntegerv drv p < 268435456)%Z |- _ => fail
               | _ => pose proof (Hr p)
               end
           end;
    unwrap_u32; repeat apply conj; lia.
Qed.

Lemma example_driver_range pname :
  (0 ≤ glGetIntegerv example_driver pname < 2 ^ 28)%Z.
Proof. destruct pname; simpl; lia. Qed.

Lemma Device_base_bindings_plain_witness :
  (uniform_buffer (Device_base_bindings example_driver !!! 4%nat)
   = uniform_buffer (Device_base_bindings example_driver !!! 3%nat) + (14 - 1))%Z.
Proof.
  exact (proj1 (Device_base_bindings_plain example_driver example_driver_range
                  ltac:(intros [|[|[|[|?]]]] ? ? ? ? [=]; subst; simpl; lia)
                  3 _ _ _ _ eq_refl)).
Defined.

Lemma to_u32_minus_reserved (a : Z) :
  to_u32 (a + to_u32 (to_u32 0 - 1)) = to_u32 (a - 1).
Proof.
  unfold to_u32. rewrite Z.mod_0_l by done. rewrite Zplus_mod_idemp_r.
  by replace (a + (0 - 1))%Z with (a - 1)%Z by lia.
Qed.

(** X18. A stage for which the driver reports no uniform block moves the next
    stage's uniform-buffer base one below its own, modulo 2^32 (to 2^32 - 1
    when its own base is zero): the reserved block is subtracted from the
    reported zero without a check. *)
Theorem Device_base_bindings_zero_uniform_limit (drv : Driver) (k : nat)
  (uniform_blocks shader_storage_blocks texture_image_units image_uniforms : GLlimit) :
  stage_limits !! k
  = Some (uniform_blocks, shader_storage_blocks, texture_image_units, image_uniforms) →
  glGetIntegerv drv uniform_blocks = 0%Z →
  uniform_buffer (Device_base_bindings drv !!! S k)
  = to_u32 (uniform_buffer (Device_base_bindings drv !!! k) - 1).
Proof.
  intros Hk Hzero.
  destruct k as [|[|[|[|k]]]]; simpl in Hk; [..|discriminate];
    injection Hk as <- <- <- <-;
    unfold Device_base_bindings, BaseBindings_add, BuildBaseBindings, GetInteger_u32,
      ReservedUniformBlocks; cbv zeta; simpl; rewrite Hzero;
    apply to_u32_minus_reserved.
Qed.

Lemma Device_base_bindings_zero_uniform_limit_witness :
  uniform_buffer (Device_base_bindings example_no_uniform_driver !!! 1%nat) = 0%Z.
Proof.
  exact (Device_base_bindings_zero_uniform_limit example_no_uniform_driver 0 _ _ _ _
           eq_refl eq_refl).
Defined.

(** ** Device construction *)

Lemma GetExtensions_loop_outcome (glGetStringi : GLuint → option string) (n : nat) :
  let loop := for_loop n
    (fun index (extensions : Outcome (list string)) =>
       extensions ← extensions;
       name ← string_view_of (glGetStringi (Z.of_nat index));
       Returns (extensions ++ [name]))
    (Returns []) in
  (∃ extensions, loop = Returns extensions
     ∧ (∀ index, index < n → is_Some (glGetStringi (Z.of_nat index)))
     ∧ ∀ name, name ∈ extensions
               ↔ ∃ index, index < n ∧ glGetStringi (Z.of_nat index) = Some name)
  ∨ (loop = Undefined ∧ ∃ index, index < n ∧ glGetStringi (Z.of_nat index) = None).
Proof.
  induction n as [|n IH]; simpl.
  - left. exists []. split; [done|]. split; [lia|].
    intros name. split; [by intros ?%elem_of_nil|by intros (? & ? & _); lia].
  - destruct IH as [(extensions & -> & Hall & Helem)|(-> & index & Hi & Hnull)].
    + simpl. destruct (glGetStringi (Z.of_nat n)) as [name|] eqn:Hn; simpl.
      * left. exists (extensions ++ [name]). split; [done|]. split.
        { intros index Hi. destruct (decide (index = n)) as [->|]; [by rewrite Hn|].
          apply Hall. lia. }
        intros name'. rewrite elem_of_app, Helem, list_elem_of_singleton. split.
        { intros [(index & Hi & E)| ->]; [exists index; split; [lia|done]|].
          exists n. split; [lia|done]. }
        intros (index & Hi & E). destruct (decide (index = n)) as [->|].
        { right. congruence. }
        left. exists index. split; [lia|done].
      * right. split; [done|]. exists n. split; [lia|done].
    + right. split; [done|]. exists index. split; [lia|done].
Qed.

(** X19. How constructing a [Device] ends. It returns a device exactly when
    the vendor string is not null, the extension count is not negative, the
    allocator provides the string views reserved for a positive count, and no
    extension string below the count is null. It throws [std::length_error]
    exactly when the count is negative, and [std::bad_alloc] exactly when the
    count is positive and the allocator fails (the vendor string not being
    null in both cases); it never throws [std::out_of_range]. What remains, a
    null vendor string or a null extension string below the count, is
    undefined behaviour. The probes do not enter into it. *)
Theorem Device_Device_outcome (h : Host) :
  ((∃ d, Device_Device h = Returns d)
   ↔ is_Some (GL_VENDOR h) ∧ (0 ≤ GL_NUM_EXTENSIONS h)%Z
     ∧ ((0 < GL_NUM_EXTENSIONS h)%Z → can_allocate h (GL_NUM_EXTENSIONS h) = true)
     ∧ ∀ index, (0 ≤ index < GL_NUM_EXTENSIONS h)%Z → is_Some (GL_EXTENSIONS h index))
  ∧ (Device_Device h = Throws length_error
     ↔ is_Some (GL_VENDOR h) ∧ (GL_NUM_EXTENSIONS h < 0)%Z)
  ∧ (Device_Device h = Throws bad_alloc
     ↔ is_Some (GL_VENDOR h) ∧ (0 < GL_NUM_EXTENSIONS h)%Z
       ∧ can_allocate h (GL_NUM_EXTENSIONS h) = false)
  ∧ Device_Device h ≠ Throws out_of_range
  ∧ (Device_Device h = Undefined
     ↔ GL_VENDOR h = None
       ∨ ((0 ≤ GL_NUM_EXTENSIONS h)%Z
          ∧ ((0 < GL_NUM_EXTENSIONS h)%Z → can_allocate h (GL_NUM_EXTENSIONS h) = true)
          ∧ ∃ index, (0 ≤ index < GL_NUM_EXTENSIONS h)%Z ∧ GL_EXTENSIONS h index = None)).
Proof.
  unfold Device_Device, GetExtensions, TestComponentIndexingBug. cbv zeta.
  rewrite (component_indexing_loop_total (host_driver h) 4 (8 - 4)) by (simpl; lia).
  destruct (GL_VENDOR h) as [vendor|]; simpl.
  2:{ repeat apply conj; try done.
      - by intros [d ?].
      - by intros ([? ?] & _).
      - by intros ([? ?] & _).
      - by intros ([? ?] & _).
      - intros _. by left. }
  destruct (decide (GL_NUM_EXTENSIONS h < 0)%Z) as [Hneg|Hneg].
  { rewrite (bool_decide_eq_true_2 (GL_NUM_EXTENSIONS h < 0)%Z) by done. simpl.
    repeat apply conj; try done.
    - by intros [d ?].
    - intros (_ & ?); lia.
    - intros (_ & ?); lia.
    - intros [?|(? & _)]; [done|lia]. }
  rewrite (bool_decide_eq_false_2 (GL_NUM_EXTENSIONS h < 0)%Z) by done.
  destruct (decide (0 < GL_NUM_EXTENSIONS h)%Z) as [Hpos|Hpos].
  - rewrite (bool_decide_eq_true_2 (0 < GL_NUM_EXTENSIONS h)%Z) by done. simpl.
    destruct (can_allocate h (GL_NUM_EXTENSIONS h)) eqn:Halloc; simpl.
    2:{ repeat apply conj; try done.
        - by intros [d ?].
        - intros (_ & _ & Hc & _). by specialize (Hc Hpos).
        - intros (_ & ?); lia.
        - intros [?|(_ & Hc & _)]; [done|]. by specialize (Hc Hpos). }
    destruct (GetExtensions_loop_outcome (GL_EXTENSIONS h)
                (Z.to_nat (GL_NUM_EXTENSIONS h)))
      as [(extensions & -> & Hall & _)|(-> & index & Hi & Hnull)]; simpl.
    + assert (Hall' : ∀ index, (0 ≤ index < GL_NUM_EXTENSIONS h)%Z
                               → is_Some (GL_EXTENSIONS h index)).
      { intros index Hi. specialize (Hall (Z.to_nat index)).
        rewrite Z2Nat.id in Hall by lia. apply Hall. lia. }
      repeat apply conj; try done.
      * intros _. split; [done|]. split; [lia|]. done.
      * by eauto.
      * intros (_ & ?). lia.
      * by intros (_ & _ & ?).
      * intros [?|(_ & _ & index & Hi & Hnull)]; [done|].
        destruct (Hall' index Hi) as [? ?]. congruence.
    + repeat apply conj; try done.
      * by intros [d ?].
      * intros (_ & _ & _ & Hall). destruct (Hall (Z.of_nat index)) as [? ?]; [lia|].
        congruence.
      * intros (_ & ?). lia.
      * by intros (_ & _ & ?).
      * intros _. right. split; [lia|]. split; [done|].
        exists (Z.of_nat index). split; [lia|done].
  - rewrite (bool_decide_eq_false_2 (0 < GL_NUM_EXTENSIONS h)%Z) by done. simpl.
    assert (GL_NUM_EXTENSIONS h = 0%Z) as -> by lia. simpl.
    repeat apply conj; try done.
    + intros _. split; [done|]. split; [lia|]. split; [lia|]. intros index ?. lia.
    + by eauto.
    + intros (_ & ?). lia.
    + intros (_ & ? & _). lia.
    + intros [?|(_ & _ & index & ? & _)]; [done|lia].
Qed.

(** A negative count, an allocator that fails for the 2147483647 string views
    asked for, a null second extension string, and a host where all is well. *)
Lemma Device_Device_outcome_witness :
  Device_Device example_negative_count_host = Throws length_error
  ∧ Device_Device example_no_memory_host = Throws bad_alloc
  ∧ Device_Device example_null_extension_host = Undefined
  ∧ ∃ d, Device_Device example_host = Returns d.
Proof.
  destruct (Device_Device_outcome example_negative_count_host)
    as (_ & Hlength & _).
  destruct (Device_Device_outcome example_no_memory_host) as (_ & _ & Halloc & _).
  destruct (Device_Device_outcome example_null_extension_host)
    as (_ & _ & _ & _ & Hundefined).
  destruct (Device_Device_outcome example_host) as (Hreturns & _).
  split; [apply Hlength; split; [by eexists|simpl; lia]|].
  split; [apply Halloc; split; [by eexists|split; [simpl; lia|reflexivity]]|].
  split.
  - apply Hundefined. right. split; [simpl; lia|]. split; [done|].
    exists 1%Z. split; [simpl; lia|reflexivity].
  - apply Hreturns. split; [by eexists|]. split; [simpl; lia|]. split; [done|].
    intros index _. simpl. by repeat case_match.
Defined.

(** X20. In a constructed [Device], [has_image_load_formatted] is set exactly
    when the driver names [GL_EXT_shader_image_load_formatted] at an index
    below the extension count it reported (strings beyond the count are never
    looked at), and the two vendor flags are never set together: an Intel
    vendor string sets [has_broken_compute] only, an NVIDIA one
    [has_fast_buffer_sub_data] only. *)
Theorem Device_Device_flags (h : Host) (d : Device) :
  Device_Device h = Returns d →
  (has_image_load_formatted d = true
   ↔ ∃ index, (0 ≤ index < GL_NUM_EXTENSIONS h)%Z
              ∧ GL_EXTENSIONS h index = Some "GL_EXT_shader_image_load_formatted")
  ∧ (has_broken_compute d = true → has_fast_buffer_sub_data d = false)
  ∧ (has_broken_compute d = true ↔ GL_VENDOR h = Some "Intel")
  ∧ (has_fast_buffer_sub_data d = true ↔ GL_VENDOR h = Some "NVIDIA Corporation").
Proof.
  unfold Device_Device, GetExtensions. cbv zeta.
  destruct (GL_VENDOR h) as [vendor|]; [|done]. simpl.
  destruct (bool_decide (GL_NUM_EXTENSIONS h < 0)%Z) eqn:Hneg; [done|].
  apply bool_decide_eq_false in Hneg.
  destruct (bool_decide (0 < GL_NUM_EXTENSIONS h)%Z
            && negb (can_allocate h (GL_NUM_EXTENSIONS h))); [done|].
  destruct (GetExtensions_loop_outcome (GL_EXTENSIONS h)
              (Z.to_nat (GL_NUM_EXTENSIONS h)))
    as [(extensions & -> & _ & Helem)|(-> & _)]; [|done]. simpl.
  destruct (TestComponentIndexingBug (host_driver h)) as [bug|]; [|done]. simpl.
  intros [= <-]. simpl. split; [|split; [|split]].
  - unfold HasExtension. rewrite bool_decide_eq_true, Helem. split.
    + intros (index & Hi & E). exists (Z.of_nat index). split; [lia|done].
    + intros (index & Hi & E). exists (Z.to_nat index).
      rewrite Z2Nat.id by lia. split; [lia|done].
  - intros Hintel%bool_decide_eq_true. apply bool_decide_eq_false_2.
    by rewrite Hintel.
  - rewrite bool_decide_eq_true. split; [by intros ->|by intros [= ->]].
  - rewrite bool_decide_eq_true. split; [by intros ->|by intros [= ->]].
Qed.

Lemma Device_Device_flags_witness :
  ∃ d, Device_Device example_host = Returns d
       ∧ has_image_load_formatted d = true
       ∧ has_broken_compute d = true ∧ has_fast_buffer_sub_data d = false.
Proof.
  eexists. split; [reflexivity|].
  destruct (Device_Device_flags example_host _ eq_refl) as (Hext & Hvendor & Hintel & _).
  repeat apply conj.
  - apply Hext. exists 1%Z. split; [simpl; lia|reflexivity].
  - by apply Hintel.
  - apply Hvendor. by apply Hintel.
Defined.

(** ** The invalidation members on their own *)

Lemma scrub_zero (l : list GLuint) :
  map (fun v => if bool_decide (v = 0%Z) then 0%Z else v) l = l.
Proof.
  induction l as [|v l IH]; [done|]. simpl. rewrite IH. by case_bool_decide; subst.
Qed.

Lemma scrub_twice (handle : GLuint) (l : list GLuint) :
  map (fun v => if bool_decide (v = handle) then 0%Z else v)
    (map (fun v => if bool_decide (v = handle) then 0%Z else v) l)
  = map (fun v => if bool_decide (v = handle) then 0%Z else v) l.
Proof.
  induction l as [|v l IH]; [done|]. simpl. rewrite IH. f_equal.
  repeat case_bool_decide; congruence.
Qed.

(** X21. Each of the six invalidation members does nothing when called with
    handle zero, and calling it twice with the same handle is the same as
    calling it once. *)
Theorem invalidation_zero_and_repeat (handle : GLuint) (self : OpenGLState) :
  (UnbindTexture 0 self = self ∧ ResetSampler 0 self = self
   ∧ ResetProgram 0 self = self ∧ ResetPipeline 0 self = self
   ∧ ResetFramebuffer 0 self = self ∧ ResetRenderbuffer 0 self = self)
  ∧ (UnbindTexture handle (UnbindTexture handle self) = UnbindTexture handle self
     ∧ ResetSampler handle (ResetSampler handle self) = ResetSampler handle self
     ∧ ResetProgram handle (ResetProgram handle self) = ResetProgram handle self
     ∧ ResetPipeline handle (ResetPipeline handle self) = ResetPipeline handle self
     ∧ ResetFramebuffer handle (ResetFramebuffer handle self)
       = ResetFramebuffer handle self
     ∧ ResetRenderbuffer handle (ResetRenderbuffer handle self)
       = ResetRenderbuffer handle self).
Proof.
  destruct_state self.
  unfold UnbindTexture, ResetSampler, ResetProgram, ResetPipeline, ResetFramebuffer,
    ResetRenderbuffer. cbv zeta. simpl.
  rewrite !scrub_zero, !scrub_twice.
  repeat apply conj; try done;
    repeat (case_bool_decide; simpl in *; subst); st_norm; simpl;
    first [done|congruence].
Qed.
